(** * Dependency validator of defender360: a shallow embedding

    The development embeds [scripts/validate-dependencies.py] (class
    [SystemValidator] and [main]) and states properties of its checks, of the
    run summary and of the JSON report.

    Conventions of the embedding:
    - A Python [str] is the Rocq [string] of its UTF-8 encoding.  The
      operations that look at characters ([\d], [\s], [str.split],
      [str.strip], slices) decode the text one code point at a time;
      concatenation, equality, the containment of a text and the order on
      strings are those of the bytes, which agree with Python's on code
      points.
    - Everything the script asks its host (PATH lookup, child processes,
      memory and disk queries, sockets, the clock, file opening, the console)
      is a field of the record [Host].
    - Mutable state ([self.results], the files written, the lines printed)
      and a log of the commands handed to [subprocess.run] are threaded
      through a state and exception monad [M]. *)

From Stdlib Require Import ZArith QArith Ascii String List Bool Lia.
From stdpp Require Import base strings gmap list pretty.

Open Scope string_scope.
Open Scope list_scope.
Set Warnings "-register-all".

(** ** UTF-8 *)
Module Utf8.

Definition byte (c : ascii) : N := N_of_ascii c.

(** A continuation byte, [10xxxxxx]. *)
Definition is_continuation (c : ascii) : bool :=
  (128 <=? byte c)%N && (byte c <? 192)%N.

(** The six bits a continuation byte carries. *)
Definition low6 (c : ascii) : N := (byte c - 128)%N.

(** The code point encoded at the head of [s], and what follows it; [None]
    when [s] is empty or does not start with a well-formed sequence (a stray
    continuation byte, a truncated or overlong sequence, a surrogate, a
    value beyond U+10FFFF). *)
Definition decode (s : string) : option (N * string) :=
  match s with
  | EmptyString => None
  | String b0 s1 =>
      let n0 := byte b0 in
      if (n0 <? 128)%N then Some (n0, s1)
      else if (n0 <? 194)%N then None
      else if (n0 <? 224)%N then
        match s1 with
        | String b1 s2 =>
            if is_continuation b1
            then Some (((n0 - 192) * 64 + low6 b1)%N, s2)
            else None
        | _ => None
        end
      else if (n0 <? 240)%N then
        match s1 with
        | String b1 (String b2 s3) =>
            let cp := ((n0 - 224) * 4096 + low6 b1 * 64 + low6 b2)%N in
            if is_continuation b1 && is_continuation b2
               && (2048 <=? cp)%N && negb ((55296 <=? cp)%N && (cp <=? 57343)%N)
            then Some (cp, s3)
            else None
        | _ => None
        end
      else if (n0 <? 245)%N then
        match s1 with
        | String b1 (String b2 (String b3 s4)) =>
            let cp := ((n0 - 240) * 262144 + low6 b1 * 4096 + low6 b2 * 64 + low6 b3)%N in
            if is_continuation b1 && is_continuation b2 && is_continuation b3
               && (65536 <=? cp)%N && (cp <=? 1114111)%N
            then Some (cp, s4)
            else None
        | _ => None
        end
      else None
  end.

End Utf8.

(** ** Python string operations *)
Module PyStr.

(** The first character of [s], as its code point, and the rest of [s].  A
    byte that starts no well-formed sequence (no Python [str] has one)
    counts as a character of its own, with a code beyond Unicode. *)
Definition uncons (s : string) : option (N * string) :=
  match Utf8.decode s with
  | Some (cp, rest) => Some (cp, rest)
  | None =>
      match s with
      | EmptyString => None
      | String b rest => Some ((1114112 + Utf8.byte b)%N, rest)
      end
  end.

(** The bytes of [s] before its suffix [rest]. *)
Definition head (s rest : string) : string :=
  String.substring 0 (String.length s - String.length rest) s.

(** Membership of a code point in a table of ranges (bounds included). *)
Definition in_ranges (table : list (N * N)) (cp : N) : bool :=
  existsb (fun r => (fst r <=? cp)%N && (cp <=? snd r)%N) table.

(** The characters [str.isspace], [str.split], [str.strip] and the class
    [\s] take as whitespace. *)
Definition whitespace : list (N * N) :=
  [ (9, 13); (28, 32); (133, 133); (160, 160); (5760, 5760); (8192, 8202);
    (8232, 8233); (8239, 8239); (8287, 8287); (12288, 12288) ]%N.

Definition is_space (cp : N) : bool := in_ranges whitespace cp.

(** The decimal digits, the characters of the class [\d] on a [str]:
    general category Nd of Unicode 14.0, the database of CPython 3.11. *)
Definition decimal_digits : list (N * N) :=
  [ (48, 57); (1632, 1641); (1776, 1785); (1984, 1993); (2406, 2415);
    (2534, 2543); (2662, 2671); (2790, 2799); (2918, 2927); (3046, 3055);
    (3174, 3183); (3302, 3311); (3430, 3439); (3558, 3567); (3664, 3673);
    (3792, 3801); (3872, 3881); (4160, 4169); (4240, 4249); (6112, 6121);
    (6160, 6169); (6470, 6479); (6608, 6617); (6784, 6793); (6800, 6809);
    (6992, 7001); (7088, 7097); (7232, 7241); (7248, 7257); (42528, 42537);
    (43216, 43225); (43264, 43273); (43472, 43481); (43504, 43513);
    (43600, 43609); (44016, 44025); (65296, 65305); (66720, 66729);
    (68912, 68921); (69734, 69743); (69872, 69881); (69942, 69951);
    (70096, 70105); (70384, 70393); (70736, 70745); (70864, 70873);
    (71248, 71257); (71360, 71369); (71472, 71481); (71904, 71913);
    (72016, 72025); (72784, 72793); (73040, 73049); (73120, 73129);
    (92768, 92777); (92864, 92873); (93008, 93017); (120782, 120831);
    (123200, 123209); (123632, 123641); (125264, 125273); (130032, 130041) ]%N.

Definition is_decimal (cp : N) : bool := in_ranges decimal_digits cp.

(** The ranges [0-9], [A-Z] and [a-z], on code points. *)
Definition is_ascii_digit (cp : N) : bool := (48 <=? cp)%N && (cp <=? 57)%N.

Definition is_ascii_letter (cp : N) : bool :=
  ((65 <=? cp)%N && (cp <=? 90)%N) || ((97 <=? cp)%N && (cp <=? 122)%N).

(** The same ranges on bytes. *)
Definition is_digit (c : ascii) : bool :=
  let n := nat_of_ascii c in (48 <=? n)%nat && (n <=? 57)%nat.

Definition is_upper (c : ascii) : bool :=
  let n := nat_of_ascii c in (65 <=? n)%nat && (n <=? 90)%nat.

Definition lower_char (c : ascii) : ascii :=
  if is_upper c then ascii_of_nat (nat_of_ascii c + 32) else c.

(** [s.lower()], for a text whose cased letters are ASCII: the letters A to
    Z are mapped, every other byte is kept.  The script lowers the system
    and machine names of [platform] and a unit matched by [[A-Za-z]+]. *)
Fixpoint lower (s : string) : string :=
  match s with
  | EmptyString => EmptyString
  | String c s' => String (lower_char c) (lower s')
  end.

(** [s] without its leading characters that satisfy [p]; [fuel] bounds the
    number of characters looked at. *)
Fixpoint drop_while (p : N -> bool) (fuel : nat) (s : string) : string :=
  match fuel with
  | O => s
  | S fuel' =>
      match uncons s with
      | Some (cp, rest) => if p cp then drop_while p fuel' rest else s
      | None => s
      end
  end.

(** The leading characters of [s] that satisfy [p]. *)
Fixpoint take_while (p : N -> bool) (fuel : nat) (s : string) : string :=
  match fuel with
  | O => EmptyString
  | S fuel' =>
      match uncons s with
      | Some (cp, rest) =>
          if p cp then head s rest +:+ take_while p fuel' rest else EmptyString
      | None => EmptyString
      end
  end.

(** [s.lstrip()] *)
Definition lstrip (s : string) : string :=
  drop_while is_space (String.length s) s.

Fixpoint rstrip_within (fuel : nat) (s : string) : string :=
  match fuel with
  | O => EmptyString
  | S fuel' =>
      match uncons s with
      | Some (cp, rest) =>
          match rstrip_within fuel' rest with
          | EmptyString => if is_space cp then EmptyString else head s rest
          | r => head s rest +:+ r
          end
      | None => EmptyString
      end
  end.

(** [s.rstrip()] *)
Definition rstrip (s : string) : string := rstrip_within (String.length s) s.

(** [s.strip()] *)
Definition strip (s : string) : string := rstrip (lstrip s).

(** The characters of [s] up to the first whitespace. *)
Definition take_word (s : string) : string :=
  take_while (fun cp => negb (is_space cp)) (String.length s) s.

(** [s.split()[0]]: the first whitespace-delimited word; [None] stands for
    the [IndexError] raised when [s.split()] is empty. *)
Definition split_first (s : string) : option string :=
  match lstrip s with
  | EmptyString => None
  | w => Some (take_word w)
  end.

(** [s.startswith(p)] *)
Fixpoint startswith (p s : string) : bool :=
  match p, s with
  | EmptyString, _ => true
  | String a p', String b s' => if Ascii.eqb a b then startswith p' s' else false
  | String _ _, EmptyString => false
  end.

(** [p in s] *)
Fixpoint contains (p s : string) : bool :=
  startswith p s ||
  match s with
  | EmptyString => false
  | String _ s' => contains p s'
  end.

(** [s[:n]]: the first [n] characters of [s]. *)
Fixpoint prefix (n : nat) (s : string) : string :=
  match n with
  | O => EmptyString
  | S n' =>
      match uncons s with
      | Some (cp, rest) => head s rest +:+ prefix n' rest
      | None => EmptyString
      end
  end.

Fixpoint len_within (fuel : nat) (s : string) : nat :=
  match fuel with
  | O => 0
  | S fuel' =>
      match uncons s with
      | Some (_, rest) => S (len_within fuel' rest)
      | None => 0
      end
  end.

(** [len(s)]: the number of characters of [s]. *)
Definition len (s : string) : nat := len_within (String.length s) s.

(** [a >= b] on strings: lexicographic order on code points, which is the
    order of the encodings byte by byte. *)
Definition ge (a b : string) : bool := String.leb b a.

(** Membership of a string in a list literal: [s in [...]]. *)
Definition in_list (s : string) (l : list string) : bool :=
  existsb (String.eqb s) l.

(** [str(n)] for a non-negative integer. *)
Definition of_N (n : N) : string := pretty n.

(** [c * n] for a one-character string [c]. *)
Fixpoint times (c : ascii) (n : nat) : string :=
  match n with
  | O => EmptyString
  | S n' => String c (times c n')
  end.

End PyStr.

(** ** Regular expressions: the fragment of Python's [re] the script uses

    A pattern is given by its syntax tree; [search] is the backtracking,
    leftmost, greedy matcher of [re.search].  A class consumes one
    character, a literal one ASCII byte; no match of the script's patterns
    starts or ends inside a character. *)
Module Re.

Inductive regex : Type :=
| Chr (c : ascii)               (* a literal ASCII character *)
| Cls (p : N -> bool)           (* a character class: \d, \s, [...] *)
| Seq (r1 r2 : regex)           (* r1 r2 *)
| Opt (r : regex)               (* r? *)
| Star (r : regex)              (* r* *)
| Grp (n : nat) (r : regex).    (* the capturing group number n *)

(** [r+] is [r r*]. *)
Definition Plus (r : regex) : regex := Seq r (Star r).

(** A literal string followed by [k]. *)
Fixpoint lit (s : string) (k : regex) : regex :=
  match s with
  | EmptyString => k
  | String c s' => Seq (Chr c) (lit s' k)
  end.

(** The groups captured so far, most recent first. *)
Definition captures : Type := list (nat * string).

Fixpoint lookup_group (n : nat) (cs : captures) : option string :=
  match cs with
  | [] => None
  | (m, s) :: cs' => if Nat.eqb n m then Some s else lookup_group n cs'
  end.

(** The text of [s] consumed when [s'] is what remains. *)
Definition consumed (s s' : string) : string :=
  String.substring 0 (String.length s - String.length s') s.

(** [rmatch r s cs k]: match [r] at the head of [s], then continue with [k]
    on the rest; alternatives are tried in Python's order (greedy first). *)
Fixpoint rmatch (r : regex) (s : string) (cs : captures)
    (k : string -> captures -> option captures) {struct r} : option captures :=
  match r with
  | Chr c =>
      match s with
      | String c' s' => if Ascii.eqb c c' then k s' cs else None
      | EmptyString => None
      end
  | Cls p =>
      match PyStr.uncons s with
      | Some (cp, s') => if p cp then k s' cs else None
      | None => None
      end
  | Seq r1 r2 => rmatch r1 s cs (fun s' cs' => rmatch r2 s' cs' k)
  | Opt r1 =>
      match rmatch r1 s cs k with
      | Some out => Some out
      | None => k s cs
      end
  | Star r1 =>
      (fix loop (fuel : nat) (s : string) (cs : captures) {struct fuel} :=
         match fuel with
         | O => k s cs
         | S fuel' =>
             match rmatch r1 s cs
                     (fun s' cs' =>
                        if (String.length s' <? String.length s)%nat
                        then loop fuel' s' cs' else None) with
             | Some out => Some out
             | None => k s cs
             end
         end) (String.length s) s cs
  | Grp n r1 => rmatch r1 s cs (fun s' cs' => k s' ((n, consumed s s') :: cs'))
  end.

(** A match anchored at the head of [s]. *)
Definition match_here (r : regex) (s : string) : option captures :=
  rmatch r s [] (fun _ cs => Some cs).

(** [re.search(r, s)]: the match at the leftmost position that has one. *)
Fixpoint search (r : regex) (s : string) : option captures :=
  match match_here r s with
  | Some cs => Some cs
  | None =>
      match s with
      | EmptyString => None
      | String _ s' => search r s'
      end
  end.

(** [m.group(n)]; [None] when the group is absent from the match. *)
Definition group (m : captures) (n : nat) : option string := lookup_group n m.

(** [\d] and [\s] *)
Definition digit : regex := Cls PyStr.is_decimal.
Definition space : regex := Cls PyStr.is_space.

End Re.

(** The three patterns of the script. *)
Module Patterns.
Import Re.

(** [r'(\d+\.\d+(?:\.\d+)?)'], the default version pattern. *)
Definition default_version : regex :=
  Grp 1 (Seq (Plus digit) (Seq (Chr ".") (Seq (Plus digit)
           (Opt (Seq (Chr ".") (Plus digit)))))).

(** The pattern of the Java check: the text [version], a space and a double
    quote, followed by the group [(\d+)]. *)
Definition java_version : regex :=
  lit "version " (Seq (Chr "034") (Grp 1 (Plus digit))).

(** [r'Total Memory:\s*([0-9.]+)\s*([A-Za-z]+)'] *)
Definition docker_memory : regex :=
  lit "Total Memory:"
    (Seq (Star space)
      (Seq (Grp 1 (Plus (Cls (fun cp => PyStr.is_ascii_digit cp || (cp =? 46)%N))))
        (Seq (Star space) (Grp 2 (Plus (Cls PyStr.is_ascii_letter)))))).

End Patterns.

(** ** The [packaging.version] library, on release-only versions

    [packaging] is a third-party library, not part of the repository.  The
    model covers the versions the checks hand to it: dotted sequences of
    decimal numbers ([N(.N)*]); it reads every other text as invalid
    ([InvalidVersion]), although the library itself accepts more of PEP 440
    (epochs, pre-, post- and dev-releases, local parts). *)
Module Packaging.

(** The release segment of a version. *)
Definition Version : Type := list N.

Definition digit_value (c : ascii) : N := N.of_nat (nat_of_ascii c - 48).

(** [int(s)] for a non-empty string of decimal digits. *)
Fixpoint int_of_digits (acc : N) (s : string) : option N :=
  match s with
  | EmptyString => Some acc
  | String c s' =>
      if PyStr.is_digit c then int_of_digits (acc * 10 + digit_value c) s'
      else None
  end.

Definition parse_component (s : string) : option N :=
  match s with
  | EmptyString => None
  | _ => int_of_digits 0 s
  end.

(** [s.split(c)] *)
Fixpoint split_on (c : ascii) (s : string) : list string :=
  match s with
  | EmptyString => [EmptyString]
  | String a s' =>
      if Ascii.eqb a c then EmptyString :: split_on c s'
      else match split_on c s' with
           | h :: t => String a h :: t
           | [] => [String a EmptyString]
           end
  end.

Fixpoint parse_components (l : list string) : option (list N) :=
  match l with
  | [] => Some []
  | s :: l' =>
      match parse_component s, parse_components l' with
      | Some n, Some ns => Some (n :: ns)
      | _, _ => None
      end
  end.

(** [version.parse(s)]; [None] stands for [InvalidVersion]. *)
Definition parse (s : string) : option Version :=
  parse_components (split_on "." s).

(** The release with its trailing zeros removed, as in the library's
    comparison key. *)
Fixpoint strip_trailing_zeros (v : list N) : list N :=
  match v with
  | [] => []
  | n :: v' =>
      match strip_trailing_zeros v' with
      | [] => if N.eqb n 0 then [] else [n]
      | t => n :: t
      end
  end.

(** Python's order on tuples of integers. *)
Fixpoint tuple_compare (a b : list N) : comparison :=
  match a, b with
  | [], [] => Eq
  | [], _ :: _ => Lt
  | _ :: _, [] => Gt
  | x :: a', y :: b' =>
      match N.compare x y with
      | Eq => tuple_compare a' b'
      | c => c
      end
  end.

Definition compare (a b : Version) : comparison :=
  tuple_compare (strip_trailing_zeros a) (strip_trailing_zeros b).

(** [a >= b] *)
Definition ge (a b : Version) : bool :=
  match compare a b with
  | Lt => false
  | _ => true
  end.

End Packaging.

(** ** Python floats

    A finite float is the rational it denotes; [binary64] rounds a
    non-negative rational to the nearest double (ties to even), which is what
    [float(str)], [int / int] and [float / int] compute. *)
Module PyFloat.

Inductive float : Type :=
| Finite (q : Q)
| Infinity.

(** The integer nearest to [n / d], ties to the even one ([0 <= n]). *)
Definition round_half_even (n : Z) (d : positive) : Z :=
  let q := (n / Zpos d)%Z in
  let r := (n mod Zpos d)%Z in
  if (2 * r <? Zpos d)%Z then q
  else if (Zpos d <? 2 * r)%Z then (q + 1)%Z
  else if Z.even q then q else (q + 1)%Z.

(** [n / (d * 2^e)] rounded to an integer. *)
Definition scaled (n : Z) (d : positive) (e : Z) : Z :=
  if (0 <=? e)%Z
  then round_half_even n (d * Z.to_pos (2 ^ e))%positive
  else round_half_even (n * 2 ^ (- e))%Z d.

(** The exponent [e] of the unit in the last place of [n / d]: the least
    [e >= -1074] with [n / d < 2^(e + 53)]. *)
Definition ulp_exponent (n : Z) (d : positive) : Z :=
  let l := (Z.log2 n - Z.log2 (Zpos d))%Z in
  let below :=
    if (0 <=? l)%Z then (n <? Zpos d * 2 ^ l)%Z else (n * 2 ^ (- l) <? Zpos d)%Z in
  let e := if below then (l - 53)%Z else (l - 52)%Z in
  Z.max e (-1074).

Definition binary64 (q : Q) : float :=
  let n := Qnum q in
  let d := Qden q in
  if (n <=? 0)%Z then Finite 0
  else
    let e := ulp_exponent n d in
    let m := scaled n d e in
    if (2 ^ 1024 <=? m * 2 ^ e)%Z then Infinity
    else if (0 <=? e)%Z then Finite (inject_Z (m * 2 ^ e))
    else Finite (m # Z.to_pos (2 ^ (- e))).

(** [a / b] for integers [0 <= a], [0 < b]; [None] stands for the
    [OverflowError] of a quotient too large for a float. *)
Definition int_truediv (a : N) (b : positive) : option float :=
  match binary64 (Z.of_N a # b) with
  | Finite q => Some (Finite q)
  | Infinity => None
  end.

(** [x / k] for a float [x >= 0] and an integer [k > 0]. *)
Definition div_int (x : float) (k : positive) : float :=
  match x with
  | Finite q => binary64 (q / (Zpos k # 1))
  | Infinity => Infinity
  end.

(** [x >= k] for an integer [k]. *)
Definition ge_int (x : float) (k : Z) : bool :=
  match x with
  | Finite q => Qle_bool (inject_Z k) q
  | Infinity => true
  end.

(** The leading decimal digits of [s]: their value, their number, and the
    rest of [s]. *)
Fixpoint digits (acc : N) (len : nat) (s : string) : N * nat * string :=
  match s with
  | String c s' =>
      if PyStr.is_digit c
      then digits (acc * 10 + Packaging.digit_value c) (S len) s'
      else (acc, len, s)
  | EmptyString => (acc, len, s)
  end.

(** [float(s)] for a text of digits and dots (all that group 1 of the
    memory pattern can hold): digits, an optional dot, digits, with at
    least one digit; [None] stands for [ValueError]. *)
Definition of_string (s : string) : option float :=
  match digits 0 0 s with
  | (ip, il, EmptyString) =>
      if Nat.eqb il 0 then None else Some (binary64 (Z.of_N ip # 1))
  | (ip, il, String c rest) =>
      if Ascii.eqb c "." then
        match digits 0 0 rest with
        | (fp, fl, EmptyString) =>
            if Nat.eqb (il + fl) 0 then None
            else Some (binary64 (Z.of_N (ip * 10 ^ N.of_nat fl + fp)
                                   # Z.to_pos (10 ^ Z.of_nat fl)))
        | _ => None
        end
      else None
  end.

(** [f"{x:.1f}"] for [x >= 0]. *)
Definition format_1f (x : float) : string :=
  match x with
  | Finite q =>
      let t := round_half_even (10 * Qnum q) (Qden q) in
      pretty (t / 10)%Z +:+ "." +:+ pretty (t mod 10)%Z
  | Infinity => "inf"
  end.

End PyFloat.

(** ** Data model *)

Inductive ValidationStatus : Type := PASS | FAIL | WARNING | INFO.

#[global] Instance ValidationStatus_eq_dec : EqDecision ValidationStatus.
Proof. solve_decision. Defined.

(** [status.name], the spelling used in the report. *)
Definition status_name (s : ValidationStatus) : string :=
  match s with
  | PASS => "PASS"
  | FAIL => "FAIL"
  | WARNING => "WARNING"
  | INFO => "INFO"
  end.

(** [status.value], the mark printed before a result. *)
Definition status_value (s : ValidationStatus) : string :=
  match s with
  | PASS => "‚úÖ"
  | FAIL => "‚ùå"
  | WARNING => "‚ö†Ô∏è"
  | INFO => "‚ÑπÔ∏è"
  end.

Record ValidationResult : Type := mkValidationResult {
  name : string;
  status : ValidationStatus;
  message : string;
  details : option string;
  required : bool
}.

(** The dataclass constructor with its defaults [details=None],
    [required=True]. *)
Definition Result (n : string) (s : ValidationStatus) (m : string) : ValidationResult :=
  mkValidationResult n s m None true.

(** The constructor called with [required=False]. *)
Definition OptionalResult (n : string) (s : ValidationStatus) (m : string) : ValidationResult :=
  mkValidationResult n s m None false.

(** [r.required = b] *)
Definition set_required (b : bool) (r : ValidationResult) : ValidationResult :=
  mkValidationResult (name r) (status r) (message r) (details r) b.

(** JSON documents, objects with their keys in insertion order. *)
Inductive json : Type :=
| JNull
| JBool (b : bool)
| JStr (s : string)
| JArr (l : list json)
| JObj (fields : list (string * json)).

(** ** Exceptions, the host, and the state *)

Inductive exn : Type :=
| ImportError (msg : string)
| IndexError (msg : string)
| InvalidVersion (msg : string)
| OverflowError (msg : string)
| ValueError (msg : string)
| OSError (msg : string).

(** [str(e)] *)
Definition exn_str (e : exn) : string :=
  match e with
  | ImportError m | IndexError m | InvalidVersion m
  | OverflowError m | ValueError m | OSError m => m
  end.

Definition is_ImportError (e : exn) : bool :=
  match e with ImportError _ => true | _ => false end.

(** Any exception is an [Exception]. *)
Definition is_Exception (e : exn) : bool := true.

Inductive result (A : Type) : Type :=
| Ok (a : A)
| Raise (e : exn).
Arguments Ok {A} a.
Arguments Raise {A} e.

(** What [subprocess.run(command, shell=True, capture_output=True, text=True,
    timeout=30)] does. *)
Inductive ProcessOutcome : Type :=
| Completed (returncode : Z) (stdout stderr : string)
| TimeoutExpired
| ProcessError (e : exn).

(** The answers of the machine the validator runs on. *)
Record Host : Type := mkHost {
  platform_system : string;
  platform_release : string;
  platform_machine : string;
  platform_python_version : string;
  (** [shutil.which(tool)] finds the tool *)
  which : string -> bool;
  subprocess_run : string -> ProcessOutcome;
  (** [from packaging import version] succeeds *)
  packaging_installed : bool;
  (** [import psutil; psutil.virtual_memory().total] *)
  psutil_total : result N;
  (** [shutil.disk_usage('.').free] *)
  disk_free : result N;
  (** opening a socket and [connect_ex(('localhost', port))] with a 1 s
      timeout: the error number, 0 when the connection is accepted *)
  connect_ex : N -> result Z;
  (** the output of [date -Iseconds] *)
  date_iseconds : result string;
  (** [open(path, 'w')] *)
  open_w : string -> result unit;
  (** [print(text)]: the console takes the line, or the write raises (a
      console that cannot encode the text, a closed stream) *)
  stdout_write : string -> result unit
}.

(** The validator's [self.results], the commands given to [subprocess.run]
    so far (oldest first), the files written and the lines printed (oldest
    first).  A file holds the JSON document dumped into it (its rendering by
    [json.dump] is left out). *)
Record State : Type := mkState {
  results : list ValidationResult;
  executed : list string;
  files : gmap string json;
  printed : list string
}.

Definition M (A : Type) : Type := State -> result A * State.

Definition ret {A} (a : A) : M A := fun st => (Ok a, st).

Definition raise {A} (e : exn) : M A := fun st => (Raise e, st).

Definition bind {A B} (m : M A) (k : A -> M B) : M B :=
  fun st =>
    match m st with
    | (Ok a, st') => k a st'
    | (Raise e, st') => (Raise e, st')
    end.

(** [try: m  except <class>: handler]; the state reached when the exception
    was raised is kept. *)
Definition try_except {A} (m : M A) (class : exn -> bool) (handler : exn -> M A) : M A :=
  fun st =>
    match m st with
    | (Ok a, st') => (Ok a, st')
    | (Raise e, st') => if class e then handler e st' else (Raise e, st')
    end.

Definition lift {A} (r : result A) : M A := fun st => (r, st).

Notation "'let*' x ':=' m 'in' k" := (bind m (fun x => k))
  (at level 10, x name, m at level 100, k at level 200).
Notation "'let*' ' p ':=' m 'in' k" := (bind m (fun x => match x with p => k end))
  (at level 10, p pattern, m at level 100, k at level 200).

(** ** The validator: class [SystemValidator] *)
Module SystemValidator.
Section Validator.

Variable h : Host.

(** [self.system] and [self.architecture], set by [__init__]. *)
Definition self_system : string := PyStr.lower (platform_system h).
Definition self_architecture : string := PyStr.lower (platform_machine h).

(** [run_command]: run a command, return exit code, stdout, stderr. *)
Definition run_command (command : string) : M (Z * string * string) :=
  fun st =>
    let st' := mkState (results st) (executed st ++ [command]) (files st) (printed st) in
    match subprocess_run h command with
    | Completed returncode stdout stderr =>
        (Ok (returncode, PyStr.strip stdout, PyStr.strip stderr), st')
    | TimeoutExpired => (Ok (1%Z, "", "Command timed out"), st')
    | ProcessError e => (Ok (1%Z, "", exn_str e), st')
    end.

(** [print(text)] *)
Definition print (text : string) : M unit :=
  fun st =>
    match stdout_write h text with
    | Ok _ =>
        (Ok tt, mkState (results st) (executed st) (files st) (printed st ++ [text]))
    | Raise e => (Raise e, st)
    end.

(** [command.split()[0]] *)
Definition tool_of (command : string) : M string :=
  match PyStr.split_first command with
  | Some tool => ret tool
  | None => raise (IndexError "list index out of range")
  end.

(** [match.group(1)] as a string to compare. *)
Definition group1 (m : Re.captures) : M string :=
  match Re.group m 1 with
  | Some v => ret v
  | None => raise (IndexError "no such group")
  end.

(** [version.parse(s)] *)
Definition version_parse (s : string) : M Packaging.Version :=
  match Packaging.parse s with
  | Some v => ret v
  | None => raise (InvalidVersion ("Invalid version: '" +:+ s +:+ "'"))
  end.

(** [from packaging import version] *)
Definition import_packaging : M unit :=
  if packaging_installed h then ret tt
  else raise (ImportError "No module named 'packaging'").

(** The pattern [check_version] searches with: the caller's, or the default
    one ([if version_pattern: ... else: ...]). *)
Definition chosen_pattern (version_pattern : option Re.regex) : Re.regex :=
  match version_pattern with
  | Some p => p
  | None => Patterns.default_version
  end.

(** [check_version]: check that a command exists and meets a minimum
    version.  [version_pattern] is [None] for the default pattern. *)
Definition check_version (command min_version : string)
    (version_pattern : option Re.regex) : M ValidationResult :=
  (* Check if command exists *)
  let* tool := tool_of command in
  if negb (which h tool) then
    ret (Result tool FAIL (tool +:+ " not found in PATH"))
  else
  (* Get version *)
  let* '(exit_code, stdout, stderr) := run_command command in
  if negb (exit_code =? 0)%Z then
    ret (Result tool FAIL ("Failed to get version: " +:+ stderr))
  else
  (* Extract version from output *)
  let version_output := stdout +:+ stderr in
  match Re.search (chosen_pattern version_pattern) version_output with
  | None =>
      ret (Result tool WARNING
             ("Could not parse version from: " +:+ PyStr.prefix 100 version_output))
  | Some m =>
      let* current_version := group1 m in
      (* Compare versions *)
      try_except
        (let* _ := import_packaging in
         let* current := version_parse current_version in
         let* minimum := version_parse min_version in
         if Packaging.ge current minimum then
           ret (Result tool PASS
                  ("Version " +:+ current_version +:+ " (>= " +:+ min_version +:+ ")"))
         else
           ret (Result tool FAIL
                  ("Version " +:+ current_version +:+ " < " +:+ min_version)))
        is_ImportError
        (fun _ =>
           (* Fallback to simple string comparison *)
           if PyStr.ge current_version min_version then
             ret (Result tool PASS
                    ("Version " +:+ current_version +:+ " (>= " +:+ min_version +:+ ")"))
           else
             ret (Result tool WARNING
                    ("Version " +:+ current_version +:+ ", expected >= "
                     +:+ min_version +:+ " (simple comparison)")))
  end.

(** [x / (1024**3)] *)
Definition gigabytes (x : N) : M PyFloat.float :=
  match PyFloat.int_truediv x (2 ^ 30) with
  | Some f => ret f
  | None => raise (OverflowError "integer division result too large for a float")
  end.

(** The four blocks of [check_system_requirements]; each appends its result
    to [results]. *)

(** Operating System *)
Definition operating_system_block (results : list ValidationResult)
    : list ValidationResult :=
  if PyStr.in_list self_system ["windows"; "darwin"; "linux"] then
    results ++ [Result "Operating System" PASS
                  (platform_system h +:+ " " +:+ platform_release h)]
  else
    results ++ [Result "Operating System" WARNING
                  ("Unsupported OS: " +:+ platform_system h)].

(** Architecture *)
Definition architecture_block (results : list ValidationResult)
    : list ValidationResult :=
  if PyStr.in_list self_architecture ["x86_64"; "amd64"; "arm64"; "aarch64"] then
    results ++ [Result "Architecture" PASS self_architecture]
  else
    results ++ [Result "Architecture" WARNING
                  ("Untested architecture: " +:+ self_architecture)].

(** Memory: [try: ... except ImportError: ...] *)
Definition memory_block (results : list ValidationResult)
    : M (list ValidationResult) :=
  try_except
    (let* total := lift (psutil_total h) in
     let* memory_gb := gigabytes total in
     if PyFloat.ge_int memory_gb 16 then
       ret (results ++ [Result "System Memory" PASS
                          (PyFloat.format_1f memory_gb +:+ " GB (>= 16 GB)")])
     else if PyFloat.ge_int memory_gb 8 then
       ret (results ++ [Result "System Memory" WARNING
                          (PyFloat.format_1f memory_gb
                           +:+ " GB (minimum 16 GB recommended)")])
     else
       ret (results ++ [Result "System Memory" FAIL
                          (PyFloat.format_1f memory_gb +:+ " GB (< 8 GB minimum)")]))
    is_ImportError
    (fun _ =>
       ret (results ++ [OptionalResult "System Memory" INFO
                          "Could not check (psutil not available)"])).

(** Disk Space: [try: ... except Exception as e: ...] *)
Definition disk_block (results : list ValidationResult)
    : M (list ValidationResult) :=
  try_except
    (let* free := lift (disk_free h) in
     let* free_gb := gigabytes free in
     if PyFloat.ge_int free_gb 100 then
       ret (results ++ [Result "Disk Space" PASS
                          (PyFloat.format_1f free_gb +:+ " GB free (>= 100 GB)")])
     else if PyFloat.ge_int free_gb 50 then
       ret (results ++ [Result "Disk Space" WARNING
                          (PyFloat.format_1f free_gb
                           +:+ " GB free (minimum 100 GB recommended)")])
     else
       ret (results ++ [Result "Disk Space" FAIL
                          (PyFloat.format_1f free_gb +:+ " GB free (< 50 GB minimum)")]))
    is_Exception
    (fun e =>
       ret (results ++ [OptionalResult "Disk Space" WARNING
                          ("Could not check disk space: " +:+ exn_str e)])).

(** [check_system_requirements]: operating system, architecture, memory
    and disk space. *)
Definition check_system_requirements : M (list ValidationResult) :=
  let results := [] in
  let results := operating_system_block results in
  let results := architecture_block results in
  let* results := memory_block results in
  let* results := disk_block results in
  ret results.

(** [check_core_tools] *)
Definition check_core_tools : M (list ValidationResult) :=
  let results := [] in
  (* Git *)
  let* r := check_version "git --version" "2.40" None in
  let results := results ++ [r] in
  (* Docker *)
  let* r := check_version "docker --version" "24.0" None in
  let results := results ++ [r] in
  (* Docker Compose *)
  let* docker_compose_result := check_version "docker compose version" "2.20" None in
  let* docker_compose_result :=
    if decide (status docker_compose_result = FAIL) then
      (* Try legacy docker-compose *)
      check_version "docker-compose --version" "2.20" None
    else ret docker_compose_result in
  let results := results ++ [docker_compose_result] in
  ret results.

(** [check_programming_languages] *)
Definition check_programming_languages : M (list ValidationResult) :=
  let results := [] in
  (* Python *)
  let* r := check_version "python3 --version" "3.12" None in
  let results := results ++ [r] in
  (* Alternative Python check *)
  let* python_result := check_version "python --version" "3.12" None in
  let results :=
    if decide (status python_result = PASS) then
      results ++ [OptionalResult "python (alias)" PASS (message python_result)]
    else results in
  (* Java *)
  let* r := check_version "java -version" "21" (Some Patterns.java_version) in
  let results := results ++ [r] in
  (* Node.js *)
  let* r := check_version "node --version" "18.0" None in
  let results := results ++ [r] in
  ret results.

(** [check_package_managers] *)
Definition check_package_managers : M (list ValidationResult) :=
  let results := [] in
  (* Poetry *)
  let* r := check_version "poetry --version" "1.7" None in
  let results := results ++ [r] in
  (* Maven *)
  let* r := check_version "mvn --version" "3.9" None in
  let results := results ++ [r] in
  (* npm *)
  let* r := check_version "npm --version" "9.0" None in
  let results := results ++ [r] in
  ret results.

(** The [try] block of [check_docker_configuration]: the memory that
    [docker info] reports ([try: ... except Exception: ...]). *)
Definition docker_memory_block (stdout : string) (results : list ValidationResult)
    : M (list ValidationResult) :=
  try_except
    (* Check memory allocation *)
    (if PyStr.contains "Total Memory:" stdout then
       match Re.search Patterns.docker_memory stdout with
       | Some memory_match =>
           let* memory_value :=
             match Re.group memory_match 1 with
             | Some text =>
                 match PyFloat.of_string text with
                 | Some v => ret v
                 | None =>
                     raise (ValueError
                              ("could not convert string to float: '" +:+ text +:+ "'"))
                 end
             | None => raise (IndexError "no such group")
             end in
           let* memory_unit :=
             match Re.group memory_match 2 with
             | Some text => ret (PyStr.lower text)
             | None => raise (IndexError "no such group")
             end in
           let memory_gb :=
             if PyStr.startswith "g" memory_unit then memory_value
             else if PyStr.startswith "m" memory_unit then
               PyFloat.div_int memory_value 1024
             else PyFloat.Finite 0 in
           if PyFloat.ge_int memory_gb 8 then
             ret (results ++ [Result "Docker Memory" PASS
                                (PyFloat.format_1f memory_gb
                                 +:+ " GB allocated (>= 8 GB)")])
           else
             ret (results ++ [Result "Docker Memory" WARNING
                                (PyFloat.format_1f memory_gb
                                 +:+ " GB allocated (< 8 GB recommended)")])
       | None => ret results
       end
     else ret results)
    is_Exception
    (fun _ =>
       ret (results ++ [OptionalResult "Docker Memory" INFO
                          "Could not parse memory allocation"])).

(** [check_docker_configuration]: the daemon and the memory it is given. *)
Definition check_docker_configuration : M (list ValidationResult) :=
  let results := [] in
  (* Docker daemon running *)
  let* '(exit_code, stdout, stderr) := run_command "docker info" in
  if (exit_code =? 0)%Z then
    let results := results ++ [Result "Docker Daemon" PASS "Running"] in
    (* Parse Docker info for resource allocation *)
    let* results := docker_memory_block stdout results in
    ret results
  else
    ret (results ++ [Result "Docker Daemon" FAIL ("Not running: " +:+ stderr)]).

Definition required_ports : list N := [8000; 8080; 5432; 6379; 9092; 9200]%N.

(** The body of the loop of [check_network_ports]: the result for one
    port. *)
Definition check_port (port : N) : M ValidationResult :=
  try_except
    (let* result := lift (connect_ex h port) in
     if (result =? 0)%Z then
       ret (OptionalResult ("Port " +:+ PyStr.of_N port) WARNING "In use (may conflict)")
     else
       ret (OptionalResult ("Port " +:+ PyStr.of_N port) PASS "Available"))
    is_Exception
    (fun e =>
       ret (OptionalResult ("Port " +:+ PyStr.of_N port) INFO
              ("Could not check: " +:+ exn_str e))).

(** [for port in ports: results.append(...)] *)
Fixpoint check_ports (ports : list N) (results : list ValidationResult)
    : M (list ValidationResult) :=
  match ports with
  | [] => ret results
  | port :: ports' =>
      let* r := check_port port in
      check_ports ports' (results ++ [r])
  end.

(** [check_network_ports] *)
Definition check_network_ports : M (list ValidationResult) :=
  check_ports required_ports [].

(** [check_ide_tools] *)
Definition check_ide_tools : M (list ValidationResult) :=
  let results := [] in
  (* VS Code *)
  let* vscode_result := check_version "code --version" "1.80" None in
  let vscode_result := set_required false vscode_result in
  let results := results ++ [vscode_result] in
  ret results.

(** [self.results = ...] *)
Definition set_results (rs : list ValidationResult) : M unit :=
  fun st => (Ok tt, mkState rs (executed st) (files st) (printed st)).

(** [self.results] *)
Definition get_results : M (list ValidationResult) :=
  fun st => (Ok (results st), st).

(** [run_all_checks]: the checks by category, in the order of the dict;
    [self.results] becomes the concatenation of its values. *)
Definition run_all_checks : M (list (string * list ValidationResult)) :=
  let* system_requirements := check_system_requirements in
  let* core_tools := check_core_tools in
  let* programming_languages := check_programming_languages in
  let* package_managers := check_package_managers in
  let* docker_configuration := check_docker_configuration in
  let* network_ports := check_network_ports in
  let* ide_tools := check_ide_tools in
  let checks :=
    [ ("System Requirements", system_requirements);
      ("Core Tools", core_tools);
      ("Programming Languages", programming_languages);
      ("Package Managers", package_managers);
      ("Docker Configuration", docker_configuration);
      ("Network Ports", network_ports);
      ("IDE Tools", ide_tools) ] in
  (* Flatten results for summary *)
  let* _ := set_results (concat (map snd checks)) in
  ret checks.

End Validator.

(** [len([r for r in rs if p(r)])] *)
Definition count (p : ValidationResult -> bool) (rs : list ValidationResult) : nat :=
  length (filter (fun r => p r = true) rs).

Definition has_status (s : ValidationStatus) (r : ValidationResult) : bool :=
  bool_decide (status r = s).

(** The four counters of the summary. *)
Definition total_checks (rs : list ValidationResult) : nat :=
  count required rs.
Definition passed_checks (rs : list ValidationResult) : nat :=
  count (fun r => required r && has_status PASS r) rs.
Definition failed_checks (rs : list ValidationResult) : nat :=
  count (fun r => required r && has_status FAIL r) rs.
Definition warning_checks (rs : list ValidationResult) : nat :=
  count (fun r => required r && has_status WARNING r) rs.

(** [bool(s)] for a string: it is not empty. *)
Definition truthy (s : string) : bool :=
  match s with
  | EmptyString => false
  | _ => true
  end.

(** [str(n)] for a counter. *)
Definition of_nat (n : nat) : string := PyStr.of_N (N.of_nat n).

(** [for result in results: ...] of [print_results]: one line for each
    result, and one more for its details when it has some. *)
Fixpoint print_each (h : Host) (results : list ValidationResult) : M unit :=
  match results with
  | [] => ret tt
  | result :: results' =>
      let status_icon := status_value (status result) in
      let required_marker := if required result then "" else " (optional)" in
      let* _ := print h (status_icon +:+ " " +:+ name result +:+ required_marker
                         +:+ ": " +:+ message result) in
      let* _ := match details result with
                | Some d => if truthy d then print h ("   " +:+ d) else ret tt
                | None => ret tt
                end in
      print_each h results'
  end.

(** [for category, results in checks.items(): ...] *)
Fixpoint print_categories (h : Host) (checks : list (string * list ValidationResult))
    : M unit :=
  match checks with
  | [] => ret tt
  | (category, results) :: checks' =>
      let* _ := print h ("üìã " +:+ category) in
      let* _ := print h (PyStr.times "-" 40) in
      let* _ := print_each h results in
      let* _ := print h "" in
      print_categories h checks'
  end.

(** [print_results]: print the results by category and the summary of
    [self.results]; the value returned tells whether no required check
    failed. *)
Definition print_results (h : Host) (checks : list (string * list ValidationResult))
    : M bool :=
  let* _ := print h "üîç Agentic SOC Framework - Dependency Validation" in
  let* _ := print h (PyStr.times "=" 60) in
  let* _ := print h "" in
  let* _ := print_categories h checks in
  (* Summary *)
  let* rs := get_results in
  let total := total_checks rs in
  let passed := passed_checks rs in
  let failed := failed_checks rs in
  let warning := warning_checks rs in
  let* _ := print h "üìä Summary" in
  let* _ := print h (PyStr.times "-" 40) in
  let* _ := print h ("‚úÖ Passed: " +:+ of_nat passed +:+ "/" +:+ of_nat total) in
  let* _ := print h ("‚ùå Failed: " +:+ of_nat failed +:+ "/" +:+ of_nat total) in
  let* _ := print h ("‚ö†Ô∏è  Warnings: " +:+ of_nat warning +:+ "/" +:+ of_nat total) in
  let* _ := print h "" in
  if (0 <? failed)%nat then
    let* _ := print h "‚ùå Critical issues found. Please resolve before proceeding." in
    let* _ := print h "üìñ See installation guides in docs/development/installation-guides/" in
    ret false
  else if (0 <? warning)%nat then
    let* _ := print h "‚ö†Ô∏è  Some warnings found. Development may work but performance could be impacted." in
    ret true
  else
    let* _ := print h "‚úÖ All checks passed! Your system is ready for development." in
    ret true.

(** One entry of the [results] array of the report. *)
Definition report_entry (r : ValidationResult) : json :=
  JObj [ ("name", JStr (name r));
         ("status", JStr (status_name (status r)));
         ("message", JStr (message r));
         ("details", match details r with Some d => JStr d | None => JNull end);
         ("required", JBool (required r)) ].

(** [subprocess.run(["date", "-Iseconds"], capture_output=True,
    text=True).stdout]: the command is logged like those of [run_command]. *)
Definition run_date (h : Host) : M string :=
  fun st =>
    (date_iseconds h,
     mkState (results st) (executed st ++ ["date -Iseconds"]) (files st) (printed st)).

(** [with open(output_file, 'w') as f: json.dump(report, f, indent=2)] *)
Definition dump (h : Host) (output_file : string) (report : json) : M unit :=
  let* _ := lift (open_w h output_file) in
  fun st =>
    (Ok tt,
     mkState (results st) (executed st) (<[output_file := report]> (files st))
       (printed st)).

(** [generate_report]: build the report from [self.results], write it to
    [output_file] and say so. *)
Definition generate_report (h : Host) (output_file : string) : M unit :=
  let* timestamp := run_date h in
  let* rs := get_results in
  let report :=
    JObj [ ("timestamp", JStr (PyStr.strip timestamp));
           ("system", JObj [ ("os", JStr (platform_system h));
                             ("release", JStr (platform_release h));
                             ("architecture", JStr (platform_machine h));
                             ("python_version", JStr (platform_python_version h)) ]);
           ("results", JArr (map report_entry rs)) ] in
  let* _ := dump h output_file report in
  print h ("üìÑ Detailed report saved to: " +:+ output_file).

(** [0 if success else 1] *)
Definition exit_code (success : bool) : Z := if success then 0%Z else 1%Z.

(** The validator as [SystemValidator()] makes it: no results yet. *)
Definition fresh (st : State) : State :=
  mkState [] (executed st) (files st) (printed st).

(** The two [print] calls of [main] before its [try]. *)
Definition announce (h : Host) : M unit :=
  let* _ := print h "Starting dependency validation..." in
  print h "".

(** The body of the [try] of [main], up to [sys.exit]. *)
Definition main_body (h : Host) : M Z :=
  let* checks := run_all_checks h in
  let* success := print_results h checks in
  (* Generate report *)
  let* _ := generate_report h "validation-report.json" in
  (* Exit with appropriate code *)
  ret (exit_code success).

(** The newline of the message below. *)
Definition newline : string := String "010" "".

(** [except Exception as e:] of [main]: say what failed; the exit code is 1
    whether the message can be printed or not. *)
Definition report_failure (h : Host) (e : exn) : M unit :=
  print h (newline +:+ "‚ùå Validation failed with error: " +:+ exn_str e).

(** [main]: the exit code of the process and the state it leaves.  An
    exception that escapes the body is reported and gives exit code 1; one
    that escapes [main] itself (a failing [print] before the [try] or in the
    handler) ends the interpreter with exit code 1 too. *)
Definition main (h : Host) (st : State) : Z * State :=
  match announce h (fresh st) with
  | (Raise _, st0) => (1%Z, st0)
  | (Ok _, st0) =>
      match main_body h st0 with
      | (Ok code, st') => (code, st')
      | (Raise e, st') => (1%Z, snd (report_failure h e st'))
      end
  end.

End SystemValidator.


Import SystemValidator.

(** * Vocabulary of the properties, and sample machines *)

(** A result that makes the run fail. *)
Definition required_fail (r : ValidationResult) : Prop :=
  required r = true /\ status r = FAIL.

(** Two results that differ at most in fields other than [required], and in
    [status] only when they are optional. *)
Definition same_required_part (r r' : ValidationResult) : Prop :=
  required r = required r' /\ (required r = true -> status r = status r').

(** The report that [generate_report] builds from the results [rs] and the
    timestamp printed by [date]. *)
Definition report_of (h : Host) (timestamp : string) (rs : list ValidationResult) : json :=
  JObj [ ("timestamp", JStr (PyStr.strip timestamp));
         ("system", JObj [ ("os", JStr (platform_system h));
                           ("release", JStr (platform_release h));
                           ("architecture", JStr (platform_machine h));
                           ("python_version", JStr (platform_python_version h)) ]);
         ("results", JArr (map report_entry rs)) ].

(** The line [generate_report] prints once the report is written. *)
Definition saved_line (path : string) : string :=
  "üìÑ Detailed report saved to: " +:+ path.

(** A result that is a value, not an exception. *)
Definition is_Some_result {A} (r : result A) : Prop := exists a, r = Ok a.

(** The results the checks returned, category after category. *)
Definition returned (checks : list (string * list ValidationResult))
    : list ValidationResult :=
  concat (map snd checks).

(** The run completes, its checks returning [checks]: no exception is
    raised by the first prints of [main], by the checks, by the printing of
    the results or by the report. *)
Definition completes (h : Host) (st : State)
    (checks : list (string * list ValidationResult)) : Prop :=
  exists st0 st1 success st2 st3,
    announce h (fresh st) = (Ok tt, st0) /\
    run_all_checks h st0 = (Ok checks, st1) /\
    print_results h checks st1 = (Ok success, st2) /\
    generate_report h "validation-report.json" st2 = (Ok tt, st3).

(** The three-tier rule of the specification: at or above [recommended] is
    PASS, from [minimum] up to [recommended] is WARNING, below [minimum] is
    FAIL. *)
Definition three_tier (recommended minimum x : Q) (s : ValidationStatus) : Prop :=
  (recommended <= x -> s = PASS)%Q /\
  (minimum <= x /\ x < recommended -> s = WARNING)%Q /\
  (x < minimum -> s = FAIL)%Q.

(** The memory query does not raise past its handler: either [psutil] is
    missing, or it reports a total that fits a float once in gigabytes. *)
Definition memory_query_ok (h : Host) : Prop :=
  match psutil_total h with
  | Ok total => is_Some (PyFloat.int_truediv total (2 ^ 30))
  | Raise e => is_ImportError e = true
  end.

(** The state after [command] was handed to [run_command]. *)
Definition logged (command : string) (st : State) : State :=
  mkState (results st) (executed st ++ [command]) (files st) (printed st).

(** [v] with zeros added at its end, up to [n] components. *)
Definition pad (n : nat) (v : list N) : list N :=
  v ++ repeat 0%N (n - length v).

(** The comparison of the specification: component by component, as numbers,
    a missing trailing component counting as 0 (the two lists, padded to the
    same length, in lexicographic order). *)
Definition numeric_compare (a b : list N) : comparison :=
  let n := Nat.max (length a) (length b) in
  Packaging.tuple_compare (pad n a) (pad n b).

(** ** Sample hosts *)
Module Samples.

(** What the tools print on the reference machine. *)
Definition tool_output (command : string) : ProcessOutcome :=
  if String.eqb command "git --version" then Completed 0 "git version 2.43.0" ""
  else if String.eqb command "docker --version" then
    Completed 0 "Docker version 24.0.6, build ed223bc" ""
  else if String.eqb command "docker compose version" then
    Completed 0 "Docker Compose version v2.21.0" ""
  else if String.eqb command "python3 --version" then Completed 0 "Python 3.12.3" ""
  else if String.eqb command "python --version" then Completed 0 "Python 3.12.3" ""
  else if String.eqb command "java -version" then
    Completed 0 "" ("openjdk version " +:+ String "034" ("21.0.1" +:+ String "034" " 2023-10-17"))
  else if String.eqb command "node --version" then Completed 0 "v18.19.0" ""
  else if String.eqb command "poetry --version" then
    Completed 0 "Poetry (version 1.7.1)" ""
  else if String.eqb command "mvn --version" then Completed 0 "Apache Maven 3.9.6" ""
  else if String.eqb command "npm --version" then Completed 0 "10.2.4" ""
  else if String.eqb command "docker info" then
    Completed 0 " CPUs: 8
 Total Memory: 15.6GiB
 Name: docker-desktop" ""
  else if String.eqb command "code --version" then Completed 0 "1.85.1" ""
  else if String.eqb command "tool --version" then Completed 0 "tool v3" ""
  else Completed 127 "" "command not found".

(** A machine with every tool, 32 GB of memory, 200 GB of free disk space
    and no listening port. *)
Definition reference : Host :=
  mkHost "Linux" "6.8.0" "x86_64" "3.12.3"
    (fun _ => true) tool_output true
    (Ok (32 * 2 ^ 30)%N) (Ok (200 * 2 ^ 30)%N)
    (fun _ => Ok 111%Z)
    (Ok "2025-01-01T00:00:00+00:00") (fun _ => Ok tt) (fun _ => Ok tt).


Definition with_subprocess_run (f : string -> ProcessOutcome) (h : Host) : Host :=
  mkHost (platform_system h) (platform_release h) (platform_machine h)
    (platform_python_version h) (which h) f (packaging_installed h)
    (psutil_total h) (disk_free h) (connect_ex h) (date_iseconds h) (open_w h)
    (stdout_write h).

Definition with_packaging (b : bool) (h : Host) : Host :=
  mkHost (platform_system h) (platform_release h) (platform_machine h)
    (platform_python_version h) (which h) (subprocess_run h) b
    (psutil_total h) (disk_free h) (connect_ex h) (date_iseconds h) (open_w h)
    (stdout_write h).

Definition with_disk_free (r : result N) (h : Host) : Host :=
  mkHost (platform_system h) (platform_release h) (platform_machine h)
    (platform_python_version h) (which h) (subprocess_run h) (packaging_installed h)
    (psutil_total h) r (connect_ex h) (date_iseconds h) (open_w h)
    (stdout_write h).

Definition with_psutil_total (r : result N) (h : Host) : Host :=
  mkHost (platform_system h) (platform_release h) (platform_machine h)
    (platform_python_version h) (which h) (subprocess_run h) (packaging_installed h)
    r (disk_free h) (connect_ex h) (date_iseconds h) (open_w h)
    (stdout_write h).

Definition with_connect_ex (f : N -> result Z) (h : Host) : Host :=
  mkHost (platform_system h) (platform_release h) (platform_machine h)
    (platform_python_version h) (which h) (subprocess_run h) (packaging_installed h)
    (psutil_total h) (disk_free h) f (date_iseconds h) (open_w h)
    (stdout_write h).


(** The reference machine where [code --version] hangs. *)
Definition code_hangs : Host :=
  with_subprocess_run
    (fun command =>
       if String.eqb command "code --version" then TimeoutExpired
       else tool_output command)
    reference.

(** The reference machine without the [packaging] library. *)
Definition without_packaging : Host := with_packaging false reference.

(** The same, with git 2.5.0 installed. *)
Definition old_git_without_packaging : Host :=
  with_subprocess_run
    (fun command =>
       if String.eqb command "git --version" then Completed 0 "git version 2.5.0" ""
       else tool_output command)
    without_packaging.



(** The reference machine where the memory query fails with an error other
    than a missing module. *)
Definition memory_query_fails : Host :=
  with_psutil_total (Raise (OSError "[Errno 13] Permission denied: '/proc/meminfo'"))
    reference.

(** The reference machine with 40 GB of free disk space and a server on
    port 8080. *)
Definition busy : Host :=
  with_connect_ex (fun port => if N.eqb port 8080 then Ok 0%Z else Ok 111%Z)
    (with_disk_free (Ok (40 * 2 ^ 30)%N) reference).

(** The pattern [(v\d+)]. *)
Definition v_number : Re.regex := Re.Grp 1 (Re.Seq (Re.Chr "v") (Re.Plus Re.digit)).

(** A state with no result, no command run and no file. *)
Definition initial : State := mkState [] [] ∅ [].


(** A validator that holds two results, next to an older report. *)
Definition two_results : State :=
  mkState [ Result "git" PASS "Version 2.43.0 (>= 2.40)";
            OptionalResult "Port 8080" WARNING "In use (may conflict)" ]
    [] {[ "validation-report.json" := JNull ]} [].

End Samples.

(** The keys of a JSON object, in order. *)
Definition keys (j : json) : list string :=
  match j with
  | JObj fields => map fst fields
  | _ => []
  end.

(** The first value bound to [k] in a list of fields. *)
Fixpoint assoc (k : string) (fields : list (string * json)) : option json :=
  match fields with
  | [] => None
  | (k', v) :: fields' => if String.eqb k k' then Some v else assoc k fields'
  end.

(** The value of the key [k] of a JSON object. *)
Definition field (k : string) (j : json) : option json :=
  match j with
  | JObj fields => assoc k fields
  | _ => None
  end.

(** The entry of the report for the result [r]. *)
Definition entry_of (r : ValidationResult) (e : json) : Prop :=
  keys e = ["name"; "status"; "message"; "details"; "required"] /\
  field "name" e = Some (JStr (name r)) /\
  field "status" e = Some (JStr (status_name (status r))) /\
  field "message" e = Some (JStr (message r)) /\
  field "details" e = Some (match details r with Some d => JStr d | None => JNull end) /\
  field "required" e = Some (JBool (required r)).

(** An INFO result is optional. *)
Definition info_optional (r : ValidationResult) : Prop :=
  status r = INFO -> required r = false.

(** What holds of every result the validator builds: INFO comes with
    [required] false, and [details] is never filled in. *)
Definition built (r : ValidationResult) : Prop :=
  info_optional r /\ details r = None.

(** A computation that touches nothing but the console, whatever its
    outcome. *)
Definition quiet {A} (m : M A) : Prop :=
  forall st res st',
    m st = (res, st') ->
    results st' = results st /\ executed st' = executed st /\ files st' = files st.

(** A computation that leaves [self.results] alone, whatever its outcome. *)
Definition keeps_results {A} (m : M A) : Prop :=
  forall st res st', m st = (res, st') -> results st' = results st.

(** What the checks return on [Samples.busy]. *)
Definition busy_checks : list (string * list ValidationResult) :=
  match fst (run_all_checks Samples.busy Samples.initial) with
  | Ok checks => checks
  | Raise _ => []
  end.

(** [matches r w cs]: the text [w] is in the language of [r], and [cs] are
    the groups captured on the way, most recent first. *)
Inductive matches : Re.regex -> string -> Re.captures -> Prop :=
| matches_chr c : matches (Re.Chr c) (String c "") []
| matches_cls (p : N -> bool) w cp :
    PyStr.uncons w = Some (cp, "") -> p cp = true -> matches (Re.Cls p) w []
| matches_seq r1 r2 w1 w2 c1 c2 :
    matches r1 w1 c1 -> matches r2 w2 c2 ->
    matches (Re.Seq r1 r2) (w1 +:+ w2) (c2 ++ c1)
| matches_opt_some r w cs : matches r w cs -> matches (Re.Opt r) w cs
| matches_opt_none r : matches (Re.Opt r) "" []
| matches_star_nil r : matches (Re.Star r) "" []
| matches_star_cons r w1 w2 c1 c2 :
    matches r w1 c1 -> matches (Re.Star r) w2 c2 ->
    matches (Re.Star r) (w1 +:+ w2) (c2 ++ c1)
| matches_grp n r w cs : matches r w cs -> matches (Re.Grp n r) w ((n, w) :: cs).




(** [w] is made of characters that satisfy [p]. *)
Inductive run (p : N -> bool) : string -> Prop :=
| run_nil : run p ""
| run_cons c cp w :
    PyStr.uncons c = Some (cp, "") -> p cp = true -> run p w -> run p (c +:+ w).

(** A non-empty text of decimal digits, of any script. *)
Definition digits (d : string) : Prop :=
  d <> "" /\ run PyStr.is_decimal d.


(** [s] starts with a character that satisfies [p]. *)
Definition starts_with (p : N -> bool) (s : string) : bool :=
  match PyStr.uncons s with
  | Some (cp, _) => p cp
  | None => false
  end.

(** No position of [s] starts a character that satisfies [p]. *)
Fixpoint nowhere (p : N -> bool) (s : string) : bool :=
  match s with
  | EmptyString => true
  | String _ s' => negb (starts_with p s) && nowhere p s'
  end.




(** ** Vocabulary of the further properties *)

(** The commands the checks may run, in the order of the run. *)
Definition registry_commands : list string :=
  [ "git --version"; "docker --version"; "docker compose version";
    "docker-compose --version"; "python3 --version"; "python --version";
    "java -version"; "node --version"; "poetry --version"; "mvn --version";
    "npm --version"; "docker info"; "code --version" ].

(** A computation that writes no file and runs, in order, some of the
    commands [cs], each at most once. *)
Definition runs_within {A} (cs : list string) (m : M A) : Prop :=
  forall st res st',
    m st = (res, st') ->
    files st' = files st /\
    exists cmds, executed st' = executed st ++ cmds /\ sublist cmds cs.

(** The path [main] writes the report to. *)
Definition report_path : string := "validation-report.json".

(** The commands the process may run, in the order of the run: those of the
    checks, then the [date] command of the report. *)
Definition process_commands : list string :=
  registry_commands ++ ["date -Iseconds"].

(** The reference machine in a directory that cannot be written. *)
Definition read_only : Host :=
  mkHost (platform_system Samples.reference) (platform_release Samples.reference)
    (platform_machine Samples.reference) (platform_python_version Samples.reference)
    (which Samples.reference) (subprocess_run Samples.reference)
    (packaging_installed Samples.reference) (psutil_total Samples.reference)
    (disk_free Samples.reference) (connect_ex Samples.reference)
    (date_iseconds Samples.reference)
    (fun _ => Raise (OSError "[Errno 13] Permission denied: 'validation-report.json'"))
    (stdout_write Samples.reference).

(** No character of [s] is a decimal digit. *)
Definition no_digit (s : string) : Prop :=
  nowhere PyStr.is_decimal s = true.

(** A tool that answers with a usage message. *)
Definition prints_usage : Host :=
  Samples.with_subprocess_run
    (fun _ => Completed 0 "" "usage: git [--help] <command>")
    Samples.reference.

(** The categories of a run on the reference machine. *)
Definition reference_checks : list (string * list ValidationResult) :=
  match fst (run_all_checks Samples.reference Samples.initial) with
  | Ok checks => checks
  | Raise _ => []
  end.

(** One gibibyte, in bytes. *)
Definition GiB : N := (2 ^ 30)%N.

(** A machine whose git is exactly at the minimum. *)
Definition git_at_minimum : Host :=
  Samples.with_subprocess_run
    (fun command =>
       if String.eqb command "git --version" then Completed 0 "git version 2.40" ""
       else Samples.tool_output command)
    Samples.reference.


(** * Properties *)

(** ** The monad *)

Lemma bind_ok {A B} (m : M A) (k : A -> M B) st a st' :
  m st = (Ok a, st') -> bind m k st = k a st'.
Proof. intros H. unfold bind. now rewrite H. Qed.

Lemma bind_raise {A B} (m : M A) (k : A -> M B) st e st' :
  m st = (Raise e, st') -> bind m k st = (Raise e, st').
Proof. intros H. unfold bind. now rewrite H. Qed.

Lemma bind_inv {A B} (m : M A) (k : A -> M B) st b st2 :
  bind m k st = (Ok b, st2) ->
  exists a st1, m st = (Ok a, st1) /\ k a st1 = (Ok b, st2).
Proof.
  unfold bind. destruct (m st) as [[a|e] st1]; intros H.
  - now exists a, st1.
  - discriminate.
Qed.

(** ** The summary *)

Lemma count_pos p rs :
  (0 <? count p rs)%nat = true <-> exists r, In r rs /\ p r = true.
Proof.
  unfold count. induction rs as [|r rs IH]; simpl.
  - split; [discriminate | intros (r & [] & _)].
  - rewrite filter_cons. destruct (decide (p r = true)) as [Hp|Hp]; simpl.
    + split; [intros _; exists r; auto | reflexivity].
    + rewrite IH. split.
      * intros (x & Hx & Hpx). exists x; auto.
      * intros (x & [<-|Hx] & Hpx); [contradiction | exists x; auto].
Qed.

Lemma required_fail_bool r :
  required r && has_status FAIL r = true <-> required_fail r.
Proof.
  unfold required_fail, has_status.
  rewrite andb_true_iff, bool_decide_eq_true. reflexivity.
Qed.

Lemma failed_checks_pos rs :
  (0 <? failed_checks rs)%nat = true <-> exists r, In r rs /\ required_fail r.
Proof.
  unfold failed_checks. rewrite count_pos.
  split; intros (r & Hin & Hr); exists r; split; auto; now apply required_fail_bool.
Qed.

(** ** The console *)

Lemma quiet_ret {A} (a : A) : quiet (ret a).
Proof. intros st res st' [= <- <-]. auto. Qed.

Lemma quiet_bind {A B} (m : M A) (k : A -> M B) :
  quiet m -> (forall a, quiet (k a)) -> quiet (bind m k).
Proof.
  intros Hm Hk st res st'. unfold bind.
  destruct (m st) as [[a|e] st1] eqn:Hst; destruct (Hm _ _ _ Hst) as (Hr & He & Hf).
  - intros H. destruct (Hk a _ _ _ H) as (Hr' & He' & Hf'). repeat split; congruence.
  - intros [= <- <-]. auto.
Qed.

Lemma quiet_print h text : quiet (print h text).
Proof.
  intros st res st'. unfold print.
  destruct (stdout_write h text); intros [= <- <-]; auto.
Qed.

Lemma quiet_get_results : quiet get_results.
Proof. intros st res st' [= <- <-]. auto. Qed.

Ltac quiet :=
  repeat first
    [ apply quiet_ret | apply quiet_print | apply quiet_get_results
    | apply quiet_bind
    | match goal with
      | |- forall _, _ => intro
      | |- quiet (match ?x with _ => _ end) => destruct x
      end ].

Lemma quiet_print_each h rs : quiet (print_each h rs).
Proof.
  induction rs as [|r rs IH]; cbn [print_each]; [apply quiet_ret|].
  apply quiet_bind; [apply quiet_print | intros _].
  apply quiet_bind; [quiet | intros _; exact IH].
Qed.

Lemma quiet_print_categories h checks : quiet (print_categories h checks).
Proof.
  induction checks as [|[category rs] checks IH]; cbn [print_categories];
    [apply quiet_ret|].
  apply quiet_bind; [apply quiet_print | intros _].
  apply quiet_bind; [apply quiet_print | intros _].
  apply quiet_bind; [apply quiet_print_each | intros _].
  apply quiet_bind; [apply quiet_print | intros _; exact IH].
Qed.

Lemma quiet_print_results h checks : quiet (print_results h checks).
Proof.
  unfold print_results.
  apply quiet_bind; [apply quiet_print | intros _].
  apply quiet_bind; [apply quiet_print | intros _].
  apply quiet_bind; [apply quiet_print | intros _].
  apply quiet_bind; [apply quiet_print_categories | intros _].
  quiet.
Qed.

Ltac inv_bind H :=
  let a := fresh "r" in
  let st1 := fresh "st" in
  let H1 := fresh "Hstep" in
  apply bind_inv in H as (a & st1 & H1 & H).

Ltac inv_ret H := unfold ret in H; injection H as <- <-.

(** The value [print_results] returns tells whether no required result of
    [self.results] has status FAIL. *)
Lemma print_results_value h checks st success st' :
  print_results h checks st = (Ok success, st') ->
  success = negb (0 <? failed_checks (results st))%nat.
Proof.
  unfold print_results. intros H.
  inv_bind H. inv_bind H. inv_bind H. inv_bind H. inv_bind H.
  apply quiet_print in Hstep as (Hr & _).
  apply quiet_print in Hstep0 as (Hr0 & _).
  apply quiet_print in Hstep1 as (Hr1 & _).
  apply quiet_print_categories in Hstep2 as (Hr2 & _).
  unfold get_results in Hstep3. injection Hstep3 as <- <-.
  assert (Hrs : results st3 = results st) by congruence. rewrite Hrs in H.
  inv_bind H. inv_bind H. inv_bind H. inv_bind H. inv_bind H. inv_bind H.
  destruct (0 <? failed_checks (results st))%nat.
  - inv_bind H. inv_bind H. now inv_ret H.
  - destruct (0 <? warning_checks (results st))%nat; inv_bind H; now inv_ret H.
Qed.

Lemma count_same_required_part s rs rs' :
  Forall2 same_required_part rs rs' ->
  count (fun r => required r && has_status s r) rs
  = count (fun r => required r && has_status s r) rs'.
Proof.
  unfold count. induction 1 as [|r r' rs rs' [Hreq Hst] _ IH]; [reflexivity|].
  rewrite !filter_cons.
  assert (Heq : required r && has_status s r = required r' && has_status s r').
  { unfold has_status. rewrite <- Hreq. destruct (required r); [|reflexivity].
    simpl. now rewrite Hst. }
  rewrite Heq.
  destruct (decide (required r' && has_status s r' = true)); simpl; congruence.
Qed.

(** The line [generate_report] prints after writing [path]. *)
Lemma generate_report_inv h path st u st' :
  generate_report h path st = (Ok u, st') ->
  exists timestamp,
    date_iseconds h = Ok timestamp /\ open_w h path = Ok tt /\
    st' = mkState (results st) (executed st ++ ["date -Iseconds"])
            (<[path := report_of h timestamp (results st)]> (files st))
            (printed st ++ [saved_line path]).
Proof.
  unfold generate_report, dump, run_date, print, bind, lift, get_results. cbn.
  destruct (date_iseconds h) as [ts|e]; [|discriminate].
  destruct (open_w h path) as [[]|e]; [|discriminate]. cbn.
  fold (saved_line path).
  destruct (stdout_write h (saved_line path)); [|discriminate].
  intros [= <- <-]. now exists ts.
Qed.

(** ** Ports *)

Lemma check_port_state h port st :
  exists r, check_port h port st = (Ok r, st).
Proof.
  unfold check_port, try_except, bind, lift, ret.
  destruct (connect_ex h port) as [errno|e]; simpl.
  - destruct (errno =? 0)%Z; eauto.
  - eauto.
Qed.

Lemma check_ports_spec h ports : forall acc st,
  exists rs,
    check_ports h ports acc st = (Ok (acc ++ rs), st) /\
    Forall2 (fun port r => check_port h port st = (Ok r, st)) ports rs.
Proof.
  induction ports as [|port ports IH]; intros acc st; simpl.
  - exists []. rewrite app_nil_r. split; [reflexivity | constructor].
  - destruct (check_port_state h port st) as (r & Hr).
    rewrite (bind_ok _ _ _ _ _ Hr).
    destruct (IH (acc ++ [r]) st) as (rs & Hrs & Hall).
    exists (r :: rs). split.
    + rewrite Hrs. now rewrite <- app_assoc.
    + now constructor.
Qed.

(** C8. The port check gives one optional result per port: PASS when the
    connection attempt fails (nothing listens on the port), WARNING, not
    FAIL, when it is accepted (the port is in use). *)
Theorem C8_port_polarity (h : Host) (st : State) :
  exists rs,
    check_network_ports h st = (Ok rs, st) /\
    Forall2
      (fun port r =>
         name r = "Port " +:+ PyStr.of_N port /\
         required r = false /\
         forall errno, connect_ex h port = Ok errno ->
           (errno <> 0%Z -> status r = PASS) /\
           (errno = 0%Z -> status r = WARNING))
      required_ports rs.
Proof.
  unfold check_network_ports.
  destruct (check_ports_spec h required_ports [] st) as (rs & Hrs & Hall).
  exists rs. split; [exact Hrs|].
  eapply Forall2_impl; [exact Hall|].
  intros port r. unfold check_port, try_except, bind, lift, ret.
  destruct (connect_ex h port) as [errno|e]; simpl.
  - destruct (errno =? 0)%Z eqn:He; intros [= <-]; simpl;
      (split; [reflexivity | split; [reflexivity|]]);
      intros ? [= <-]; split; intros Hz; try reflexivity.
    + apply Z.eqb_eq in He. contradiction.
    + apply Z.eqb_neq in He. contradiction.
  - intros [= <-]; simpl. split; [reflexivity | split; [reflexivity|]].
    discriminate.
Qed.

(** ** Memory and disk *)

Lemma int_truediv_finite a b f :
  PyFloat.int_truediv a b = Some f -> exists q, f = PyFloat.Finite q.
Proof.
  unfold PyFloat.int_truediv.
  destruct (PyFloat.binary64 _) as [q|]; intros [= <-]. now exists q.
Qed.

Lemma tier_status (recommended minimum x : Q) :
  (minimum <= recommended)%Q ->
  three_tier recommended minimum x
    (if Qle_bool recommended x then PASS
     else if Qle_bool minimum x then WARNING else FAIL).
Proof.
  intros Hmr. unfold three_tier.
  destruct (Qle_bool recommended x) eqn:Hr.
  - apply Qle_bool_iff in Hr. repeat split; try reflexivity.
    + intros [_ Hlt]. exfalso. apply (Qlt_not_le _ _ Hlt Hr).
    + intros Hlt. exfalso. apply (Qlt_not_le _ _ Hlt). now apply Qle_trans with recommended.
  - assert (Hnr : ~ (recommended <= x)%Q).
    { intros Hle. apply Qle_bool_iff in Hle. congruence. }
    destruct (Qle_bool minimum x) eqn:Hm.
    + apply Qle_bool_iff in Hm. repeat split; try reflexivity; try contradiction.
      intros Hlt. exfalso. apply (Qlt_not_le _ _ Hlt Hm).
    + assert (Hnm : ~ (minimum <= x)%Q).
      { intros Hle. apply Qle_bool_iff in Hle. congruence. }
      repeat split; try reflexivity; try contradiction. tauto.
Qed.

Lemma gigabytes_40 :
  exists q,
    PyFloat.int_truediv (40 * 2 ^ 30) (2 ^ 30) = Some (PyFloat.Finite q) /\
    (q == 40)%Q /\ PyFloat.format_1f (PyFloat.Finite q) = "40.0".
Proof.
  eexists. split; [vm_compute; reflexivity|]. split; vm_compute; reflexivity.
Qed.

Lemma memory_block_spec h rs st :
  memory_query_ok h ->
  exists mem,
    memory_block h rs st = (Ok (rs ++ [mem]), st) /\
    name mem = "System Memory" /\
    (forall e, psutil_total h = Raise e -> status mem = INFO /\ required mem = false) /\
    (forall total memory_gb,
        psutil_total h = Ok total ->
        PyFloat.int_truediv total (2 ^ 30) = Some (PyFloat.Finite memory_gb) ->
        required mem = true /\ three_tier 16 8 memory_gb (status mem)).
Proof.
  unfold memory_query_ok, memory_block, try_except, bind, lift, gigabytes.
  destruct (psutil_total h) as [total|e].
  - intros [f Hf]. rewrite Hf.
    destruct (int_truediv_finite _ _ _ Hf) as (q & ->).
    cbv beta iota delta [ret PyFloat.ge_int].
    pose proof (tier_status (inject_Z 16) (inject_Z 8) q ltac:(discriminate)) as Htier.
    destruct (Qle_bool (inject_Z 16) q); [|destruct (Qle_bool (inject_Z 8) q)];

      (eexists; split; [reflexivity|]; split; [reflexivity|]; split;
       [discriminate|]; intros ? ? [= <-] Hq; rewrite Hf in Hq; injection Hq as <-;
       split; [reflexivity | exact Htier]).
  - intros ->. simpl. eexists; split; [reflexivity|]. split; [reflexivity|].
    split; [intros _ _; split; reflexivity | discriminate].
Qed.

Lemma disk_block_spec h rs st :
  exists disk,
    disk_block h rs st = (Ok (rs ++ [disk]), st) /\
    name disk = "Disk Space" /\
    (forall free free_gb,
        disk_free h = Ok free ->
        PyFloat.int_truediv free (2 ^ 30) = Some (PyFloat.Finite free_gb) ->
        required disk = true /\
        three_tier 100 50 free_gb (status disk) /\
        exists tail, message disk = PyFloat.format_1f (PyFloat.Finite free_gb) +:+ tail /\
          (status disk = FAIL -> tail = " GB free (< 50 GB minimum)")) /\
    (forall e, disk_free h = Raise e ->
        status disk = WARNING /\ required disk = false /\ details disk = None /\
        message disk = "Could not check disk space: " +:+ exn_str e).
Proof.
  unfold disk_block, try_except, bind, lift, gigabytes.
  destruct (disk_free h) as [free|e].
  - destruct (PyFloat.int_truediv free (2 ^ 30)) as [f|] eqn:Hf.
    + destruct (int_truediv_finite _ _ _ Hf) as (q & ->).
    cbv beta iota delta [ret PyFloat.ge_int].
      pose proof (tier_status (inject_Z 100) (inject_Z 50) q ltac:(discriminate)) as Htier.
      destruct (Qle_bool (inject_Z 100) q); [|destruct (Qle_bool (inject_Z 50) q)];
  
        (eexists; split; [reflexivity|]; split; [reflexivity|]; split;
         [|discriminate]; intros ? ? [= <-] Hq; rewrite Hf in Hq; injection Hq as <-;
         split; [reflexivity|];
         split; [exact Htier|]; eexists; split; [reflexivity|]; cbn [status Result];
         try discriminate; reflexivity).
    + eexists; split; [reflexivity|]. split; [reflexivity|]. split; [|discriminate].
      intros ? ? [= <-] Hq. rewrite Hf in Hq. discriminate.
  - simpl. eexists; split; [reflexivity|]. split; [reflexivity|].
    split; [discriminate|]. intros ? [= <-]. repeat split.
Qed.

Lemma operating_system_block_spec h rs :
  exists os, operating_system_block h rs = rs ++ [os] /\ name os = "Operating System".
Proof.
  unfold operating_system_block.
  destruct (PyStr.in_list _ _); eexists; split; reflexivity.
Qed.

Lemma architecture_block_spec h rs :
  exists arch, architecture_block h rs = rs ++ [arch] /\ name arch = "Architecture".
Proof.
  unfold architecture_block.
  destruct (PyStr.in_list _ _); eexists; split; reflexivity.
Qed.

(** C9. Memory and disk follow the three-tier rule on the measured number of
    gigabytes: thresholds 16 and 8 for memory, 100 and 50 for free disk
    space; 40 GB of free disk space gives FAIL with a message that contains
    [40.0 GB] and [< 50 GB]. *)
Theorem C9_resource_thresholds (h : Host) (st : State) :
  memory_query_ok h ->
  exists os arch mem disk,
    check_system_requirements h st = (Ok [os; arch; mem; disk], st) /\
    name mem = "System Memory" /\
    name disk = "Disk Space" /\
    (forall total memory_gb,
        psutil_total h = Ok total ->
        PyFloat.int_truediv total (2 ^ 30) = Some (PyFloat.Finite memory_gb) ->
        three_tier 16 8 memory_gb (status mem)) /\
    (forall free free_gb,
        disk_free h = Ok free ->
        PyFloat.int_truediv free (2 ^ 30) = Some (PyFloat.Finite free_gb) ->
        three_tier 100 50 free_gb (status disk)) /\
    (disk_free h = Ok (40 * 2 ^ 30)%N ->
     status disk = FAIL /\
     PyStr.contains "40.0 GB" (message disk) = true /\
     PyStr.contains "< 50 GB" (message disk) = true).
Proof.
  intros Hmem. unfold check_system_requirements.
  destruct (operating_system_block_spec h []) as (os & -> & _).
  destruct (architecture_block_spec h ([] ++ [os])) as (arch & -> & _).
  destruct (memory_block_spec h (([] ++ [os]) ++ [arch]) st Hmem)
    as (mem & Hrun_mem & Hname_mem & _ & Htier_mem).
  destruct (disk_block_spec h ((([] ++ [os]) ++ [arch]) ++ [mem]) st)
    as (disk & Hrun_disk & Hname_disk & Htier_disk & _).
  exists os, arch, mem, disk.
  rewrite (bind_ok _ _ _ _ _ Hrun_mem), (bind_ok _ _ _ _ _ Hrun_disk).
  split; [reflexivity|]. split; [exact Hname_mem|]. split; [exact Hname_disk|].
  split; [|split].
  - intros total memory_gb Ht Hgb. now apply (Htier_mem total memory_gb).
  - intros free free_gb Hf Hgb. now apply (Htier_disk free free_gb).
  - intros Hfree. destruct gigabytes_40 as (q & Hq & Hq40 & Hfmt).
    destruct (Htier_disk _ _ Hfree Hq) as (_ & (_ & _ & Hfail) & tail & Hmsg & Htail).
    assert (Hst : status disk = FAIL).
    { apply Hfail. rewrite Hq40. reflexivity. }
    split; [exact Hst|]. rewrite Hmsg, Hfmt, (Htail Hst). split; reflexivity.
Qed.

(** ** Version checks *)

Ltac unfold_monad :=
  cbv beta iota delta
    [bind ret raise lift try_except tool_of group1 version_parse import_packaging].

Ltac split_match :=
  match goal with
  | |- context [match ?x with _ => _ end] =>
      lazymatch x with
      | context [match _ with _ => _ end] => fail
      | _ => destruct x eqn:?
      end
  end.

(** Whatever it is given, a version check returns a required result without
    details whose status is PASS, FAIL or WARNING. *)
Lemma check_version_shape h command min_version pattern st r st' :
  check_version h command min_version pattern st = (Ok r, st') ->
  status r <> INFO /\ required r = true /\ details r = None.
Proof.
  unfold check_version, run_command. unfold_monad.
  repeat (split_match; unfold_monad); intros [= <- <-]; cbn; repeat split; discriminate.
Qed.

Section CheckVersion.

Variables (h : Host) (command min_version : string)
          (version_pattern : option Re.regex) (st : State) (tool : string).
Hypothesis Htool : PyStr.split_first command = Some tool.


Lemma run_command_timeout :
  subprocess_run h command = TimeoutExpired ->
  run_command h command st = (Ok (1%Z, "", "Command timed out"), logged command st).
Proof. intros Hp. unfold run_command. now rewrite Hp. Qed.

Lemma check_version_timeout :
  which h tool = true ->
  subprocess_run h command = TimeoutExpired ->
  check_version h command min_version version_pattern st
  = (Ok (Result tool FAIL "Failed to get version: Command timed out"),
     logged command st).
Proof.
  intros Hw Hp. unfold check_version, run_command. unfold_monad.
  now rewrite Htool, Hw, Hp.
Qed.

Variables (stdout stderr : string) (m : Re.captures) (current_version : string).
Hypothesis Hwhich : which h tool = true.
Hypothesis Hrun : subprocess_run h command = Completed 0 stdout stderr.
Hypothesis Hsearch :
  Re.search (chosen_pattern version_pattern) (PyStr.strip stdout +:+ PyStr.strip stderr)
  = Some m.
Hypothesis Hgroup : Re.group m 1 = Some current_version.

Lemma check_version_fallback :
  packaging_installed h = false ->
  check_version h command min_version version_pattern st
  = (Ok (if PyStr.ge current_version min_version
         then Result tool PASS
                ("Version " +:+ current_version +:+ " (>= " +:+ min_version +:+ ")")
         else Result tool WARNING
                ("Version " +:+ current_version +:+ ", expected >= "
                 +:+ min_version +:+ " (simple comparison)")),
     logged command st).
Proof.
  intros Hp. unfold check_version, run_command. unfold_monad.
  rewrite Htool, Hwhich, Hrun. cbn [negb Z.eqb]. cbv beta iota.
  rewrite Hsearch, Hgroup, Hp. cbn [is_ImportError].
  now destruct (PyStr.ge current_version min_version).
Qed.

Lemma check_version_packaging current minimum :
  packaging_installed h = true ->
  Packaging.parse current_version = Some current ->
  Packaging.parse min_version = Some minimum ->
  check_version h command min_version version_pattern st
  = (Ok (if Packaging.ge current minimum
         then Result tool PASS
                ("Version " +:+ current_version +:+ " (>= " +:+ min_version +:+ ")")
         else Result tool FAIL
                ("Version " +:+ current_version +:+ " < " +:+ min_version)),
     logged command st).
Proof.
  intros Hp Hc Hm. unfold check_version, run_command. unfold_monad.
  rewrite Htool, Hwhich, Hrun. cbn [negb Z.eqb]. cbv beta iota.
  rewrite Hsearch, Hgroup, Hp, Hc, Hm.
  now destruct (Packaging.ge current minimum).
Qed.

End CheckVersion.

(** ** The order on versions *)

Lemma numeric_compare_cons x a y b :
  numeric_compare (x :: a) (y :: b)
  = match N.compare x y with
    | Eq => numeric_compare a b
    | c => c
    end.
Proof. reflexivity. Qed.

Lemma pad_length v : pad (length v) v = v.
Proof. unfold pad. now rewrite Nat.sub_diag, app_nil_r. Qed.

Lemma numeric_compare_nil_l b :
  numeric_compare [] b = Packaging.tuple_compare [] (Packaging.strip_trailing_zeros b).
Proof.
  unfold numeric_compare. cbn [length Nat.max]. rewrite pad_length.
  unfold pad. cbn [length app]. rewrite Nat.sub_0_r.
  induction b as [|y b IH]; [reflexivity|].
  cbn [length repeat Packaging.tuple_compare Packaging.strip_trailing_zeros].
  destruct (Packaging.strip_trailing_zeros b) as [|t ts].
  - destruct (N.eqb_spec y 0) as [->|Hy]; [exact IH|].
    destruct (N.compare_spec 0 y) as [Heq|Hlt|Hgt]; [congruence | reflexivity | lia].
  - destruct (N.compare_spec 0 y) as [Heq|Hlt|Hgt]; [exact IH | reflexivity | lia].
Qed.

Lemma numeric_compare_nil_r a :
  numeric_compare a [] = Packaging.tuple_compare (Packaging.strip_trailing_zeros a) [].
Proof.
  unfold numeric_compare. rewrite Nat.max_0_r, pad_length.
  unfold pad. cbn [length app]. rewrite Nat.sub_0_r.
  induction a as [|x a IH]; [reflexivity|].
  cbn [length repeat Packaging.tuple_compare Packaging.strip_trailing_zeros].
  destruct (Packaging.strip_trailing_zeros a) as [|t ts].
  - destruct (N.eqb_spec x 0) as [->|Hx]; [exact IH|].
    destruct (N.compare_spec x 0) as [Heq|Hlt|Hgt]; [congruence | lia | reflexivity].
  - destruct (N.compare_spec x 0) as [Heq|Hlt|Hgt]; [exact IH | lia | reflexivity].
Qed.

Lemma packaging_compare_cons x a y b :
  Packaging.compare (x :: a) (y :: b)
  = match N.compare x y with
    | Eq => Packaging.compare a b
    | c => c
    end.
Proof.
  unfold Packaging.compare. cbn [Packaging.strip_trailing_zeros].
  destruct (Packaging.strip_trailing_zeros a) as [|ta tas];
    destruct (Packaging.strip_trailing_zeros b) as [|tb tbs];
    destruct (N.eqb_spec x 0) as [->|Hx]; destruct (N.eqb_spec y 0) as [->|Hy];
    cbn [Packaging.tuple_compare]; try reflexivity;
    try (destruct (N.compare_spec 0 y); (reflexivity || lia));
    try (destruct (N.compare_spec x 0); (reflexivity || lia));
    try (destruct (N.compare_spec x y); reflexivity).
Qed.

(** The library's order on releases is the specification's. *)
Lemma packaging_compare_numeric a : forall b,
  Packaging.compare a b = numeric_compare a b.
Proof.
  induction a as [|x a IH]; intros b.
  - now rewrite numeric_compare_nil_l.
  - destruct b as [|y b].
    + now rewrite numeric_compare_nil_r.
    + rewrite packaging_compare_cons, numeric_compare_cons. now rewrite IH.
Qed.

Lemma packaging_ge_numeric a b :
  Packaging.ge a b = match numeric_compare a b with Lt => false | _ => true end.
Proof. unfold Packaging.ge. now rewrite packaging_compare_numeric. Qed.

(** ** The fallback comparison *)

(** C2. When the [packaging] library is missing, a version check
    that reaches the comparison compares the two texts as strings: at or
    above the minimum it returns PASS, with the message of the semantic path;
    below it returns WARNING (not FAIL), with a message that names the simple
    comparison. *)
Theorem C2_fallback_comparison (h : Host) (command min_version : string)
    (version_pattern : option Re.regex) (st : State)
    (tool stdout stderr : string) (m : Re.captures) (current_version : string) :
  PyStr.split_first command = Some tool ->
  which h tool = true ->
  subprocess_run h command = Completed 0 stdout stderr ->
  Re.search (chosen_pattern version_pattern) (PyStr.strip stdout +:+ PyStr.strip stderr)
  = Some m ->
  Re.group m 1 = Some current_version ->
  packaging_installed h = false ->
  exists r,
    check_version h command min_version version_pattern st = (Ok r, logged command st) /\
    name r = tool /\
    (PyStr.ge current_version min_version = true ->
     status r = PASS /\
     message r = "Version " +:+ current_version +:+ " (>= " +:+ min_version +:+ ")") /\
    (PyStr.ge current_version min_version = false ->
     status r = WARNING /\
     message r = "Version " +:+ current_version +:+ ", expected >= "
                 +:+ min_version +:+ " (simple comparison)").
Proof.
  intros Htool Hwhich Hrun Hsearch Hgroup Hpkg.
  rewrite (check_version_fallback h command min_version version_pattern st tool
             Htool stdout stderr m current_version Hwhich Hrun Hsearch Hgroup Hpkg).
  eexists. split; [reflexivity|].
  destruct (PyStr.ge current_version min_version); cbn;
    (split; [reflexivity|]); split; intros Hge; try discriminate; now split.
Qed.

(** On a machine without [packaging], a tool that prints [tool v3], searched
    with the pattern [(v\d+)] and held against the minimum 2.9. *)
Lemma C2_fallback_comparison_witness :
  exists r,
    check_version Samples.without_packaging "tool --version" "2.9"
      (Some Samples.v_number) Samples.initial
    = (Ok r, logged "tool --version" Samples.initial) /\
    name r = "tool" /\
    (PyStr.ge "v3" "2.9" = true ->
     status r = PASS /\ message r = "Version v3 (>= 2.9)") /\
    (PyStr.ge "v3" "2.9" = false ->
     status r = WARNING /\
     message r = "Version v3, expected >= 2.9 (simple comparison)").
Proof.
  apply (C2_fallback_comparison Samples.without_packaging "tool --version" "2.9"
           (Some Samples.v_number) Samples.initial "tool" "tool v3" ""
           [(1%nat, "v3")] "v3"); reflexivity.
Defined.

(** The fallback reports [v3] against the minimum [2.9] as a PASS: the
    result is not downgraded to WARNING. *)
Lemma C2_counterexample :
  packaging_installed Samples.without_packaging = false /\
  PyStr.ge "v3" "2.9" = true /\
  check_version Samples.without_packaging "tool --version" "2.9"
    (Some Samples.v_number) Samples.initial
  = (Ok (Result "tool" PASS "Version v3 (>= 2.9)"),
     logged "tool --version" Samples.initial) /\
  status (Result "tool" PASS "Version v3 (>= 2.9)") <> WARNING.
Proof. repeat split; try reflexivity. discriminate. Qed.

(** C3. For a current version and a minimum that are both dotted
    sequences of numbers: with the [packaging] library the check passes
    exactly when the current version is not below the minimum in the
    component-wise numeric order with missing trailing components read as 0
    (2.9 is below 2.10), and fails otherwise; without the library, and only
    then, the two texts are compared as strings, numeric or not. *)
Theorem C3_version_order (h : Host) (command min_version : string)
    (version_pattern : option Re.regex) (st : State)
    (tool stdout stderr : string) (m : Re.captures) (current_version : string)
    (current minimum : list N) :
  PyStr.split_first command = Some tool ->
  which h tool = true ->
  subprocess_run h command = Completed 0 stdout stderr ->
  Re.search (chosen_pattern version_pattern) (PyStr.strip stdout +:+ PyStr.strip stderr)
  = Some m ->
  Re.group m 1 = Some current_version ->
  Packaging.parse current_version = Some current ->
  Packaging.parse min_version = Some minimum ->
  exists r,
    check_version h command min_version version_pattern st = (Ok r, logged command st) /\
    (packaging_installed h = true ->
     status r = match numeric_compare current minimum with
                | Lt => FAIL
                | _ => PASS
                end) /\
    (packaging_installed h = false ->
     status r = if PyStr.ge current_version min_version then PASS else WARNING) /\
    (Packaging.parse "2.9" = Some [2; 9]%N /\
     Packaging.parse "2.10" = Some [2; 10]%N /\
     numeric_compare [2; 9]%N [2; 10]%N = Lt).
Proof.
  intros Htool Hwhich Hrun Hsearch Hgroup Hcur Hmin.
  destruct (packaging_installed h) eqn:Hpkg.
  - rewrite (check_version_packaging h command min_version version_pattern st tool
               Htool stdout stderr m current_version Hwhich Hrun Hsearch Hgroup
               current minimum Hpkg Hcur Hmin).
    eexists. split; [reflexivity|]. rewrite packaging_ge_numeric.
    split; [|split; [discriminate | repeat split]].
    intros _. now destruct (numeric_compare current minimum).
  - rewrite (check_version_fallback h command min_version version_pattern st tool
               Htool stdout stderr m current_version Hwhich Hrun Hsearch Hgroup Hpkg).
    eexists. split; [reflexivity|].
    split; [discriminate | split; [|repeat split]].
    intros _. now destruct (PyStr.ge current_version min_version).
Qed.

(** Docker 24.0.6 against the minimum 24.0 on the reference machine. *)
Lemma C3_version_order_witness :
  exists r,
    check_version Samples.reference "docker --version" "24.0" None Samples.initial
    = (Ok r, logged "docker --version" Samples.initial) /\
    (packaging_installed Samples.reference = true ->
     status r = match numeric_compare [24; 0; 6]%N [24; 0]%N with
                | Lt => FAIL
                | _ => PASS
                end) /\
    (packaging_installed Samples.reference = false ->
     status r = if PyStr.ge "24.0.6" "24.0" then PASS else WARNING) /\
    (Packaging.parse "2.9" = Some [2; 9]%N /\
     Packaging.parse "2.10" = Some [2; 10]%N /\
     numeric_compare [2; 9]%N [2; 10]%N = Lt).
Proof.
  apply (C3_version_order Samples.reference "docker --version" "24.0" None
           Samples.initial "docker" "Docker version 24.0.6, build ed223bc" ""
           [(1%nat, "24.0.6")] "24.0.6"); reflexivity.
Defined.

(** Without [packaging], git 2.5.0 is compared with the minimum 2.40 as a
    string: both are dotted numbers, 2.5.0 is below 2.40 in the numeric
    order, and the check passes. *)
Lemma C3_counterexample :
  Packaging.parse "2.5.0" = Some [2; 5; 0]%N /\
  Packaging.parse "2.40" = Some [2; 40]%N /\
  numeric_compare [2; 5; 0]%N [2; 40]%N = Lt /\
  PyStr.ge "2.5.0" "2.40" = true /\
  check_version Samples.old_git_without_packaging "git --version" "2.40" None
    Samples.initial
  = (Ok (Result "git" PASS "Version 2.5.0 (>= 2.40)"),
     logged "git --version" Samples.initial).
Proof. repeat split; reflexivity. Qed.

(** ** Missing tools and commands that hang *)




(** C5. When the command of a check exceeds the timeout,
    [run_command] returns exit code 1 with the error text [Command timed
    out], and the check returns a result with status FAIL that carries this
    text, required or not: the optional VS Code check keeps the status
    FAIL. *)
Theorem C5_command_timeout (h : Host) (command min_version : string)
    (version_pattern : option Re.regex) (st : State) (tool : string) :
  PyStr.split_first command = Some tool ->
  which h tool = true ->
  subprocess_run h command = TimeoutExpired ->
  run_command h command st = (Ok (1%Z, "", "Command timed out"), logged command st) /\
  check_version h command min_version version_pattern st
  = (Ok (mkValidationResult tool FAIL "Failed to get version: Command timed out"
           None true),
     logged command st) /\
  (command = "code --version" ->
   check_ide_tools h st
   = (Ok [mkValidationResult "code" FAIL "Failed to get version: Command timed out"
            None false],
      logged "code --version" st)).
Proof.
  intros Htool Hwhich Hrun. split; [|split].
  - now apply run_command_timeout.
  - now apply check_version_timeout.
  - intros ->. injection Htool as <-. unfold check_ide_tools.
    rewrite (bind_ok _ _ _ _ _
               (check_version_timeout h "code --version" "1.80" None st "code"
                  eq_refl Hwhich Hrun)).
    reflexivity.
Qed.

(** The VS Code check on the reference machine where [code --version]
    hangs. *)
Lemma C5_command_timeout_witness :
  run_command Samples.code_hangs "code --version" Samples.initial
  = (Ok (1%Z, "", "Command timed out"), logged "code --version" Samples.initial) /\
  check_version Samples.code_hangs "code --version" "1.80" None Samples.initial
  = (Ok (mkValidationResult "code" FAIL "Failed to get version: Command timed out"
           None true),
     logged "code --version" Samples.initial) /\
  ("code --version" = "code --version" ->
   check_ide_tools Samples.code_hangs Samples.initial
   = (Ok [mkValidationResult "code" FAIL "Failed to get version: Command timed out"
            None false],
      logged "code --version" Samples.initial)).
Proof.
  apply (C5_command_timeout Samples.code_hangs "code --version" "1.80" None
           Samples.initial "code"); reflexivity.
Defined.

(** The optional VS Code check, when its command times out, gives FAIL and
    not WARNING. *)
Lemma C5_counterexample :
  subprocess_run Samples.code_hangs "code --version" = TimeoutExpired /\
  check_ide_tools Samples.code_hangs Samples.initial
  = (Ok [mkValidationResult "code" FAIL "Failed to get version: Command timed out"
           None false],
     logged "code --version" Samples.initial) /\
  status (mkValidationResult "code" FAIL "Failed to get version: Command timed out"
            None false) <> WARNING.
Proof. repeat split; try reflexivity. discriminate. Qed.

(** ** The report *)

Lemma report_entries rs : Forall2 entry_of rs (map report_entry rs).
Proof.
  induction rs as [|r rs IH]; constructor; [|exact IH].
  repeat split.
Qed.

Lemma generate_report_ok h output_file st timestamp :
  date_iseconds h = Ok timestamp ->
  open_w h output_file = Ok tt ->
  stdout_write h (saved_line output_file) = Ok tt ->
  generate_report h output_file st
  = (Ok tt, mkState (results st) (executed st ++ ["date -Iseconds"])
              (<[output_file := report_of h timestamp (results st)]> (files st))
              (printed st ++ [saved_line output_file])).
Proof.
  intros Hdate Hopen Hprint.
  unfold generate_report, dump, run_date, print, bind, lift, get_results. cbn.
  rewrite Hdate, Hopen. cbn. fold (saved_line output_file). now rewrite Hprint.
Qed.

(** Once the file is open the report is in it, whether the last line can
    be printed or not. *)
Lemma generate_report_written h output_file st timestamp :
  date_iseconds h = Ok timestamp ->
  open_w h output_file = Ok tt ->
  files (snd (generate_report h output_file st))
  = <[output_file := report_of h timestamp (results st)]> (files st).
Proof.
  intros Hdate Hopen.
  unfold generate_report, dump, run_date, print, bind, lift, get_results. cbn.
  rewrite Hdate, Hopen. cbn. now destruct (stdout_write h _).
Qed.

(** What a failing [generate_report] leaves: nothing written when the date
    or the file cannot be had, the report written when only the last line
    cannot be printed. *)
Lemma generate_report_raise h path st e st' :
  generate_report h path st = (Raise e, st') ->
  results st' = results st /\
  executed st' = executed st ++ ["date -Iseconds"] /\
  ((date_iseconds h = Raise e \/ open_w h path = Raise e) /\ files st' = files st \/
   exists timestamp,
     date_iseconds h = Ok timestamp /\ open_w h path = Ok tt /\
     stdout_write h (saved_line path) = Raise e /\
     files st' = <[path := report_of h timestamp (results st)]> (files st)).
Proof.
  unfold generate_report, dump, run_date, print, bind, lift, get_results. cbn.
  destruct (date_iseconds h) as [ts|e1];
    [|intros [= <- <-]; cbn; split; [reflexivity|]; split; [reflexivity|];
      left; split; [now left | reflexivity]].
  destruct (open_w h path) as [[]|e2];
    [|intros [= <- <-]; cbn; split; [reflexivity|]; split; [reflexivity|];
      left; split; [now right | reflexivity]].
  cbn. fold (saved_line path).
  destruct (stdout_write h (saved_line path)) as [[]|e3]; [discriminate|].
  intros [= <- <-]. cbn. split; [reflexivity|]. split; [reflexivity|].
  right. now exists ts.
Qed.

(** C6. When the [date] command can be run and the file can be opened, the
    report is written to the path given, replacing what the file held and
    leaving the other files alone.  Its keys are [timestamp], [system] and
    [results]; [system] has the keys [os], [release], [architecture] and
    [python_version]; [results] has one entry per result, in order, with the
    keys [name], [status], [message], [details] and [required].  When the
    command cannot be run or the file cannot be opened, [generate_report]
    raises and no file is written. *)
Theorem C6_report_fields (h : Host) (output_file : string) (st : State) :
  let outcome := fst (generate_report h output_file st) in
  let st' := snd (generate_report h output_file st) in
  (forall timestamp,
     date_iseconds h = Ok timestamp ->
     open_w h output_file = Ok tt ->
     exists report system entries,
       files st' !! output_file = Some report /\
       (forall path, path <> output_file -> files st' !! path = files st !! path) /\
       keys report = ["timestamp"; "system"; "results"] /\
       field "timestamp" report = Some (JStr (PyStr.strip timestamp)) /\
       field "system" report = Some system /\
       keys system = ["os"; "release"; "architecture"; "python_version"] /\
       field "os" system = Some (JStr (platform_system h)) /\
       field "release" system = Some (JStr (platform_release h)) /\
       field "architecture" system = Some (JStr (platform_machine h)) /\
       field "python_version" system = Some (JStr (platform_python_version h)) /\
       field "results" report = Some (JArr entries) /\
       Forall2 entry_of (results st) entries /\
       (stdout_write h (saved_line output_file) = Ok tt -> outcome = Ok tt)) /\
  (forall e,
     date_iseconds h = Raise e \/
     (is_Some_result (date_iseconds h) /\ open_w h output_file = Raise e) ->
     outcome = Raise e /\ files st' = files st).
Proof.
  cbv zeta. split.
  - intros timestamp Hdate Hopen.
    rewrite (generate_report_written h output_file st timestamp Hdate Hopen).
    eexists _, _, _. split; [apply lookup_insert_eq|].
    split; [intros path Hne; now apply lookup_insert_ne|].
    repeat (split; [reflexivity|]). split; [apply report_entries|].
    intros Hprint.
    now rewrite (generate_report_ok h output_file st timestamp Hdate Hopen Hprint).
  - intros e He.
    unfold generate_report, dump, run_date, print, bind, lift, get_results. cbn.
    destruct He as [->|((ts & ->) & ->)]; cbn; auto.
Qed.

(** The report of two results on the reference machine, written over an
    older file. *)
Lemma C6_report_fields_witness :
  exists report system entries,
    files (snd (generate_report Samples.reference "validation-report.json"
                  Samples.two_results)) !! "validation-report.json"
    = Some report /\
    (forall path,
       path <> "validation-report.json" ->
       files (snd (generate_report Samples.reference "validation-report.json"
                     Samples.two_results)) !! path
       = files Samples.two_results !! path) /\
    keys report = ["timestamp"; "system"; "results"] /\
    field "timestamp" report = Some (JStr (PyStr.strip "2025-01-01T00:00:00+00:00")) /\
    field "system" report = Some system /\
    keys system = ["os"; "release"; "architecture"; "python_version"] /\
    field "os" system = Some (JStr (platform_system Samples.reference)) /\
    field "release" system = Some (JStr (platform_release Samples.reference)) /\
    field "architecture" system = Some (JStr (platform_machine Samples.reference)) /\
    field "python_version" system
    = Some (JStr (platform_python_version Samples.reference)) /\
    field "results" report = Some (JArr entries) /\
    Forall2 entry_of (results Samples.two_results) entries /\
    (stdout_write Samples.reference (saved_line "validation-report.json") = Ok tt ->
     fst (generate_report Samples.reference "validation-report.json" Samples.two_results)
     = Ok tt).
Proof.
  apply (proj1 (C6_report_fields Samples.reference "validation-report.json"
                  Samples.two_results) "2025-01-01T00:00:00+00:00");
    reflexivity.
Defined.

(** The [system] object written on the reference machine has no key
    [runtime_version]: the version of the interpreter is under
    [python_version]. *)
Lemma C6_counterexample :
  exists st' report system,
    generate_report Samples.reference "validation-report.json" Samples.initial
    = (Ok tt, st') /\
    files st' !! "validation-report.json" = Some report /\
    field "system" report = Some system /\
    field "runtime_version" system = None /\
    ~ In "runtime_version" (keys system) /\
    field "python_version" system = Some (JStr "3.12.3").
Proof.
  rewrite (generate_report_ok Samples.reference "validation-report.json"
             Samples.initial "2025-01-01T00:00:00+00:00" eq_refl eq_refl eq_refl).
  eexists _, _, _. split; [reflexivity|].
  cbn [files]. split; [apply lookup_insert_eq|].
  split; [reflexivity|]. split; [reflexivity|]. split; [|reflexivity].
  cbn. intros [H|[H|[H|[H|[]]]]]; discriminate.
Qed.

(** ** INFO results are optional *)

Lemma info_optional_not_info r : status r <> INFO -> info_optional r.
Proof. intros Hne Hinfo. contradiction. Qed.

Lemma info_optional_optional r : required r = false -> info_optional r.
Proof. intros Hreq _. exact Hreq. Qed.

Lemma check_version_info h command min_version pattern st r st' :
  check_version h command min_version pattern st = (Ok r, st') ->
  built r.
Proof.
  intros H. destruct (check_version_shape _ _ _ _ _ _ _ H) as (Hs & _ & Hd).
  split; [now apply info_optional_not_info | exact Hd].
Qed.

Lemma try_except_inv {A} (m : M A) class handler st a st' :
  try_except m class handler st = (Ok a, st') ->
  m st = (Ok a, st') \/
  exists e st1, m st = (Raise e, st1) /\ class e = true /\ handler e st1 = (Ok a, st').
Proof.
  unfold try_except. destruct (m st) as [[x|e] st1]; intros H.
  - left. exact H.
  - right. destruct (class e) eqn:Hc; [|discriminate]. now exists e, st1.
Qed.

Ltac forall_app :=
  repeat first [apply Forall_app_2 | apply Forall_cons_2 | apply Forall_nil_2].

Ltac info_done :=
  first [ assumption
        | split; [apply info_optional_not_info; discriminate | reflexivity]
        | split; [apply info_optional_optional; reflexivity | reflexivity] ].

Lemma memory_block_info h rs st rs' st' :
  memory_block h rs st = (Ok rs', st') ->
  Forall built rs -> Forall built rs'.
Proof.
  intros H Hrs. unfold memory_block in H.
  apply try_except_inv in H as [H|(e & st1 & _ & _ & H)].
  - inv_bind H. inv_bind H.
    destruct (PyFloat.ge_int r0 16); [|destruct (PyFloat.ge_int r0 8)];
      inv_ret H; forall_app; info_done.
  - inv_ret H. forall_app; info_done.
Qed.

Lemma disk_block_info h rs st rs' st' :
  disk_block h rs st = (Ok rs', st') ->
  Forall built rs -> Forall built rs'.
Proof.
  intros H Hrs. unfold disk_block in H.
  apply try_except_inv in H as [H|(e & st1 & _ & _ & H)].
  - inv_bind H. inv_bind H.
    destruct (PyFloat.ge_int r0 100); [|destruct (PyFloat.ge_int r0 50)];
      inv_ret H; forall_app; info_done.
  - inv_ret H. forall_app; info_done.
Qed.

Lemma check_system_requirements_info h st rs st' :
  check_system_requirements h st = (Ok rs, st') -> Forall built rs.
Proof.
  unfold check_system_requirements. intros H.
  inv_bind H. inv_bind H. inv_ret H.
  apply (disk_block_info _ _ _ _ _ Hstep0).
  apply (memory_block_info _ _ _ _ _ Hstep).
  unfold operating_system_block, architecture_block.
  destruct (PyStr.in_list _ _), (PyStr.in_list _ _); forall_app; info_done.
Qed.

Lemma check_core_tools_info h st rs st' :
  check_core_tools h st = (Ok rs, st') -> Forall built rs.
Proof.
  unfold check_core_tools. intros H.
  inv_bind H. inv_bind H. inv_bind H. inv_bind H. inv_ret H.
  apply check_version_info in Hstep, Hstep0, Hstep1.
  assert (built r2).
  { destruct (decide (status r1 = FAIL)).
    - now apply check_version_info in Hstep2.
    - now inv_ret Hstep2. }
  forall_app; info_done.
Qed.

Lemma check_programming_languages_info h st rs st' :
  check_programming_languages h st = (Ok rs, st') -> Forall built rs.
Proof.
  unfold check_programming_languages. intros H.
  inv_bind H. inv_bind H. inv_bind H. inv_bind H. inv_ret H.
  apply check_version_info in Hstep, Hstep0, Hstep1, Hstep2.
  destruct (decide (status r0 = PASS)); forall_app; info_done.
Qed.

Lemma check_package_managers_info h st rs st' :
  check_package_managers h st = (Ok rs, st') -> Forall built rs.
Proof.
  unfold check_package_managers. intros H.
  inv_bind H. inv_bind H. inv_bind H. inv_ret H.
  apply check_version_info in Hstep, Hstep0, Hstep1.
  forall_app; info_done.
Qed.

Lemma docker_memory_block_info stdout rs st rs' st' :
  docker_memory_block stdout rs st = (Ok rs', st') ->
  Forall built rs -> Forall built rs'.
Proof.
  intros H Hrs. unfold docker_memory_block in H.
  apply try_except_inv in H as [H|(e & st1 & _ & _ & H)].
  - destruct (PyStr.contains _ _); [|now inv_ret H].
    destruct (Re.search _ _); [|now inv_ret H].
    inv_bind H. inv_bind H.
    match type of H with
    | context [PyFloat.ge_int ?x 8] => destruct (PyFloat.ge_int x 8)
    end; inv_ret H; forall_app; info_done.
  - inv_ret H. forall_app; info_done.
Qed.

Lemma check_docker_configuration_info h st rs st' :
  check_docker_configuration h st = (Ok rs, st') -> Forall built rs.
Proof.
  unfold check_docker_configuration. intros H.
  inv_bind H. destruct r as [[exit_code stdout] stderr].
  destruct (exit_code =? 0)%Z.
  - inv_bind H. inv_ret H.
    apply (docker_memory_block_info _ _ _ _ _ Hstep0). forall_app; info_done.
  - inv_ret H. forall_app; info_done.
Qed.

Lemma check_port_optional h port st r st' :
  check_port h port st = (Ok r, st') -> required r = false /\ details r = None.
Proof.
  unfold check_port, try_except, bind, lift, ret.
  destruct (connect_ex h port) as [errno|e]; cbn.
  - destruct (errno =? 0)%Z; now intros [= <- <-].
  - now intros [= <- <-].
Qed.

Lemma check_network_ports_info h st rs st' :
  check_network_ports h st = (Ok rs, st') -> Forall built rs.
Proof.
  intros H. unfold check_network_ports in H.
  destruct (check_ports_spec h required_ports [] st) as (rs0 & Hrs0 & Hall).
  rewrite Hrs0 in H. injection H as <- <-. cbn [app]. clear Hrs0.
  generalize dependent required_ports. intros ports Hall.
  induction Hall as [|port r ports rs0 Hr _ IH]; constructor; [|exact IH].
  destruct (check_port_optional _ _ _ _ _ Hr) as (Hreq & Hd).
  split; [now apply info_optional_optional | exact Hd].
Qed.

Lemma check_ide_tools_info h st rs st' :
  check_ide_tools h st = (Ok rs, st') -> Forall built rs.
Proof.
  unfold check_ide_tools. intros H. inv_bind H. inv_ret H.
  apply check_version_info in Hstep as (_ & Hd).
  forall_app. split; [now apply info_optional_optional | exact Hd].
Qed.

Lemma run_all_checks_inv h st checks st' :
  run_all_checks h st = (Ok checks, st') ->
  results st' = concat (map snd checks) /\
  map fst checks
  = ["System Requirements"; "Core Tools"; "Programming Languages";
     "Package Managers"; "Docker Configuration"; "Network Ports"; "IDE Tools"] /\
  Forall built (results st').
Proof.
  unfold run_all_checks. intros H.
  inv_bind H. inv_bind H. inv_bind H. inv_bind H. inv_bind H. inv_bind H. inv_bind H.
  inv_bind H. inv_ret H. unfold set_results in Hstep6. injection Hstep6 as _ <-.
  cbn [results map fst snd concat]. split; [reflexivity|]. split; [reflexivity|].
  apply check_system_requirements_info in Hstep.
  apply check_core_tools_info in Hstep0.
  apply check_programming_languages_info in Hstep1.
  apply check_package_managers_info in Hstep2.
  apply check_docker_configuration_info in Hstep3.
  apply check_network_ports_info in Hstep4.
  apply check_ide_tools_info in Hstep5.
  rewrite app_nil_r. repeat (apply Forall_app_2; [assumption|]). assumption.
Qed.

Lemma generate_report_results h path st res st' :
  generate_report h path st = (res, st') -> results st' = results st.
Proof.
  destruct res as [[]|e]; intros H.
  - apply generate_report_inv in H as (ts & _ & _ & ->). reflexivity.
  - now apply generate_report_raise in H as (Hr & _).
Qed.

Lemma keeps_ret {A} (a : A) : keeps_results (ret a).
Proof. intros st res st'. now intros [= _ <-]. Qed.

Lemma keeps_raise {A} e : keeps_results (@raise A e).
Proof. intros st res st'. now intros [= _ <-]. Qed.

Lemma keeps_lift {A} (r : result A) : keeps_results (lift r).
Proof. intros st res st'. now intros [= _ <-]. Qed.

Lemma keeps_bind {A B} (m : M A) (k : A -> M B) :
  keeps_results m -> (forall a, keeps_results (k a)) -> keeps_results (bind m k).
Proof.
  intros Hm Hk st res st'. unfold bind.
  destruct (m st) as [[a|e] st1] eqn:Hst.
  - intros H. rewrite (Hk a _ _ _ H). now apply (Hm _ _ _ Hst).
  - intros [= _ <-]. now apply (Hm _ _ _ Hst).
Qed.

Lemma keeps_try_except {A} (m : M A) class handler :
  keeps_results m -> (forall e, keeps_results (handler e)) ->
  keeps_results (try_except m class handler).
Proof.
  intros Hm Hh st res st'. unfold try_except.
  destruct (m st) as [[a|e] st1] eqn:Hst.
  - intros [= _ <-]. now apply (Hm _ _ _ Hst).
  - destruct (class e).
    + intros H. rewrite (Hh e _ _ _ H). now apply (Hm _ _ _ Hst).
    + intros [= _ <-]. now apply (Hm _ _ _ Hst).
Qed.

Lemma keeps_run_command h command : keeps_results (run_command h command).
Proof.
  intros st res st'. unfold run_command.
  destruct (subprocess_run h command); now intros [= _ <-].
Qed.

Ltac keeps_step :=
  first [ apply keeps_ret | apply keeps_raise | apply keeps_lift
        | apply keeps_run_command | apply keeps_bind | apply keeps_try_except
        | match goal with
          | |- forall _, _ => intro
          | |- keeps_results (match ?x with _ => _ end) => destruct x
          end ].

Ltac keeps := repeat keeps_step.

Lemma keeps_check_version h command min_version pattern :
  keeps_results (check_version h command min_version pattern).
Proof.
  unfold check_version, tool_of, group1, version_parse, import_packaging. keeps.
Qed.

Lemma keeps_check_system_requirements h : keeps_results (check_system_requirements h).
Proof.
  unfold check_system_requirements, memory_block, disk_block, gigabytes. keeps.
Qed.

Lemma keeps_check_core_tools h : keeps_results (check_core_tools h).
Proof.
  unfold check_core_tools. repeat first [apply keeps_check_version | keeps_step].
Qed.

Lemma keeps_check_programming_languages h :
  keeps_results (check_programming_languages h).
Proof.
  unfold check_programming_languages.
  repeat first [apply keeps_check_version | keeps_step].
Qed.

Lemma keeps_check_package_managers h : keeps_results (check_package_managers h).
Proof.
  unfold check_package_managers. repeat first [apply keeps_check_version | keeps_step].
Qed.

Lemma keeps_check_docker_configuration h :
  keeps_results (check_docker_configuration h).
Proof. unfold check_docker_configuration, docker_memory_block. keeps. Qed.

Lemma keeps_check_ports h ports : forall acc, keeps_results (check_ports h ports acc).
Proof.
  induction ports as [|port ports IH]; intros acc; cbn [check_ports].
  - apply keeps_ret.
  - apply keeps_bind; [unfold check_port; keeps | intros r; apply IH].
Qed.

Lemma keeps_check_ide_tools h : keeps_results (check_ide_tools h).
Proof.
  unfold check_ide_tools. repeat first [apply keeps_check_version | keeps_step].
Qed.

Lemma bind_keeps_raise {A B} (m : M A) (k : A -> M B) st e st' :
  keeps_results m ->
  (forall a st1, k a st1 = (Raise e, st') -> results st' = results st1) ->
  bind m k st = (Raise e, st') -> results st' = results st.
Proof.
  intros Hm Hk. unfold bind. destruct (m st) as [[a|e1] st1] eqn:Hst.
  - intros H. rewrite (Hk a st1 H). now apply (Hm _ _ _ Hst).
  - intros [= _ <-]. now apply (Hm _ _ _ Hst).
Qed.

(** A run whose checks raise leaves [self.results] as it was. *)
Lemma run_all_checks_raise h st e st' :
  run_all_checks h st = (Raise e, st') -> results st' = results st.
Proof.
  unfold run_all_checks.
  apply bind_keeps_raise; [apply keeps_check_system_requirements | intros ? ?].
  apply bind_keeps_raise; [apply keeps_check_core_tools | intros ? ?].
  apply bind_keeps_raise; [apply keeps_check_programming_languages | intros ? ?].
  apply bind_keeps_raise; [apply keeps_check_package_managers | intros ? ?].
  apply bind_keeps_raise; [apply keeps_check_docker_configuration | intros ? ?].
  apply bind_keeps_raise; [apply keeps_check_ports | intros ? ?].
  apply bind_keeps_raise; [apply keeps_check_ide_tools | intros ? ?].
  discriminate.
Qed.

Lemma quiet_announce h : quiet (announce h).
Proof. unfold announce. quiet. Qed.

Lemma quiet_report_failure h e : quiet (report_failure h e).
Proof. unfold report_failure. apply quiet_print. Qed.

(** The ways [main] can end: at its first prints, in the checks, in the
    printing of the results, in the report, or with the exit code the
    summary gives. *)
Lemma main_cases h st :
  (exists e st0, announce h (fresh st) = (Raise e, st0) /\ main h st = (1%Z, st0)) \/
  exists st0,
    announce h (fresh st) = (Ok tt, st0) /\
    ((exists e st1,
         run_all_checks h st0 = (Raise e, st1) /\
         main h st = (1%Z, snd (report_failure h e st1))) \/
     exists checks st1,
       run_all_checks h st0 = (Ok checks, st1) /\
       ((exists e st2,
            print_results h checks st1 = (Raise e, st2) /\
            main h st = (1%Z, snd (report_failure h e st2))) \/
        exists success st2,
          print_results h checks st1 = (Ok success, st2) /\
          ((exists e st3,
               generate_report h "validation-report.json" st2 = (Raise e, st3) /\
               main h st = (1%Z, snd (report_failure h e st3))) \/
           exists st3,
             generate_report h "validation-report.json" st2 = (Ok tt, st3) /\
             main h st = (exit_code success, st3)))).
Proof.
  unfold main.
  destruct (announce h (fresh st)) as [[[]|e] st0] eqn:Hann;
    [right; exists st0; split; [reflexivity|] | left; now exists e, st0].
  unfold main_body.
  destruct (run_all_checks h st0) as [[checks|e] st1] eqn:Hrun;
    [right; exists checks, st1; split; [reflexivity|]
    | left; exists e, st1; now rewrite (bind_raise _ _ _ _ _ Hrun)].
  rewrite (bind_ok _ _ _ _ _ Hrun).
  destruct (print_results h checks st1) as [[success|e] st2] eqn:Hprint;
    [right; exists success, st2; split; [reflexivity|]
    | left; exists e, st2; now rewrite (bind_raise _ _ _ _ _ Hprint)].
  rewrite (bind_ok _ _ _ _ _ Hprint).
  destruct (generate_report h "validation-report.json" st2) as [[[]|e] st3] eqn:Hrep;
    [right; exists st3; now rewrite (bind_ok _ _ _ _ _ Hrep)
    | left; exists e, st3; now rewrite (bind_raise _ _ _ _ _ Hrep)].
Qed.

(** A run that completes ends with the exit code of its summary, the
    validator holding the results the checks returned. *)
Lemma main_completes h st checks :
  completes h st checks ->
  fst (main h st) = exit_code (negb (0 <? failed_checks (returned checks))%nat) /\
  results (snd (main h st)) = returned checks.
Proof.
  intros (st0 & st1 & success & st2 & st3 & Hann & Hrun & Hprint & Hrep).
  unfold main, main_body. rewrite Hann.
  rewrite (bind_ok _ _ _ _ _ Hrun), (bind_ok _ _ _ _ _ Hprint),
    (bind_ok _ _ _ _ _ Hrep). cbn [ret fst snd].
  pose proof (print_results_value _ _ _ _ _ Hprint) as ->.
  apply quiet_print_results in Hprint as (Hr2 & _).
  apply generate_report_results in Hrep.
  apply run_all_checks_inv in Hrun as (Hrs & _).
  unfold returned. rewrite <- Hrs. split; [reflexivity | congruence].
Qed.

Lemma main_results_cases h st :
  results (snd (main h st)) = [] \/
  exists st0 checks st1,
    run_all_checks h st0 = (Ok checks, st1) /\
    results (snd (main h st)) = results st1.
Proof.
  destruct (main_cases h st)
    as [(e & st0 & Hann & ->)
       |(st0 & Hann & [(e & st1 & Hrun & ->)
         |(checks & st1 & Hrun & [(e & st2 & Hprint & ->)
           |(success & st2 & Hprint & [(e & st3 & Hrep & ->)|(st3 & Hrep & ->)])])])];
    cbn [snd].
  - left. now apply quiet_announce in Hann as (-> & _).
  - left. destruct (report_failure h e st1) as [res st4] eqn:Hfail. cbn.
    apply quiet_report_failure in Hfail as (-> & _).
    apply run_all_checks_raise in Hrun as ->.
    now apply quiet_announce in Hann as (-> & _).
  - right. exists st0, checks, st1. split; [exact Hrun|].
    destruct (report_failure h e st2) as [res st4] eqn:Hfail. cbn.
    apply quiet_report_failure in Hfail as (-> & _).
    now apply quiet_print_results in Hprint as (-> & _).
  - right. exists st0, checks, st1. split; [exact Hrun|].
    destruct (report_failure h e st3) as [res st4] eqn:Hfail. cbn.
    apply quiet_report_failure in Hfail as (-> & _).
    apply generate_report_results in Hrep as ->.
    now apply quiet_print_results in Hprint as (-> & _).
  - right. exists st0, checks, st1. split; [exact Hrun|].
    apply generate_report_results in Hrep as ->.
    now apply quiet_print_results in Hprint as (-> & _).
Qed.

(** C10. Every result the validator builds that has status INFO is
    optional: a version check never returns INFO, each group of checks
    returns INFO only with [required] false, and so it is for the results
    the validator holds when [main] ends. *)
Theorem C10_info_is_optional (h : Host) (st : State) :
  (forall command min_version pattern r st',
      check_version h command min_version pattern st = (Ok r, st') ->
      status r <> INFO) /\
  (forall check rs st',
      In check [ check_system_requirements h; check_core_tools h;
                 check_programming_languages h; check_package_managers h;
                 check_docker_configuration h; check_network_ports h;
                 check_ide_tools h ] ->
      check st = (Ok rs, st') ->
      forall r, In r rs -> status r = INFO -> required r = false) /\
  (forall r, In r (results (snd (main h st))) ->
             status r = INFO -> required r = false).
Proof.
  split; [|split].
  - intros command min_version pattern r st' H.
    now apply (check_version_shape _ _ _ _ _ _ _ H).
  - intros check rs st' Hin Hrun r Hr.
    assert (Hall : Forall built rs).
    { destruct Hin as [<-|[<-|[<-|[<-|[<-|[<-|[<-|[]]]]]]]].
      - exact (check_system_requirements_info _ _ _ _ Hrun).
      - exact (check_core_tools_info _ _ _ _ Hrun).
      - exact (check_programming_languages_info _ _ _ _ Hrun).
      - exact (check_package_managers_info _ _ _ _ Hrun).
      - exact (check_docker_configuration_info _ _ _ _ Hrun).
      - exact (check_network_ports_info _ _ _ _ Hrun).
      - exact (check_ide_tools_info _ _ _ _ Hrun). }
    rewrite Forall_forall in Hall. apply Hall. now apply list_elem_of_In.
  - intros r Hr.
    destruct (main_results_cases h st) as [Hnil|(st0 & checks & st1 & Hrun & Heq)].
    + rewrite Hnil in Hr. destruct Hr.
    + rewrite Heq in Hr. apply run_all_checks_inv in Hrun as (_ & _ & Hall).
      rewrite Forall_forall in Hall. apply Hall. now apply list_elem_of_In.
Qed.

(** ** Instances on the sample machines *)

Lemma busy_completes : completes Samples.busy Samples.initial busy_checks.
Proof. eexists _, _, _, _, _. vm_compute. repeat split. Qed.

Lemma busy_memory_query_ok : memory_query_ok Samples.busy.
Proof. eexists. vm_compute. reflexivity. Qed.

(** ** The overall outcome *)

Lemma no_required_fail rs :
  (0 <? failed_checks rs)%nat = false -> ~ exists r, In r rs /\ required_fail r.
Proof. intros Hf Hex. apply failed_checks_pos in Hex. congruence. Qed.

(** C1. A run that completes exits with code 1 exactly when some required
    result returned by the checks has status FAIL and with code 0
    otherwise, whatever the WARNING results; results that differ from them
    only in the status of optional results give the same outcome.  A run
    that does not complete exits with code 1. *)
Theorem C1_overall_outcome (h : Host) (st : State) :
  (forall checks,
     completes h st checks ->
     let code := fst (main h st) in
     let rs := returned checks in
     (code = 1%Z <-> exists r, In r rs /\ required_fail r) /\
     (code = 0%Z <-> ~ exists r, In r rs /\ required_fail r) /\
     (forall rs' h' checks' st1 success st2,
        Forall2 same_required_part rs rs' ->
        results st1 = rs' ->
        print_results h' checks' st1 = (Ok success, st2) ->
        exit_code success = code)) /\
  ((forall checks, ~ completes h st checks) -> fst (main h st) = 1%Z).
Proof.
  split.
  - intros checks Hc. cbv zeta.
    destruct (main_completes h st checks Hc) as (-> & _).
    pose proof (failed_checks_pos (returned checks)) as Hpos.
    destruct (0 <? failed_checks (returned checks))%nat eqn:Hf; cbn [negb exit_code].
    + split; [split; [intros _; now apply Hpos | reflexivity]|].
      split; [split; [discriminate | intros Hno; exfalso; apply Hno; now apply Hpos]|].
      intros rs' h' checks' st1 success st2 Hsame Hrs Hprint.
      apply print_results_value in Hprint as ->. rewrite Hrs.
      unfold failed_checks in *.
      rewrite <- (count_same_required_part FAIL _ _ Hsame). now rewrite Hf.
    + pose proof (no_required_fail _ Hf) as Hno.
      split; [split; [discriminate | intros Hex; contradiction]|].
      split; [split; [intros _; exact Hno | reflexivity]|].
      intros rs' h' checks' st1 success st2 Hsame Hrs Hprint.
      apply print_results_value in Hprint as ->. rewrite Hrs.
      unfold failed_checks in *.
      rewrite <- (count_same_required_part FAIL _ _ Hsame). now rewrite Hf.
  - intros Hno.
    destruct (main_cases h st)
      as [(e & st0 & Hann & ->)
         |(st0 & Hann & [(e & st1 & Hrun & ->)
           |(checks & st1 & Hrun & [(e & st2 & Hprint & ->)
             |(success & st2 & Hprint & [(e & st3 & Hrep & ->)|(st3 & Hrep & _)])])])];
      try reflexivity.
    exfalso. apply (Hno checks). now exists st0, st1, success, st2, st3.
Qed.

(** The run on [Samples.busy] (40 GB of free disk space, port 8080 in use)
    fails. *)
Lemma C1_overall_outcome_witness :
  let code := fst (main Samples.busy Samples.initial) in
  let rs := returned busy_checks in
  (code = 1%Z <-> exists r, In r rs /\ required_fail r) /\
  (code = 0%Z <-> ~ exists r, In r rs /\ required_fail r) /\
  (forall rs' h' checks' st1 success st2,
     Forall2 same_required_part rs rs' ->
     results st1 = rs' ->
     print_results h' checks' st1 = (Ok success, st2) ->
     exit_code success = code).
Proof.
  exact (proj1 (C1_overall_outcome Samples.busy Samples.initial)
           busy_checks busy_completes).
Defined.

(** On a machine where the report cannot be written the run exits with
    code 1 although no required result returned by the checks has status
    FAIL. *)
Lemma C1_counterexample :
  fst (main read_only Samples.initial) = 1%Z /\
  exists st0 checks st1,
    announce read_only (fresh Samples.initial) = (Ok tt, st0) /\
    run_all_checks read_only st0 = (Ok checks, st1) /\
    ~ exists r, In r (returned checks) /\ required_fail r.
Proof.
  split; [vm_compute; reflexivity|].
  eexists _, _, _. split; [vm_compute; reflexivity|].
  split; [vm_compute; reflexivity|].
  apply no_required_fail. vm_compute. reflexivity.
Qed.

(** Memory and disk on [Samples.busy]. *)
Lemma C9_resource_thresholds_witness :
  exists os arch mem disk,
    check_system_requirements Samples.busy Samples.initial
    = (Ok [os; arch; mem; disk], Samples.initial) /\
    name mem = "System Memory" /\
    name disk = "Disk Space" /\
    (forall total memory_gb,
        psutil_total Samples.busy = Ok total ->
        PyFloat.int_truediv total (2 ^ 30) = Some (PyFloat.Finite memory_gb) ->
        three_tier 16 8 memory_gb (status mem)) /\
    (forall free free_gb,
        disk_free Samples.busy = Ok free ->
        PyFloat.int_truediv free (2 ^ 30) = Some (PyFloat.Finite free_gb) ->
        three_tier 100 50 free_gb (status disk)) /\
    (disk_free Samples.busy = Ok (40 * 2 ^ 30)%N ->
     status disk = FAIL /\
     PyStr.contains "40.0 GB" (message disk) = true /\
     PyStr.contains "< 50 GB" (message disk) = true).
Proof.
  apply (C9_resource_thresholds Samples.busy Samples.initial).
  exact busy_memory_query_ok.
Defined.

(** ** Strings *)

Lemma append_nil (b : string) : "" +:+ b = b.
Proof. reflexivity. Qed.

Lemma append_cons x (a b : string) : String x a +:+ b = String x (a +:+ b).
Proof. reflexivity. Qed.

Lemma append_empty_r (a : string) : a +:+ "" = a.
Proof.
  induction a as [|x a IH]; [reflexivity|]. rewrite append_cons. now f_equal.
Qed.

Lemma string_app_assoc (a b c : string) : (a +:+ b) +:+ c = a +:+ (b +:+ c).
Proof.
  induction a as [|x a IH]; [reflexivity|].
  rewrite !append_cons. now f_equal.
Qed.

Lemma string_length_app (a b : string) :
  String.length (a +:+ b) = (String.length a + String.length b)%nat.
Proof.
  induction a as [|x a IH]; [reflexivity|].
  rewrite append_cons. cbn [String.length Nat.add]. now f_equal.
Qed.

Lemma substring_prefix (w s : string) :
  String.substring 0 (String.length w) (w +:+ s) = w.
Proof.
  induction w as [|x w IH].
  - rewrite append_nil. now destruct s.
  - rewrite append_cons. cbn [String.length String.substring]. now f_equal.
Qed.

Lemma consumed_app (w s : string) : Re.consumed (w +:+ s) s = w.
Proof.
  unfold Re.consumed. rewrite string_length_app.
  replace (String.length w + String.length s - String.length s)%nat
    with (String.length w) by lia.
  apply substring_prefix.
Qed.

Lemma head_app (w s : string) : PyStr.head (w +:+ s) s = w.
Proof. exact (consumed_app w s). Qed.



(** ** Characters *)

Ltac split_if :=
  match goal with
  | H : context [if ?b then _ else _] |- _ =>
      lazymatch b with
      | context [if _ then _ else _] => fail
      | _ => destruct b eqn:?
      end
  end.

(** The sequence decoded at the head of a text is a non-empty prefix of it,
    and encodes a code point of Unicode by itself. *)
Lemma decode_split s cp rest :
  Utf8.decode s = Some (cp, rest) ->
  exists c,
    s = c +:+ rest /\ c <> "" /\ Utf8.decode c = Some (cp, "") /\
    (cp < 1114112)%N.
Proof.
  unfold Utf8.decode. destruct s as [|b0 s1]; [discriminate|].
  destruct (Utf8.byte b0 <? 128)%N eqn:H1.
  { intros [= <- <-]. exists (String b0 "").
    rewrite H1. apply N.ltb_lt in H1.
    repeat split; [discriminate | lia]. }
  destruct (Utf8.byte b0 <? 194)%N eqn:H2; [discriminate|].
  destruct (Utf8.byte b0 <? 224)%N eqn:H3.
  { destruct s1 as [|b1 s2]; [discriminate|].
    destruct (Utf8.is_continuation b1) eqn:C1; [|discriminate].
    intros [= <- <-]. exists (String b0 (String b1 "")).
    rewrite H1, H2, H3, C1.
    unfold Utf8.is_continuation, Utf8.low6 in *.
    apply andb_true_iff in C1 as (C1a & C1b).
    apply N.ltb_lt in H3, C1b. apply N.leb_le in C1a.
    repeat split; [discriminate | lia]. }
  destruct (Utf8.byte b0 <? 240)%N eqn:H4.
  { destruct s1 as [|b1 [|b2 s3]]; try discriminate.
    match goal with
    | |- context [if ?c then _ else _] => destruct c eqn:C; [|discriminate]
    end.
    intros [= <- <-]. exists (String b0 (String b1 (String b2 ""))).
    rewrite H1, H2, H3, H4, C.
    repeat apply andb_true_iff in C as (C & ?).
    unfold Utf8.is_continuation, Utf8.low6 in *.
    repeat match goal with
           | H : (_ && _) = true |- _ => apply andb_true_iff in H as (? & ?)
           | H : (_ <? _)%N = true |- _ => apply N.ltb_lt in H
           | H : (_ <=? _)%N = true |- _ => apply N.leb_le in H
           end.
    repeat split; [discriminate | lia]. }
  destruct (Utf8.byte b0 <? 245)%N eqn:H5; [|discriminate].
  destruct s1 as [|b1 [|b2 [|b3 s4]]]; try discriminate.
  match goal with
  | |- context [if ?c then _ else _] => destruct c eqn:C; [|discriminate]
  end.
  intros [= <- <-]. exists (String b0 (String b1 (String b2 (String b3 "")))).
  rewrite H1, H2, H3, H4, H5, C.
  repeat apply andb_true_iff in C as (C & ?).
  repeat match goal with
         | H : (_ <=? _)%N = true |- _ => apply N.leb_le in H
         end.
  repeat split; [discriminate | lia].
Qed.

(** Decoding looks at the head of the text only. *)
Lemma decode_app s cp rest t :
  Utf8.decode s = Some (cp, rest) ->
  Utf8.decode (s +:+ t) = Some (cp, rest +:+ t).
Proof.
  unfold Utf8.decode. destruct s as [|b0 s1]; [discriminate|].
  rewrite append_cons.
  destruct (Utf8.byte b0 <? 128)%N; [now intros [= <- <-]|].
  destruct (Utf8.byte b0 <? 194)%N; [discriminate|].
  destruct (Utf8.byte b0 <? 224)%N.
  { destruct s1 as [|b1 s2]; [discriminate|]. rewrite append_cons.
    destruct (Utf8.is_continuation b1); [|discriminate]. now intros [= <- <-]. }
  destruct (Utf8.byte b0 <? 240)%N.
  { destruct s1 as [|b1 [|b2 s3]]; try discriminate. rewrite !append_cons.
    match goal with
    | |- context [if ?c then _ else _] => destruct c; [|discriminate]
    end.
    now intros [= <- <-]. }
  destruct (Utf8.byte b0 <? 245)%N; [|discriminate].
  destruct s1 as [|b1 [|b2 [|b3 s4]]]; try discriminate. rewrite !append_cons.
  match goal with
  | |- context [if ?c then _ else _] => destruct c; [|discriminate]
  end.
  now intros [= <- <-].
Qed.

(** The first character of a text is a non-empty prefix of it. *)
Lemma uncons_split s cp rest :
  PyStr.uncons s = Some (cp, rest) ->
  exists c, s = c +:+ rest /\ c <> "" /\ PyStr.uncons c = Some (cp, "").
Proof.
  unfold PyStr.uncons. destruct (Utf8.decode s) as [[cp' rest']|] eqn:Hd.
  - intros [= <- <-]. apply decode_split in Hd as (c & -> & Hne & Hc & _).
    exists c. now rewrite Hc.
  - destruct s as [|b s1]; [discriminate|]. intros [= <- <-].
    exists (String b ""). repeat split; [discriminate|].
    destruct (Utf8.decode (String b "")) as [[cp' rest']|] eqn:Hd'; [|reflexivity].
    apply (decode_app _ _ _ s1) in Hd'. rewrite append_cons, append_nil in Hd'.
    congruence.
Qed.

Lemma uncons_shorter s cp rest :
  PyStr.uncons s = Some (cp, rest) -> (String.length rest < String.length s)%nat.
Proof.
  intros H. apply uncons_split in H as (c & -> & Hne & _).
  rewrite string_length_app. destruct c; [contradiction | cbn; lia].
Qed.

Lemma uncons_head s cp rest :
  PyStr.uncons s = Some (cp, rest) -> s = PyStr.head s rest +:+ rest.
Proof.
  intros H. apply uncons_split in H as (c & -> & _). now rewrite head_app.
Qed.

(** A character of Unicode at the head of a text stays there when the text
    is extended. *)
Lemma uncons_app s cp rest t :
  PyStr.uncons s = Some (cp, rest) ->
  (cp < 1114112)%N ->
  PyStr.uncons (s +:+ t) = Some (cp, rest +:+ t).
Proof.
  unfold PyStr.uncons. destruct (Utf8.decode s) as [[cp' rest']|] eqn:Hd.
  - intros [= <- <-] _. now rewrite (decode_app _ _ _ t Hd).
  - destruct s; [discriminate|]. intros [= <- <-]. lia.
Qed.



(** ** Tables of characters *)


Lemma in_ranges_bound table cp bound :
  forallb (fun r => (snd r <? bound)%N) table = true ->
  PyStr.in_ranges table cp = true ->
  (cp < bound)%N.
Proof.
  unfold PyStr.in_ranges. induction table as [|[lo hi] table IH]; [discriminate|].
  cbn [forallb existsb fst snd]. intros H Hcp. apply andb_true_iff in H as (Hhi & Hall).
  apply orb_true_iff in Hcp as [Hcp|Hcp]; [|now apply IH].
  apply andb_true_iff in Hcp as (_ & Hcp). apply N.leb_le in Hcp. apply N.ltb_lt in Hhi.
  lia.
Qed.

(** A decimal digit is a character of Unicode. *)
Lemma is_decimal_valid cp : PyStr.is_decimal cp = true -> (cp < 1114112)%N.
Proof. apply in_ranges_bound. vm_compute. reflexivity. Qed.



(** ** What a match of the regular expressions looks like *)

(** A successful match splits the text into what the pattern takes, which
    is in its language, and the rest, on which the continuation succeeds. *)
Lemma rmatch_sound r : forall s cs k out,
  Re.rmatch r s cs k = Some out ->
  exists w s' c,
    s = w +:+ s' /\ matches r w c /\ k s' (c ++ cs) = Some out.
Proof.
  induction r as [c|p|r1 IH1 r2 IH2|r1 IH1|r1 IH1|n r1 IH1]; intros s cs k out; cbn [Re.rmatch].
  - destruct s as [|c' s']; [discriminate|].
    destruct (Ascii.eqb_spec c c') as [<-|]; [|discriminate].
    intros H. exists (String c ""), s', []. repeat split; [constructor | exact H].
  - destruct (PyStr.uncons s) as [[cp s']|] eqn:Hu; [|discriminate].
    destruct (p cp) eqn:Hp; [|discriminate].
    intros H. apply uncons_split in Hu as (c & -> & _ & Hc).
    exists c, s', []. repeat split; [now apply (matches_cls p c cp) | exact H].
  - intros H. apply IH1 in H as (w1 & s1 & c1 & -> & Hm1 & H).
    apply IH2 in H as (w2 & s2 & c2 & -> & Hm2 & H).
    exists (w1 +:+ w2), s2, (c2 ++ c1). split; [now rewrite string_app_assoc|].
    split; [now constructor|]. now rewrite <- app_assoc.
  - destruct (Re.rmatch r1 s cs k) as [out'|] eqn:Hr.
    + intros [= ->]. apply IH1 in Hr as (w & s' & c & -> & Hm & H).
      exists w, s', c. repeat split; [now apply matches_opt_some | exact H].
    + intros H. exists "", s, []. repeat split; [apply matches_opt_none | exact H].
  - generalize (String.length s) at 1. intros fuel. revert s cs.
    induction fuel as [|fuel IHf]; intros s cs.
    + intros H. exists "", s, []. repeat split; [apply matches_star_nil | exact H].
    + match goal with
      | |- context [Re.rmatch r1 s cs ?k'] => destruct (Re.rmatch r1 s cs k') as [out'|] eqn:Hr
      end.
      * intros [= ->]. apply IH1 in Hr as (w1 & s1 & c1 & -> & Hm1 & H).
        destruct (String.length s1 <? String.length (w1 +:+ s1))%nat; [|discriminate].
        apply IHf in H as (w2 & s2 & c2 & -> & Hm2 & H).
        exists (w1 +:+ w2), s2, (c2 ++ c1). split; [now rewrite string_app_assoc|].
        split; [now apply matches_star_cons|]. now rewrite <- app_assoc.
      * intros H. exists "", s, []. repeat split; [apply matches_star_nil | exact H].
  - intros H. apply IH1 in H as (w & s' & c & -> & Hm & H).
    rewrite consumed_app in H.
    exists w, s', ((n, w) :: c). repeat split; [now constructor | exact H].
Qed.

(** A match found by [search] is a part of the text. *)
Lemma search_sound_within r s m :
  Re.search r s = Some m ->
  exists before w after, s = before +:+ w +:+ after /\ matches r w m.
Proof.
  induction s as [|x s IH]; cbn [Re.search]; unfold Re.match_here.
  - destruct (Re.rmatch r "" [] _) as [cs|] eqn:H; [|discriminate].
    intros [= <-]. apply rmatch_sound in H as (w & s' & c & Hs & Hm & [= <-]).
    rewrite app_nil_r. now exists "", w, s'.
  - destruct (Re.rmatch r (String x s) [] _) as [cs|] eqn:H.
    + intros [= <-]. apply rmatch_sound in H as (w & s' & c & Hs & Hm & [= <-]).
      rewrite app_nil_r. now exists "", w, s'.
    + intros Hs. apply IH in Hs as (before & w & after & -> & Hm).
      now exists (String x before), w, after.
Qed.


Ltac inv_matches :=
  repeat match goal with
         | H : matches (Re.Chr _) _ _ |- _ => inversion H; subst; clear H
         | H : matches (Re.Cls _) _ _ |- _ => inversion H; subst; clear H
         | H : matches (Re.Seq _ _) _ _ |- _ => inversion H; subst; clear H
         | H : matches (Re.Opt _) _ _ |- _ => inversion H; subst; clear H
         | H : matches (Re.Grp _ _) _ _ |- _ => inversion H; subst; clear H
         | H : matches (Re.Plus _) _ _ |- _ => unfold Re.Plus in H
         | H : matches (Re.lit _ _) _ _ |- _ => cbn [Re.lit] in H
         end.

Lemma matches_star_cls p w cs :
  matches (Re.Star (Re.Cls p)) w cs -> cs = [] /\ run p w.
Proof.
  remember (Re.Star (Re.Cls p)) as r eqn:Hr. intros H.
  induction H as [| | | | | |r0 w1 w2 c1 c2 H1 _ H2 IH|]; try discriminate.
  - split; [reflexivity | constructor].
  - injection Hr as ->. destruct (IH eq_refl) as (-> & Hall).
    inv_matches. split; [reflexivity|]. now apply (run_cons p w1 cp).
Qed.

Lemma uncons_not_empty c cp rest : PyStr.uncons c = Some (cp, rest) -> c <> "".
Proof. intros H ->. discriminate H. Qed.

Lemma append_not_empty (a b : string) : a <> "" -> a +:+ b <> "".
Proof. destruct a; [contradiction | discriminate]. Qed.

Lemma matches_plus_cls p w cs :
  matches (Re.Plus (Re.Cls p)) w cs -> cs = [] /\ w <> "" /\ run p w.
Proof.
  intros H. unfold Re.Plus in H. inversion H; subst; clear H.
  match goal with
  | H2 : matches (Re.Star _) _ _ |- _ => apply matches_star_cls in H2 as (-> & Hall)
  end.
  inv_matches. split; [reflexivity|].
  split; [eapply append_not_empty, uncons_not_empty; eassumption|].
  now apply (run_cons p w1 cp).
Qed.



Lemma matches_digits w cs :
  matches (Re.Seq (Re.Cls PyStr.is_decimal) (Re.Star (Re.Cls PyStr.is_decimal))) w cs ->
  cs = [] /\ digits w.
Proof.
  intros H. apply (matches_plus_cls PyStr.is_decimal) in H as (-> & Hne & Hd).
  now repeat split.
Qed.

Ltac inv_pattern :=
  repeat match goal with
         | H : matches (Re.Seq (Re.Cls PyStr.is_decimal) _) _ _ |- _ =>
             apply matches_digits in H as (-> & ?)
         | H : matches (Re.Chr _) _ _ |- _ => inversion H; subst; clear H
         | H : matches (Re.Seq _ _) _ _ |- _ => inversion H; subst; clear H
         | H : matches (Re.Opt _) _ _ |- _ => inversion H; subst; clear H
         | H : matches (Re.Grp _ _) _ _ |- _ => inversion H; subst; clear H
         end.

(** ** Versions the patterns extract can be parsed *)











(** What the default pattern takes: two or three runs of digits, with dots
    between them, which are its group 1. *)
Lemma default_version_shape w m :
  matches Patterns.default_version w m ->
  m = [(1%nat, w)] /\
  exists d1 d2,
    digits d1 /\ digits d2 /\
    (w = d1 +:+ String "." d2 \/
     exists d3, digits d3 /\ w = d1 +:+ String "." (d2 +:+ String "." d3)).
Proof.
  intros H. unfold Patterns.default_version, Re.Plus, Re.digit in H. inv_pattern.
  all: rewrite ?append_empty_r, ?append_cons, ?append_nil; cbn [app].
  all: split; [reflexivity|].
  all: match goal with
       | |- context [?d1 +:+ String "." _] => exists d1
       end.
  - match goal with
    | |- context [_ +:+ String "." (?d2 +:+ String "." ?d3)] => exists d2
    end.
    repeat (split; [assumption|]). right. eexists. split; [eassumption | reflexivity].
  - match goal with
    | |- context [_ +:+ String "." ?d2] => exists d2
    end.
    repeat (split; [assumption|]). now left.
Qed.

(** What the Java pattern takes: the text [version], a space, a double
    quote and a run of digits, which is its group 1. *)
Lemma java_version_shape w m :
  matches Patterns.java_version w m ->
  exists d, digits d /\ m = [(1%nat, d)] /\ w = "version " +:+ String "034" d.
Proof.
  intros H. unfold Patterns.java_version, Re.Plus, Re.digit in H. cbn [Re.lit] in H.
  inv_pattern.
  rewrite ?append_empty_r, ?append_cons, ?append_nil; cbn [app].
  eexists. split; [eassumption|]. split; reflexivity.
Qed.




(** ** Stripping keeps ASCII text ASCII *)





(** ** The run goes through *)







(** A [try] whose handler catches every exception and returns. *)
Lemma try_except_all_total {A} (m : M A) (handler : exn -> A) st :
  exists a st', try_except m is_Exception (fun e => ret (handler e)) st = (Ok a, st').
Proof.
  unfold try_except, ret. destruct (m st) as [[a|e] st']; cbn; eauto.
Qed.

Lemma docker_memory_block_total stdout rs st :
  exists rs' st', docker_memory_block stdout rs st = (Ok rs', st').
Proof.
  unfold docker_memory_block.
  apply (try_except_all_total _
           (fun _ => rs ++ [OptionalResult "Docker Memory" INFO
                              "Could not parse memory allocation"])).
Qed.

Lemma run_command_total h command st :
  exists exit_code stdout stderr,
    run_command h command st = (Ok (exit_code, stdout, stderr), logged command st).
Proof.
  unfold run_command, logged. destruct (subprocess_run h command); eauto.
Qed.




(** ** Errors inside a check *)








(** * Further properties of the validator *)

(** ** What a version check does to the machine *)

Lemma check_version_effect h command min_version version_pattern st res st' tool :
  PyStr.split_first command = Some tool ->
  check_version h command min_version version_pattern st = (res, st') ->
  st' = (if which h tool then logged command st else st) /\
  forall r, res = Ok r -> name r = tool.
Proof.
  intros Htool. unfold check_version, run_command, logged. unfold_monad.
  rewrite Htool. destruct (which h tool); cbn [negb].
  - repeat (split_match; unfold_monad; cbn [negb]);
      intros [= <- <-]; (split; [reflexivity|]); intros r' [= <-]; reflexivity.
  - intros [= <- <-]. split; [reflexivity|]. now intros r' [= <-].
Qed.

(** X1. A version check leaves the results and the files alone, and hands
    its command to [run_command] exactly once when the tool is on the PATH
    and never otherwise, whether it returns a result or raises. *)
Theorem X1_check_version_runs_command_once (h : Host) (command min_version : string)
    (version_pattern : option Re.regex) (st : State)
    (res : result ValidationResult) (st' : State) (tool : string) :
  PyStr.split_first command = Some tool ->
  check_version h command min_version version_pattern st = (res, st') ->
  results st' = results st /\
  files st' = files st /\
  (which h tool = true -> executed st' = executed st ++ [command]) /\
  (which h tool = false -> executed st' = executed st).
Proof.
  intros Htool Hrun.
  destruct (check_version_effect _ _ _ _ _ _ _ _ Htool Hrun) as (-> & _).
  destruct (which h tool); repeat split; try reflexivity; discriminate.
Qed.

(** The git check on the reference machine. *)
Lemma X1_check_version_runs_command_once_witness :
  let st' := snd (check_version Samples.reference "git --version" "2.40" None
                    Samples.initial) in
  results st' = results Samples.initial /\
  files st' = files Samples.initial /\
  (which Samples.reference "git" = true ->
   executed st' = executed Samples.initial ++ ["git --version"]) /\
  (which Samples.reference "git" = false -> executed st' = executed Samples.initial).
Proof.
  apply (X1_check_version_runs_command_once Samples.reference "git --version" "2.40"
           None Samples.initial
           (fst (check_version Samples.reference "git --version" "2.40" None
                   Samples.initial))
           _ "git"); [reflexivity|].
  now destruct (check_version _ _ _ _ _).
Defined.

(** ** The commands of a run *)

Lemma runs_within_weaken {A} cs cs' (m : M A) :
  sublist cs cs' -> runs_within cs m -> runs_within cs' m.
Proof.
  intros Hsub Hm st res st' H. destruct (Hm _ _ _ H) as (Hf & cmds & He & Hs).
  split; [exact Hf|]. exists cmds. split; [exact He|]. now transitivity cs.
Qed.

Lemma runs_within_pure {A} (m : M A) cs :
  (forall st, exists res, m st = (res, st)) -> runs_within cs m.
Proof.
  intros Hm st res st' H. destruct (Hm st) as (res0 & H0).
  rewrite H0 in H. injection H as _ <-. split; [reflexivity|].
  exists []. split; [now rewrite app_nil_r | apply sublist_nil_l].
Qed.

Lemma runs_within_ret {A} (a : A) cs : runs_within cs (ret a).
Proof. apply runs_within_pure. intros st. now eexists. Qed.

Lemma runs_within_raise {A} e cs : runs_within cs (@raise A e).
Proof. apply runs_within_pure. intros st. now eexists. Qed.

Lemma runs_within_lift {A} (r : result A) cs : runs_within cs (lift r).
Proof. apply runs_within_pure. intros st. now eexists. Qed.

Lemma runs_within_bind {A B} cs1 cs2 (m : M A) (k : A -> M B) :
  runs_within cs1 m -> (forall a, runs_within cs2 (k a)) ->
  runs_within (cs1 ++ cs2) (bind m k).
Proof.
  intros Hm Hk st res st'. unfold bind.
  destruct (m st) as [[a|e] st1] eqn:Hst;
    destruct (Hm _ _ _ Hst) as (Hf1 & c1 & He1 & Hs1).
  - intros H. destruct (Hk a _ _ _ H) as (Hf2 & c2 & He2 & Hs2).
    split; [congruence|]. exists (c1 ++ c2).
    split; [rewrite He2, He1; now rewrite app_assoc | now apply sublist_app].
  - intros [= <- <-]. split; [exact Hf1|]. exists c1.
    split; [exact He1 | now apply sublist_inserts_r].
Qed.

Lemma runs_within_try_except {A} cs1 cs2 (m : M A) class handler :
  runs_within cs1 m -> (forall e, runs_within cs2 (handler e)) ->
  runs_within (cs1 ++ cs2) (try_except m class handler).
Proof.
  intros Hm Hh st res st'. unfold try_except.
  destruct (m st) as [[a|e] st1] eqn:Hst;
    destruct (Hm _ _ _ Hst) as (Hf1 & c1 & He1 & Hs1).
  - intros [= <- <-]. split; [exact Hf1|]. exists c1.
    split; [exact He1 | now apply sublist_inserts_r].
  - destruct (class e).
    + intros H. destruct (Hh e _ _ _ H) as (Hf2 & c2 & He2 & Hs2).
      split; [congruence|]. exists (c1 ++ c2).
      split; [rewrite He2, He1; now rewrite app_assoc | now apply sublist_app].
    + intros [= <- <-]. split; [exact Hf1|]. exists c1.
      split; [exact He1 | now apply sublist_inserts_r].
Qed.

Lemma runs_within_check_version h command min_version pattern :
  runs_within [command] (check_version h command min_version pattern).
Proof.
  intros st res st' H.
  destruct (PyStr.split_first command) as [tool|] eqn:Htool.
  - destruct (check_version_effect _ _ _ _ _ _ _ _ Htool H) as (-> & _).
    destruct (which h tool); cbn; (split; [reflexivity|]).
    + exists [command]. split; reflexivity.
    + exists []. split; [now rewrite app_nil_r | apply sublist_nil_l].
  - revert H. unfold check_version, tool_of, bind, raise. rewrite Htool.
    intros [= <- <-]. split; [reflexivity|].
    exists []. split; [now rewrite app_nil_r | apply sublist_nil_l].
Qed.

Ltac pure_within :=
  repeat first
    [ apply runs_within_ret | apply runs_within_raise | apply runs_within_lift
    | apply (runs_within_bind [] []) | apply (runs_within_try_except [] [])
    | match goal with
      | |- forall _, _ => intro
      | |- runs_within _ (match ?x with _ => _ end) => destruct x
      end ].

Ltac version_step c rest :=
  apply (runs_within_bind [c] rest); [apply runs_within_check_version | intro].

Lemma runs_within_run_command h command :
  runs_within [command] (run_command h command).
Proof.
  intros st res st'. unfold run_command.
  destruct (subprocess_run h command); intros [= <- <-]; cbn;
    (split; [reflexivity|]); exists [command]; split; reflexivity.
Qed.

Lemma runs_within_check_system_requirements h :
  runs_within [] (check_system_requirements h).
Proof.
  unfold check_system_requirements, memory_block, disk_block, gigabytes. pure_within.
Qed.

Lemma runs_within_check_core_tools h :
  runs_within [ "git --version"; "docker --version"; "docker compose version";
                "docker-compose --version" ] (check_core_tools h).
Proof.
  unfold check_core_tools.
  version_step "git --version"
    ["docker --version"; "docker compose version"; "docker-compose --version"].
  version_step "docker --version" ["docker compose version"; "docker-compose --version"].
  version_step "docker compose version" ["docker-compose --version"].
  apply (runs_within_bind ["docker-compose --version"] []).
  - destruct (decide _); [apply runs_within_check_version | apply runs_within_ret].
  - intro. apply runs_within_ret.
Qed.

Lemma runs_within_check_programming_languages h :
  runs_within [ "python3 --version"; "python --version"; "java -version";
                "node --version" ] (check_programming_languages h).
Proof.
  unfold check_programming_languages.
  version_step "python3 --version" ["python --version"; "java -version"; "node --version"].
  version_step "python --version" ["java -version"; "node --version"].
  version_step "java -version" ["node --version"].
  version_step "node --version" (@nil string).
  apply runs_within_ret.
Qed.

Lemma runs_within_check_package_managers h :
  runs_within [ "poetry --version"; "mvn --version"; "npm --version" ]
    (check_package_managers h).
Proof.
  unfold check_package_managers.
  version_step "poetry --version" ["mvn --version"; "npm --version"].
  version_step "mvn --version" ["npm --version"].
  version_step "npm --version" (@nil string).
  apply runs_within_ret.
Qed.

Lemma runs_within_docker_memory_block stdout rs :
  runs_within [] (docker_memory_block stdout rs).
Proof. unfold docker_memory_block. pure_within. Qed.

Lemma runs_within_check_docker_configuration h :
  runs_within ["docker info"] (check_docker_configuration h).
Proof.
  unfold check_docker_configuration.
  apply (runs_within_bind ["docker info"] []); [apply runs_within_run_command|].
  intros [[exit_code stdout] stderr].
  destruct (exit_code =? 0)%Z; [|apply runs_within_ret].
  apply (runs_within_bind [] []); [apply runs_within_docker_memory_block|].
  intro. apply runs_within_ret.
Qed.

Lemma runs_within_check_ports h ports : forall acc,
  runs_within [] (check_ports h ports acc).
Proof.
  induction ports as [|port ports IH]; intros acc; cbn [check_ports].
  - apply runs_within_ret.
  - apply (runs_within_bind [] []); [unfold check_port; pure_within | intro; apply IH].
Qed.

Lemma runs_within_check_ide_tools h :
  runs_within ["code --version"] (check_ide_tools h).
Proof.
  unfold check_ide_tools. version_step "code --version" (@nil string).
  apply runs_within_ret.
Qed.

Lemma runs_within_set_results rs : runs_within [] (set_results rs).
Proof.
  intros st res st'. unfold set_results. intros [= <- <-]. cbn.
  split; [reflexivity|]. exists []. split; [now rewrite app_nil_r | constructor].
Qed.

Lemma runs_within_run_all_checks h : runs_within registry_commands (run_all_checks h).
Proof.
  unfold run_all_checks.
  apply (runs_within_bind [] registry_commands);
    [apply runs_within_check_system_requirements | intro].
  apply (runs_within_bind
           ["git --version"; "docker --version"; "docker compose version";
            "docker-compose --version"]
           ["python3 --version"; "python --version"; "java -version";
            "node --version"; "poetry --version"; "mvn --version"; "npm --version";
            "docker info"; "code --version"]);
    [apply runs_within_check_core_tools | intro].
  apply (runs_within_bind
           ["python3 --version"; "python --version"; "java -version"; "node --version"]
           ["poetry --version"; "mvn --version"; "npm --version";
            "docker info"; "code --version"]);
    [apply runs_within_check_programming_languages | intro].
  apply (runs_within_bind
           ["poetry --version"; "mvn --version"; "npm --version"]
           ["docker info"; "code --version"]);
    [apply runs_within_check_package_managers | intro].
  apply (runs_within_bind ["docker info"] ["code --version"]);
    [apply runs_within_check_docker_configuration | intro].
  apply (runs_within_bind [] ["code --version"]);
    [apply runs_within_check_ports | intro].
  apply (runs_within_bind ["code --version"] []);
    [apply runs_within_check_ide_tools | intro].
  apply (runs_within_bind [] []); [apply runs_within_set_results | intro].
  apply runs_within_ret.
Qed.

(** X2. Whatever the machine answers, and whether the run returns or
    raises, [run_all_checks] writes no file and runs only commands of the
    registry, in the order of the registry and each at most once. *)
Theorem X2_run_stays_within_registry (h : Host) (st : State)
    (res : result (list (string * list ValidationResult))) (st' : State) :
  run_all_checks h st = (res, st') ->
  files st' = files st /\
  exists cmds,
    executed st' = executed st ++ cmds /\
    sublist cmds registry_commands /\
    NoDup cmds /\
    (forall c, In c cmds -> In c registry_commands).
Proof.
  intros H. destruct (runs_within_run_all_checks h _ _ _ H) as (Hf & cmds & He & Hs).
  split; [exact Hf|]. exists cmds. split; [exact He|]. split; [exact Hs|]. split.
  - eapply sublist_NoDup; [|exact Hs]. unfold registry_commands.
    apply NoDup_ListNoDup. repeat constructor; cbn; intuition discriminate.
  - intros c Hc. apply list_elem_of_In. eapply sublist_subseteq; [exact Hs|].
    now apply list_elem_of_In.
Qed.

(** A run on the reference machine. *)
Lemma X2_run_stays_within_registry_witness :
  let st' := snd (run_all_checks Samples.reference Samples.initial) in
  files st' = files Samples.initial /\
  exists cmds,
    executed st' = executed Samples.initial ++ cmds /\
    sublist cmds registry_commands /\
    NoDup cmds /\
    (forall c, In c cmds -> In c registry_commands).
Proof.
  apply (X2_run_stays_within_registry Samples.reference Samples.initial
           (fst (run_all_checks Samples.reference Samples.initial))).
  now destruct (run_all_checks _ _).
Defined.

(** ** The process: exit code and report *)

(** What [main] leaves behind: the commands it has run, in the order of
    [process_commands], and either the files as they were or the report
    written over them. *)
Lemma main_effect h st :
  exists cmds,
    executed (snd (main h st)) = executed st ++ cmds /\
    sublist cmds process_commands /\
    (files (snd (main h st)) = files st \/
     exists timestamp,
       date_iseconds h = Ok timestamp /\ open_w h report_path = Ok tt /\
       files (snd (main h st))
       = <[report_path := report_of h timestamp (results (snd (main h st)))]>
           (files st)).
Proof.
  unfold process_commands.
  destruct (main_cases h st)
    as [(e & st0 & Hann & ->)
       |(st0 & Hann & [(e & st1 & Hrun & ->)
         |(checks & st1 & Hrun & [(e & st2 & Hprint & ->)
           |(success & st2 & Hprint & [(e & st3 & Hrep & ->)|(st3 & Hrep & ->)])])])];
    cbn [snd];
    apply quiet_announce in Hann as (Hr0 & He0 & Hf0);
    cbn [fresh results executed files] in Hr0, He0, Hf0.
  - exists []. rewrite app_nil_r. split; [exact He0|].
    split; [apply sublist_nil_l | now left].
  - destruct (runs_within_run_all_checks h _ _ _ Hrun) as (Hf1 & cmds & He1 & Hs).
    destruct (report_failure h e st1) as [res st4] eqn:Hfail. cbn [snd].
    apply quiet_report_failure in Hfail as (_ & He4 & Hf4).
    exists cmds. split; [congruence|].
    split; [now apply sublist_inserts_r | left; congruence].
  - destruct (runs_within_run_all_checks h _ _ _ Hrun) as (Hf1 & cmds & He1 & Hs).
    apply quiet_print_results in Hprint as (_ & He2 & Hf2).
    destruct (report_failure h e st2) as [res st4] eqn:Hfail. cbn [snd].
    apply quiet_report_failure in Hfail as (_ & He4 & Hf4).
    exists cmds. split; [congruence|].
    split; [now apply sublist_inserts_r | left; congruence].
  - destruct (runs_within_run_all_checks h _ _ _ Hrun) as (Hf1 & cmds & He1 & Hs).
    apply quiet_print_results in Hprint as (_ & He2 & Hf2).
    apply generate_report_raise in Hrep as (Hr3 & He3 & Hf3).
    destruct (report_failure h e st3) as [res st4] eqn:Hfail. cbn [snd].
    apply quiet_report_failure in Hfail as (Hr4 & He4 & Hf4).
    exists (cmds ++ ["date -Iseconds"]).
    split; [rewrite He4, He3, He2, He1, He0; now rewrite app_assoc|].
    split; [now apply sublist_app|].
    destruct Hf3 as [(_ & Hf3)|(ts & Hd & Ho & _ & Hf3)].
    + left. congruence.
    + right. exists ts. split; [exact Hd|]. split; [exact Ho|].
      rewrite Hf4, Hf3, Hr4, Hr3. unfold report_path. congruence.
  - destruct (runs_within_run_all_checks h _ _ _ Hrun) as (Hf1 & cmds & He1 & Hs).
    apply quiet_print_results in Hprint as (_ & He2 & Hf2).
    apply generate_report_inv in Hrep as (ts & Hd & Ho & ->).
    cbn [executed files results].
    exists (cmds ++ ["date -Iseconds"]).
    split; [rewrite He2, He1, He0; now rewrite app_assoc|].
    split; [now apply sublist_app|].
    right. exists ts. split; [exact Hd|]. split; [exact Ho|].
    unfold report_path. congruence.
Qed.

(** X3. When [main] exits with code 0, the report has been written to
    [validation-report.json]: it lists the results the validator holds, and
    none of them is a required FAIL. *)
Theorem X3_exit_zero_means_report_written (h : Host) (st : State) :
  fst (main h st) = 0%Z ->
  let st' := snd (main h st) in
  (exists timestamp,
      date_iseconds h = Ok timestamp /\
      files st' !! report_path = Some (report_of h timestamp (results st'))) /\
  ~ exists r, In r (results st') /\ required_fail r.
Proof.
  intros Hzero. cbv zeta.
  destruct (main_cases h st)
    as [(e & st0 & Hann & Hm)
       |(st0 & Hann & [(e & st1 & Hrun & Hm)
         |(checks & st1 & Hrun & [(e & st2 & Hprint & Hm)
           |(success & st2 & Hprint & [(e & st3 & Hrep & Hm)|(st3 & Hrep & Hm)])])])];
    rewrite Hm in *; cbn [fst snd] in *; try discriminate.
  pose proof (print_results_value _ _ _ _ _ Hprint) as Hvalue.
  apply quiet_print_results in Hprint as (Hr2 & _).
  apply generate_report_inv in Hrep as (ts & Hd & _ & ->). cbn [files results].
  split.
  - exists ts. split; [exact Hd | apply lookup_insert_eq].
  - rewrite Hr2. apply no_required_fail.
    destruct (0 <? failed_checks (results st1))%nat; [|reflexivity].
    subst success. discriminate Hzero.
Qed.

Lemma reference_exits_zero : fst (main Samples.reference Samples.initial) = 0%Z.
Proof. vm_compute. reflexivity. Qed.

(** The run on the reference machine. *)
Lemma X3_exit_zero_means_report_written_witness :
  let st' := snd (main Samples.reference Samples.initial) in
  (exists timestamp,
      date_iseconds Samples.reference = Ok timestamp /\
      files st' !! report_path
      = Some (report_of Samples.reference timestamp (results st'))) /\
  ~ exists r, In r (results st') /\ required_fail r.
Proof.
  exact (X3_exit_zero_means_report_written Samples.reference Samples.initial
           reference_exits_zero).
Defined.

(** X4. When the [date] command cannot be run or the report file cannot be
    opened, [main] exits with code 1 whatever the checks found, and no file
    is written. *)
Theorem X4_report_failure_fails_run (h : Host) (st : State) (e : exn) :
  date_iseconds h = Raise e \/ open_w h report_path = Raise e ->
  fst (main h st) = 1%Z /\ files (snd (main h st)) = files st.
Proof.
  intros Hfail. split.
  - destruct (main_cases h st)
      as [(e0 & st0 & Hann & ->)
         |(st0 & Hann & [(e0 & st1 & Hrun & ->)
           |(checks & st1 & Hrun & [(e0 & st2 & Hprint & ->)
             |(success & st2 & Hprint & [(e0 & st3 & Hrep & ->)|(st3 & Hrep & _)])])])];
      try reflexivity.
    apply generate_report_inv in Hrep as (ts & Hd & Ho & _).
    unfold report_path in Hfail. destruct Hfail; congruence.
  - destruct (main_effect h st) as (cmds & _ & _ & [Hf|(ts & Hd & Ho & _)]);
      [exact Hf|].
    destruct Hfail; congruence.
Qed.

Lemma X4_report_failure_fails_run_witness :
  fst (main read_only Samples.initial) = 1%Z /\
  files (snd (main read_only Samples.initial)) = files Samples.initial.
Proof.
  apply (X4_report_failure_fails_run read_only Samples.initial
           (OSError "[Errno 13] Permission denied: 'validation-report.json'")).
  right. reflexivity.
Defined.

(** X5. [main] always exits with code 0 or 1, changes no file other than
    [validation-report.json], and runs only commands of its list: those of
    the checks and then the [date] command of the report, in this order and
    each at most once. *)
Theorem X5_main_footprint (h : Host) (st : State) :
  (fst (main h st) = 0%Z \/ fst (main h st) = 1%Z) /\
  (forall path, path <> report_path ->
                files (snd (main h st)) !! path = files st !! path) /\
  exists cmds,
    executed (snd (main h st)) = executed st ++ cmds /\
    sublist cmds process_commands /\
    NoDup cmds.
Proof.
  split; [|split].
  - destruct (main_cases h st)
      as [(e0 & st0 & Hann & ->)
         |(st0 & Hann & [(e0 & st1 & Hrun & ->)
           |(checks & st1 & Hrun & [(e0 & st2 & Hprint & ->)
             |(success & st2 & Hprint & [(e0 & st3 & Hrep & ->)|(st3 & Hrep & ->)])])])];
      cbn [fst]; auto.
    destruct success; cbn; auto.
  - intros path Hne.
    destruct (main_effect h st) as (cmds & _ & _ & [->|(ts & _ & _ & ->)]);
      [reflexivity|].
    apply lookup_insert_ne. congruence.
  - destruct (main_effect h st) as (cmds & He & Hs & _).
    exists cmds. split; [exact He|]. split; [exact Hs|].
    eapply sublist_NoDup; [|exact Hs].
    apply NoDup_ListNoDup. unfold process_commands, registry_commands. cbn [app].
    repeat constructor; cbn; intuition discriminate.
Qed.

(** ** The summary counters *)

Lemma count_cons p r rs :
  count p (r :: rs) = ((if p r then 1 else 0) + count p rs)%nat.
Proof.
  unfold count. rewrite filter_cons.
  destruct (decide (p r = true)) as [Hp|Hp].
  - now rewrite Hp.
  - destruct (p r); [contradiction | reflexivity].
Qed.

Lemma counters_add_up rs :
  Forall info_optional rs ->
  (passed_checks rs + failed_checks rs + warning_checks rs = total_checks rs)%nat.
Proof.
  unfold passed_checks, failed_checks, warning_checks, total_checks.
  induction 1 as [|r rs Hr _ IH]; [reflexivity|].
  rewrite !count_cons. unfold has_status at 1 3 5.
  unfold info_optional in Hr.
  destruct (required r); cbn [andb]; [|lia].
  destruct (status r);
    try (specialize (Hr eq_refl); discriminate Hr);
    repeat first [ rewrite bool_decide_eq_true_2 by reflexivity
                 | rewrite bool_decide_eq_false_2 by discriminate ];
    lia.
Qed.

(** X6. For the results the validator holds when [main] ends, the three
    counters of the summary (passed, failed, warnings) add up to the number
    of required checks: no required result is left out of the summary. *)
Theorem X6_summary_counters_add_up (h : Host) (st : State) :
  let rs := results (snd (main h st)) in
  (passed_checks rs + failed_checks rs + warning_checks rs = total_checks rs)%nat.
Proof.
  cbv zeta. apply counters_add_up.
  destruct (main_results_cases h st) as [->|(st0 & checks & st1 & Hrun & ->)].
  - constructor.
  - apply run_all_checks_inv in Hrun as (_ & _ & Hall).
    eapply Forall_impl; [exact Hall|]. now intros r [Hr _].
Qed.

(** ** The report keeps everything *)

Lemma status_name_inj s1 s2 : status_name s1 = status_name s2 -> s1 = s2.
Proof. destruct s1, s2; cbn; congruence. Qed.

Lemma report_entry_inj r1 r2 : report_entry r1 = report_entry r2 -> r1 = r2.
Proof.
  destruct r1 as [n1 s1 m1 d1 q1], r2 as [n2 s2 m2 d2 q2]. unfold report_entry. cbn.
  intros [= Hn Hs Hm Hd Hq]. apply status_name_inj in Hs. subst.
  destruct d1, d2; try discriminate; congruence.
Qed.

Lemma map_report_entry_inj rs1 : forall rs2,
  map report_entry rs1 = map report_entry rs2 -> rs1 = rs2.
Proof.
  induction rs1 as [|r1 rs1 IH]; intros [|r2 rs2]; cbn [map]; try discriminate.
  - reflexivity.
  - intros H.
    pose proof (f_equal (hd JNull) H) as Hr. pose proof (f_equal (@tl json) H) as Hrs.
    cbn [hd tl] in Hr, Hrs.
    apply report_entry_inj in Hr. apply IH in Hrs. congruence.
Qed.

(** X7. The report loses nothing of the results: two validators on the same
    machine that write the same document to a file hold the same results, in
    the same order (names, statuses, messages, details, required flags). *)
Theorem X7_report_determines_results (h : Host) (path : string)
    (st1 st2 st1' st2' : State) :
  generate_report h path st1 = (Ok tt, st1') ->
  generate_report h path st2 = (Ok tt, st2') ->
  files st1' !! path = files st2' !! path ->
  results st1 = results st2.
Proof.
  intros H1 H2.
  apply generate_report_inv in H1 as (ts1 & Hd1 & _ & ->).
  apply generate_report_inv in H2 as (ts2 & Hd2 & _ & ->).
  cbn [files]. rewrite !lookup_insert_eq. unfold report_of.
  intros [= _ Hrs]. now apply map_report_entry_inj.
Qed.

(** Two validators that differ only in the commands they have run. *)
Lemma X7_report_determines_results_witness :
  results Samples.two_results = results (logged "git --version" Samples.two_results).
Proof.
  apply (X7_report_determines_results Samples.reference report_path
           Samples.two_results (logged "git --version" Samples.two_results)
           (snd (generate_report Samples.reference report_path Samples.two_results))
           (snd (generate_report Samples.reference report_path
                   (logged "git --version" Samples.two_results))));
    reflexivity.
Defined.

(** ** Output without a version *)

Lemma nowhere_suffix p (a b : string) : nowhere p (a +:+ b) = true -> nowhere p b = true.
Proof.
  induction a as [|x a IH]; [now rewrite append_nil|].
  rewrite append_cons. cbn [nowhere]. intros H.
  apply andb_true_iff in H as (_ & H). now apply IH.
Qed.

Lemma nowhere_head p s : nowhere p s = true -> starts_with p s = false.
Proof.
  destruct s as [|x s]; [reflexivity|]. cbn [nowhere]. intros H.
  apply andb_true_iff in H as (H & _). now apply negb_true_iff in H.
Qed.

(** A text that starts with digits starts with a digit. *)
Lemma digits_start d rest :
  digits d -> starts_with PyStr.is_decimal (d +:+ rest) = true.
Proof.
  intros (Hne & Hrun). destruct Hrun as [|c cp w Hc Hp _]; [contradiction|].
  unfold starts_with. rewrite string_app_assoc.
  now rewrite (uncons_app c cp "" (w +:+ rest) Hc (is_decimal_valid cp Hp)), Hp.
Qed.

Lemma default_version_needs_digit w m after :
  matches Patterns.default_version w m -> ~ no_digit (w +:+ after).
Proof.
  intros H Hno. apply nowhere_head in Hno.
  apply default_version_shape in H as (_ & d1 & d2 & H1 & _ & [->|(d3 & _ & ->)]);
    rewrite string_app_assoc, (digits_start d1 _ H1) in Hno; discriminate.
Qed.

Lemma java_version_needs_digit w m after :
  matches Patterns.java_version w m -> ~ no_digit (w +:+ after).
Proof.
  intros H Hno. apply java_version_shape in H as (d & Hd & _ & ->).
  rewrite string_app_assoc in Hno. apply nowhere_suffix in Hno.
  rewrite append_cons in Hno. cbn [nowhere] in Hno. apply andb_true_iff in Hno as (_ & Hno).
  apply nowhere_head in Hno. rewrite (digits_start d _ Hd) in Hno. discriminate.
Qed.

(** A character at the head of a text is still there when the text after
    it is cut short. *)
Lemma uncons_cut c cp rest t t' :
  PyStr.uncons c = Some (cp, "") ->
  PyStr.uncons (c +:+ rest) = Some (cp, rest) ->
  rest = t +:+ t' ->
  PyStr.uncons (c +:+ t) = Some (cp, t).
Proof.
  intros Hc Hs ->.
  destruct (N.lt_ge_cases cp 1114112) as [Hlt|Hge].
  - now rewrite (uncons_app c cp "" t Hc Hlt).
  - revert Hc Hs. unfold PyStr.uncons.
    destruct (Utf8.decode c) as [[cp1 r1]|] eqn:Hd.
    { intros [= -> ->]. apply decode_split in Hd as (_ & _ & _ & _ & Hlt). lia. }
    destruct c as [|b c]; [discriminate|]. intros [= <- ->].
    rewrite !append_cons, !append_nil.
    destruct (Utf8.decode (String b t)) as [[cp2 r2]|] eqn:Hd2; [|reflexivity].
    apply (decode_app _ _ _ t') in Hd2. rewrite append_cons in Hd2. rewrite Hd2.
    intros [= Hcp _]. apply decode_split in Hd2 as (_ & _ & _ & _ & Hlt). lia.
Qed.

Lemma prefix_is_prefix n : forall s, exists b, s = PyStr.prefix n s +:+ b.
Proof.
  induction n as [|n IH]; intros s; cbn [PyStr.prefix]; [now exists s|].
  destruct (PyStr.uncons s) as [[cp rest]|] eqn:Hu; [|now exists s].
  apply uncons_split in Hu as (c & -> & _). rewrite head_app.
  destruct (IH rest) as (b & Hb). exists b. now rewrite string_app_assoc, <- Hb.
Qed.

Lemma len_within_enough f1 : forall f2 s,
  (String.length s <= f1)%nat -> (String.length s <= f2)%nat ->
  PyStr.len_within f1 s = PyStr.len_within f2 s.
Proof.
  induction f1 as [|f1 IH]; intros f2 s H1 H2.
  - destruct s; [|cbn in H1; lia]. now destruct f2.
  - destruct f2 as [|f2]; [destruct s; [reflexivity | cbn in H2; lia]|].
    cbn [PyStr.len_within].
    destruct (PyStr.uncons s) as [[cp rest]|] eqn:Hu; [|reflexivity].
    apply uncons_shorter in Hu. f_equal. apply IH; lia.
Qed.

Lemma len_cons s cp rest :
  PyStr.uncons s = Some (cp, rest) -> PyStr.len s = S (PyStr.len rest).
Proof.
  intros Hu. unfold PyStr.len. pose proof (uncons_shorter _ _ _ Hu) as Hlt.
  destruct (String.length s) as [|k] eqn:Hk; [lia|].
  cbn [PyStr.len_within]. rewrite Hu. f_equal. apply len_within_enough; lia.
Qed.

(** A slice [s[:n]] has at most [n] characters. *)
Lemma prefix_len n : forall s, (PyStr.len (PyStr.prefix n s) <= n)%nat.
Proof.
  induction n as [|n IH]; intros s; cbn [PyStr.prefix]; [reflexivity|].
  destruct (PyStr.uncons s) as [[cp rest]|] eqn:Hu; [|cbv; lia].
  pose proof Hu as Hs. apply uncons_split in Hs as (c & -> & _ & Hc). rewrite head_app.
  destruct (prefix_is_prefix n rest) as (b & Hb).
  rewrite (len_cons _ cp (PyStr.prefix n rest) (uncons_cut c cp rest _ b Hc Hu Hb)).
  specialize (IH rest). lia.
Qed.

(** X8. When the tool runs but prints no decimal digit, a check with the
    default pattern or with the Java pattern returns WARNING, not FAIL,
    whether [packaging] is installed or not; its message quotes at most the
    first 100 characters of the output. *)
Theorem X8_no_version_in_output (h : Host) (command min_version : string)
    (version_pattern : option Re.regex) (st : State) (tool stdout stderr : string) :
  version_pattern = None \/ version_pattern = Some Patterns.java_version ->
  PyStr.split_first command = Some tool ->
  which h tool = true ->
  subprocess_run h command = Completed 0 stdout stderr ->
  no_digit (PyStr.strip stdout +:+ PyStr.strip stderr) ->
  exists quoted,
    check_version h command min_version version_pattern st
    = (Ok (mkValidationResult tool WARNING ("Could not parse version from: " +:+ quoted)
             None true),
       logged command st) /\
    (PyStr.len quoted <= 100)%nat /\
    quoted = PyStr.prefix 100 (PyStr.strip stdout +:+ PyStr.strip stderr).
Proof.
  intros Hpat Htool Hwhich Hrun Hno.
  exists (PyStr.prefix 100 (PyStr.strip stdout +:+ PyStr.strip stderr)).
  split; [|split; [apply prefix_len | reflexivity]].
  unfold check_version, run_command. unfold_monad.
  rewrite Htool, Hwhich, Hrun. cbn [negb Z.eqb]. cbv beta iota.
  destruct (Re.search _ _) as [m|] eqn:Hsearch; [exfalso | reflexivity].
  apply search_sound_within in Hsearch as (before & w & after & Heq & Hm).
  rewrite Heq in Hno. apply nowhere_suffix in Hno.
  destruct Hpat as [->| ->]; cbn [chosen_pattern] in Hm.
  - now apply (default_version_needs_digit w m after).
  - now apply (java_version_needs_digit w m after).
Qed.

Lemma X8_no_version_in_output_witness :
  exists quoted,
    check_version prints_usage "git --version" "2.40" None Samples.initial
    = (Ok (mkValidationResult "git" WARNING ("Could not parse version from: " +:+ quoted)
             None true),
       logged "git --version" Samples.initial) /\
    (PyStr.len quoted <= 100)%nat /\
    quoted = PyStr.prefix 100 (PyStr.strip "" +:+ PyStr.strip "usage: git [--help] <command>").
Proof.
  apply (X8_no_version_in_output prints_usage "git --version" "2.40" None
           Samples.initial "git" "" "usage: git [--help] <command>");
    try reflexivity.
  now left.
Defined.

(** ** What each group of checks returns *)







(** ** The Docker checks *)

Lemma docker_memory_block_shape stdout rs st rs' st' :
  docker_memory_block stdout rs st = (Ok rs', st') ->
  st' = st /\
  (rs' = rs \/
   exists memory,
     rs' = rs ++ [memory] /\ name memory = "Docker Memory" /\
     (status memory = PASS /\ required memory = true \/
      status memory = WARNING /\ required memory = true \/
      status memory = INFO /\ required memory = false)).
Proof.
  unfold docker_memory_block. unfold_monad.
  repeat (split_match; unfold_monad); intros [= <- <-]; (split; [reflexivity|]);
    first [ left; reflexivity
          | right; eexists; split; [reflexivity|]; split; [reflexivity|]; cbn; auto ].
Qed.

(** X11. The Docker configuration check runs [docker info] once.  When the
    command fails (the daemon is down, or the command hangs or cannot be
    launched) the only result is Docker Daemon FAIL, with the error text.
    When it succeeds the first result is Docker Daemon PASS, followed by at
    most one Docker Memory result, which is PASS, WARNING or an optional
    INFO: the memory given to Docker never fails the run. *)
Theorem X11_docker_configuration (h : Host) (st : State) :
  exists exit_code stdout stderr daemon rest,
    run_command h "docker info" st
    = (Ok (exit_code, stdout, stderr), logged "docker info" st) /\
    check_docker_configuration h st = (Ok (daemon :: rest), logged "docker info" st) /\
    (exit_code <> 0%Z ->
     daemon = mkValidationResult "Docker Daemon" FAIL ("Not running: " +:+ stderr)
                None true /\
     rest = []) /\
    (exit_code = 0%Z ->
     daemon = mkValidationResult "Docker Daemon" PASS "Running" None true /\
     (rest = [] \/
      exists memory,
        rest = [memory] /\ name memory = "Docker Memory" /\
        (status memory = PASS /\ required memory = true \/
         status memory = WARNING /\ required memory = true \/
         status memory = INFO /\ required memory = false))).
Proof.
  destruct (run_command_total h "docker info" st) as (code & out & err & Hrun).
  unfold check_docker_configuration. rewrite (bind_ok _ _ _ _ _ Hrun).
  destruct (code =? 0)%Z eqn:Hcode.
  - apply Z.eqb_eq in Hcode as ->.
    destruct (docker_memory_block_total out ([] ++ [Result "Docker Daemon" PASS "Running"])
                (logged "docker info" st)) as (rs' & st' & Hmem).
    rewrite (bind_ok _ _ _ _ _ Hmem).
    apply docker_memory_block_shape in Hmem as (-> & [->|(memory & -> & Hmemory)]).
    + eexists 0%Z, out, err, _, []. split; [exact Hrun|]. split; [reflexivity|].
      split; [contradiction|]. intros _. split; [reflexivity | now left].
    + eexists 0%Z, out, err, _, [memory]. split; [exact Hrun|]. split; [reflexivity|].
      split; [contradiction|]. intros _. split; [reflexivity|]. right. now exists memory.
  - apply Z.eqb_neq in Hcode.
    eexists code, out, err, _, []. split; [exact Hrun|]. split; [reflexivity|].
    split; [now intros _ | contradiction].
Qed.

(** X12. A memory figure that [docker info] gives in a unit that starts
    neither with g nor with m (TiB, KiB, bytes) counts as 0 GB: the result
    is WARNING with [0.0 GB allocated], however large the figure. *)
Theorem X12_docker_memory_unknown_unit (stdout : string) (m : Re.captures)
    (figure unit : string) (value : PyFloat.float)
    (rs : list ValidationResult) (st : State) :
  PyStr.contains "Total Memory:" stdout = true ->
  Re.search Patterns.docker_memory stdout = Some m ->
  Re.group m 1 = Some figure ->
  PyFloat.of_string figure = Some value ->
  Re.group m 2 = Some unit ->
  PyStr.startswith "g" (PyStr.lower unit) = false ->
  PyStr.startswith "m" (PyStr.lower unit) = false ->
  docker_memory_block stdout rs st
  = (Ok (rs ++ [mkValidationResult "Docker Memory" WARNING
                  "0.0 GB allocated (< 8 GB recommended)" None true]), st).
Proof.
  intros Hc Hs Hg1 Hf Hg2 Hng Hnm.
  unfold docker_memory_block. unfold_monad.
  now rewrite Hc, Hs, Hg1, Hf, Hg2, Hng, Hnm.
Qed.

(** Docker with 2 TiB of memory. *)
Lemma X12_docker_memory_unknown_unit_witness :
  docker_memory_block "Total Memory: 2TiB" [] Samples.initial
  = (Ok ([] ++ [mkValidationResult "Docker Memory" WARNING
                  "0.0 GB allocated (< 8 GB recommended)" None true]),
     Samples.initial).
Proof.
  apply (X12_docker_memory_unknown_unit "Total Memory: 2TiB"
           [(2%nat, "TiB"); (1%nat, "2")] "2" "TiB"
           (PyFloat.Finite (4503599627370496 # 2251799813685248)));
    reflexivity.
Defined.

(** ** The size of a run *)








Lemma check_network_ports_optional h st rs st' :
  check_network_ports h st = (Ok rs, st') ->
  length rs = 6%nat /\ Forall (fun r => required r = false) rs.
Proof.
  intros H. unfold check_network_ports in H.
  destruct (check_ports_spec h required_ports [] st) as (rs0 & Hrs0 & Hall).
  rewrite Hrs0 in H. injection H as <- <-. cbn [app].
  split; [symmetry; exact (Forall2_length _ _ _ Hall)|].
  clear Hrs0. generalize dependent required_ports. intros ports Hall.
  induction Hall as [|port r ports rs0 Hr _ IH]; constructor; [|exact IH].
  now destruct (check_port_optional _ _ _ _ _ Hr).
Qed.

Lemma check_ide_tools_optional h st rs st' :
  check_ide_tools h st = (Ok rs, st') ->
  length rs = 1%nat /\ Forall (fun r => required r = false) rs.
Proof.
  unfold check_ide_tools. intros H. inv_bind H. inv_ret H.
  split; [reflexivity|]. now repeat constructor.
Qed.



(** X14. In a run that returns, every result of the categories Network
    Ports and IDE Tools is optional: neither can change the exit code. *)
Theorem X14_optional_categories (h : Host) (st : State)
    (checks : list (string * list ValidationResult)) (st' : State) :
  run_all_checks h st = (Ok checks, st') ->
  Forall (fun check =>
            fst check = "Network Ports" \/ fst check = "IDE Tools" ->
            Forall (fun r => required r = false) (snd check))
    checks.
Proof.
  intros H. unfold run_all_checks in H.
  inv_bind H. inv_bind H. inv_bind H. inv_bind H. inv_bind H. inv_bind H. inv_bind H.
  inv_bind H. inv_ret H.
  apply check_network_ports_optional in Hstep4 as (_ & Hports).
  apply check_ide_tools_optional in Hstep5 as (_ & Hide).
  repeat first [apply Forall_nil_2 | apply Forall_cons_2];
    cbn [fst snd]; intros [Hcat|Hcat]; try discriminate Hcat; assumption.
Qed.

Lemma reference_run :
  run_all_checks Samples.reference Samples.initial
  = (Ok reference_checks, snd (run_all_checks Samples.reference Samples.initial)).
Proof. vm_compute. reflexivity. Qed.

(** The run on the reference machine. *)
Lemma X14_optional_categories_witness :
  Forall (fun check =>
            fst check = "Network Ports" \/ fst check = "IDE Tools" ->
            Forall (fun r => required r = false) (snd check))
    reference_checks.
Proof.
  exact (X14_optional_categories Samples.reference Samples.initial reference_checks
           (snd (run_all_checks Samples.reference Samples.initial)) reference_run).
Defined.

(** ** Thresholds in bytes *)

Lemma round_half_even_exact (q : Z) (d : positive) :
  PyFloat.round_half_even (q * Zpos d) d = q.
Proof.
  unfold PyFloat.round_half_even.
  rewrite Z.div_mul by lia. rewrite Z.mod_mul by lia.
  cbn [Z.mul]. now destruct (0 <? Zpos d)%Z eqn:H; [|apply Z.ltb_ge in H; lia].
Qed.

(** A byte count below 2^53, divided by 2^30, is a float without
    rounding. *)
Lemma gigabytes_exact (total : N) :
  (total < 2 ^ 53)%N ->
  exists q,
    PyFloat.int_truediv total (2 ^ 30) = Some (PyFloat.Finite q) /\
    (q == Z.of_N total # 2 ^ 30)%Q.
Proof.
  intros Hlt. unfold PyFloat.int_truediv, PyFloat.binary64.
  cbn [Qnum Qden].
  destruct (Z.of_N total <=? 0)%Z eqn:Hz.
  - exists 0%Q. split; [reflexivity|]. apply Z.leb_le in Hz.
    assert (Z.of_N total = 0)%Z as -> by lia. reflexivity.
  - apply Z.leb_gt in Hz. set (n := Z.of_N total) in *.
    assert (Hn : (n < 2 ^ 53)%Z).
    { unfold n. change (2 ^ 53)%Z with (Z.of_N (2 ^ 53)). lia. }
    pose proof (Z.log2_spec n Hz) as (Hlo & Hhi).
    assert (Hlog : (0 <= Z.log2 n <= 52)%Z).
    { split; [apply Z.log2_nonneg|].
      destruct (Z.le_gt_cases (Z.log2 n) 52) as [|Hgt]; [assumption|].
      assert (2 ^ 53 <= 2 ^ Z.log2 n)%Z by (apply Z.pow_le_mono_r; lia). lia. }
    assert (He : PyFloat.ulp_exponent n (2 ^ 30) = (Z.log2 n - 82)%Z).
    { unfold PyFloat.ulp_exponent.
      change (Z.log2 (Z.pos (2 ^ 30))) with 30%Z.
      change (Z.pos (2 ^ 30)) with (2 ^ 30)%Z.
      destruct (0 <=? Z.log2 n - 30)%Z eqn:Hl.
      - apply Z.leb_le in Hl.
        assert (Hpow : (2 ^ 30 * 2 ^ (Z.log2 n - 30) = 2 ^ Z.log2 n)%Z).
        { rewrite <- Z.pow_add_r by lia. f_equal. lia. }
        rewrite Hpow.
        destruct (n <? 2 ^ Z.log2 n)%Z eqn:Hb; [apply Z.ltb_lt in Hb; lia | lia].
      - apply Z.leb_gt in Hl.
        assert (Hpow : (2 ^ Z.log2 n * 2 ^ (- (Z.log2 n - 30)) = 2 ^ 30)%Z).
        { rewrite <- Z.pow_add_r by lia. f_equal. lia. }
        assert (Hpos : (0 < 2 ^ (- (Z.log2 n - 30)))%Z) by (apply Z.pow_pos_nonneg; lia).
        destruct (n * 2 ^ (- (Z.log2 n - 30)) <? 2 ^ 30)%Z eqn:Hb; [|lia].
        apply Z.ltb_lt in Hb. nia. }
    rewrite He.
    assert (Hneg : (Z.log2 n - 82 < 0)%Z) by lia.
    rewrite (Z.pow_neg_r 2 _ Hneg), Z.mul_0_r.
    change (2 ^ 1024 <=? 0)%Z with false.
    destruct (0 <=? Z.log2 n - 82)%Z eqn:Hs; [apply Z.leb_le in Hs; lia|].
    eexists. split; [reflexivity|].
    unfold PyFloat.scaled. rewrite Hs.
    assert (Hsplit : (n * 2 ^ (- (Z.log2 n - 82))
                      = (n * 2 ^ (52 - Z.log2 n)) * Z.pos (2 ^ 30))%Z).
    { change (Z.pos (2 ^ 30)) with (2 ^ 30)%Z.
      rewrite <- Z.mul_assoc, <- Z.pow_add_r by lia. do 2 f_equal. lia. }
    rewrite Hsplit, round_half_even_exact.
    unfold Qeq. cbn [Qnum Qden].
    rewrite Z2Pos.id by (apply Z.pow_pos_nonneg; lia).
    rewrite <- Hsplit. lia.
Qed.

Lemma Qle_bytes (k n : Z) : (inject_Z k <= n # 2 ^ 30)%Q <-> (k * 2 ^ 30 <= n)%Z.
Proof. unfold Qle. cbn [Qnum Qden inject_Z]. change (Z.pos (2 ^ 30)) with (2 ^ 30)%Z. lia. Qed.

Lemma Qlt_bytes (k n : Z) : (n # 2 ^ 30 < inject_Z k)%Q <-> (n < k * 2 ^ 30)%Z.
Proof. unfold Qlt. cbn [Qnum Qden inject_Z]. change (Z.pos (2 ^ 30)) with (2 ^ 30)%Z. lia. Qed.

Lemma tier_in_bytes (recommended minimum n : Z) (q : Q) (s : ValidationStatus) :
  (q == n # 2 ^ 30)%Q ->
  three_tier (inject_Z recommended) (inject_Z minimum) q s ->
  s = if (recommended * 2 ^ 30 <=? n)%Z then PASS
      else if (minimum * 2 ^ 30 <=? n)%Z then WARNING else FAIL.
Proof.
  intros Hq (Hpass & Hwarn & Hfail). rewrite Hq in Hpass, Hwarn, Hfail.
  rewrite Qle_bytes in Hpass. rewrite Qle_bytes, Qlt_bytes in Hwarn.
  rewrite Qlt_bytes in Hfail.
  destruct (recommended * 2 ^ 30 <=? n)%Z eqn:Hr.
  - apply Z.leb_le in Hr. auto.
  - apply Z.leb_gt in Hr. destruct (minimum * 2 ^ 30 <=? n)%Z eqn:Hm.
    + apply Z.leb_le in Hm. auto.
    + apply Z.leb_gt in Hm. auto.
Qed.

(** X15. For byte counts below 2^53 the division by 1024**3 is exact, so
    the thresholds are thresholds on bytes: System Memory is PASS from 16
    GiB, WARNING from 8 GiB and FAIL below; Disk Space is PASS from 100
    GiB free, WARNING from 50 GiB and FAIL below. *)
Theorem X15_thresholds_in_bytes (h : Host) (st : State) (total free : N) :
  psutil_total h = Ok total ->
  disk_free h = Ok free ->
  (total < 2 ^ 53)%N ->
  (free < 2 ^ 53)%N ->
  exists os arch memory disk,
    check_system_requirements h st = (Ok [os; arch; memory; disk], st) /\
    status memory
    = (if (16 * GiB <=? total)%N then PASS
       else if (8 * GiB <=? total)%N then WARNING else FAIL) /\
    status disk
    = (if (100 * GiB <=? free)%N then PASS
       else if (50 * GiB <=? free)%N then WARNING else FAIL).
Proof.
  intros Hmem Hdisk Htotal Hfree.
  destruct (gigabytes_exact total Htotal) as (qm & Hqm & Heqm).
  destruct (gigabytes_exact free Hfree) as (qd & Hqd & Heqd).
  assert (Hok : memory_query_ok h).
  { unfold memory_query_ok. rewrite Hmem, Hqm. now eexists. }
  unfold check_system_requirements.
  destruct (operating_system_block_spec h []) as (os & -> & _).
  destruct (architecture_block_spec h ([] ++ [os])) as (arch & -> & _).
  destruct (memory_block_spec h (([] ++ [os]) ++ [arch]) st Hok)
    as (memory & Hrun_mem & _ & _ & Htier_mem).
  destruct (disk_block_spec h ((([] ++ [os]) ++ [arch]) ++ [memory]) st)
    as (disk & Hrun_disk & _ & Htier_disk & _).
  exists os, arch, memory, disk.
  rewrite (bind_ok _ _ _ _ _ Hrun_mem), (bind_ok _ _ _ _ _ Hrun_disk).
  split; [reflexivity|].
  destruct (Htier_mem total qm Hmem Hqm) as (_ & Hm).
  destruct (Htier_disk free qd Hdisk Hqd) as (_ & Hd & _).
  apply (tier_in_bytes 16 8 _ _ _ Heqm) in Hm.
  apply (tier_in_bytes 100 50 _ _ _ Heqd) in Hd.
  rewrite Hm, Hd. unfold GiB. split.
  - destruct (16 * 2 ^ 30 <=? total)%N eqn:H16, (8 * 2 ^ 30 <=? total)%N eqn:H8;
      repeat match goal with
             | H : (_ <=? _)%N = true |- _ => apply N.leb_le in H
             | H : (_ <=? _)%N = false |- _ => apply N.leb_gt in H
             end;
      repeat match goal with
             | |- context [(?a <=? ?b)%Z] =>
                 destruct (Z.leb_spec a b)
             end; try reflexivity; lia.
  - destruct (100 * 2 ^ 30 <=? free)%N eqn:H100, (50 * 2 ^ 30 <=? free)%N eqn:H50;
      repeat match goal with
             | H : (_ <=? _)%N = true |- _ => apply N.leb_le in H
             | H : (_ <=? _)%N = false |- _ => apply N.leb_gt in H
             end;
      repeat match goal with
             | |- context [(?a <=? ?b)%Z] =>
                 destruct (Z.leb_spec a b)
             end; try reflexivity; lia.
Qed.

(** Memory and disk on [Samples.busy]: 32 GiB and 40 GiB. *)
Lemma X15_thresholds_in_bytes_witness :
  exists os arch memory disk,
    check_system_requirements Samples.busy Samples.initial
    = (Ok [os; arch; memory; disk], Samples.initial) /\
    status memory
    = (if (16 * GiB <=? 32 * 2 ^ 30)%N then PASS
       else if (8 * GiB <=? 32 * 2 ^ 30)%N then WARNING else FAIL) /\
    status disk
    = (if (100 * GiB <=? 40 * 2 ^ 30)%N then PASS
       else if (50 * GiB <=? 40 * 2 ^ 30)%N then WARNING else FAIL).
Proof.
  apply (X15_thresholds_in_bytes Samples.busy Samples.initial
           (32 * 2 ^ 30) (40 * 2 ^ 30)); reflexivity.
Defined.

(** ** A version at the minimum *)

Lemma tuple_compare_refl v : Packaging.tuple_compare v v = Eq.
Proof.
  induction v as [|x v IH]; [reflexivity|].
  cbn [Packaging.tuple_compare]. now rewrite N.compare_refl.
Qed.

Lemma packaging_ge_refl v : Packaging.ge v v = true.
Proof. unfold Packaging.ge, Packaging.compare. now rewrite tuple_compare_refl. Qed.

Lemma pystr_ge_refl s : PyStr.ge s s = true.
Proof. unfold PyStr.ge. now destruct (String.leb_total s s). Qed.

(** X16. A tool whose extracted version is, as a text, the minimum itself
    passes, with [packaging] (when the minimum is a version it can parse)
    and without it. *)
Theorem X16_version_at_minimum_passes (h : Host) (command min_version : string)
    (version_pattern : option Re.regex) (st : State)
    (tool stdout stderr : string) (m : Re.captures) :
  PyStr.split_first command = Some tool ->
  which h tool = true ->
  subprocess_run h command = Completed 0 stdout stderr ->
  Re.search (chosen_pattern version_pattern) (PyStr.strip stdout +:+ PyStr.strip stderr)
  = Some m ->
  Re.group m 1 = Some min_version ->
  (packaging_installed h = true -> is_Some (Packaging.parse min_version)) ->
  check_version h command min_version version_pattern st
  = (Ok (mkValidationResult tool PASS
           ("Version " +:+ min_version +:+ " (>= " +:+ min_version +:+ ")") None true),
     logged command st).
Proof.
  intros Htool Hwhich Hrun Hsearch Hgroup Hparse.
  destruct (packaging_installed h) eqn:Hpkg.
  - destruct (Hparse eq_refl) as (v & Hv).
    rewrite (check_version_packaging h command min_version version_pattern st tool
               Htool stdout stderr m min_version Hwhich Hrun Hsearch Hgroup
               v v Hpkg Hv Hv).
    now rewrite packaging_ge_refl.
  - rewrite (check_version_fallback h command min_version version_pattern st tool
               Htool stdout stderr m min_version Hwhich Hrun Hsearch Hgroup Hpkg).
    now rewrite pystr_ge_refl.
Qed.

Lemma X16_version_at_minimum_passes_witness :
  check_version git_at_minimum "git --version" "2.40" None Samples.initial
  = (Ok (mkValidationResult "git" PASS
           ("Version " +:+ "2.40" +:+ " (>= " +:+ "2.40" +:+ ")") None true),
     logged "git --version" Samples.initial).
Proof.
  apply (X16_version_at_minimum_passes git_at_minimum "git --version" "2.40" None
           Samples.initial "git" "git version 2.40" "" [(1%nat, "2.40")]);
    try reflexivity.
  intros _. now eexists.
Defined.

(** ** When a check raises *)


Lemma uncons_none s : PyStr.uncons s = None -> s = "".
Proof.
  unfold PyStr.uncons. destruct (Utf8.decode s) as [[cp rest]|]; [discriminate|].
  now destruct s.
Qed.








(** X18. An error of the memory query other than [ImportError] is not
    caught: [run_all_checks] raises it before any command is run, and
    [main] exits with code 1, holding no result and writing no report. *)
Theorem X18_memory_error_aborts_run (h : Host) (st : State) (e : exn) :
  psutil_total h = Raise e ->
  is_ImportError e = false ->
  run_all_checks h st = (Raise e, st) /\
  fst (main h st) = 1%Z /\
  results (snd (main h st)) = [] /\
  executed (snd (main h st)) = executed st /\
  files (snd (main h st)) = files st.
Proof.
  intros Hmem Hclass.
  assert (Hrun : forall st0, run_all_checks h st0 = (Raise e, st0)).
  { intros st0. unfold run_all_checks, check_system_requirements.
    unfold memory_block at 1. unfold try_except, bind at 1 2 3, lift.
    now rewrite Hmem, Hclass. }
  split; [apply Hrun|].
  destruct (main_cases h st)
    as [(e0 & st0 & Hann & ->)
       |(st0 & Hann & [(e0 & st1 & Hrun1 & ->)|(checks & st1 & Hrun1 & _)])];
    cbn [fst snd].
  - apply quiet_announce in Hann as (-> & -> & ->). auto.
  - rewrite Hrun in Hrun1. injection Hrun1 as <- <-.
    destruct (report_failure h e st0) as [res st4] eqn:Hfail. cbn [snd].
    apply quiet_report_failure in Hfail as (-> & -> & ->).
    apply quiet_announce in Hann as (-> & -> & ->). auto.
  - rewrite Hrun in Hrun1. discriminate.
Qed.

Lemma X18_memory_error_aborts_run_witness :
  run_all_checks Samples.memory_query_fails Samples.initial
  = (Raise (OSError "[Errno 13] Permission denied: '/proc/meminfo'"), Samples.initial) /\
  fst (main Samples.memory_query_fails Samples.initial) = 1%Z /\
  results (snd (main Samples.memory_query_fails Samples.initial)) = [] /\
  executed (snd (main Samples.memory_query_fails Samples.initial))
  = executed Samples.initial /\
  files (snd (main Samples.memory_query_fails Samples.initial)) = files Samples.initial.
Proof.
  apply (X18_memory_error_aborts_run Samples.memory_query_fails Samples.initial);
    reflexivity.
Defined.

(** ** What the default pattern extracts *)



(** ** The Java check *)









